(** * Watcher bot: record store, TTL cache, renumbering, session manager,
    menu actions, start-up and periodic check

    A shallow embedding of [index.js].  The JavaScript is written against a
    single-threaded event loop: an [async] function runs without
    interruption up to its next [await].  Programs are therefore embedded in
    a small free monad [prog] whose nodes read and update the process state
    and mark the suspension points; one interpreter ([run]) lets a program
    run alone to completion, a second one ([step]) interleaves the tasks of
    the event loop, timers and connection events. *)

From Stdlib Require Import ZArith String.
From stdpp Require Import base option list gmap strings pretty sorting.

Local Open Scope string_scope.
Local Open Scope Z_scope.

(** ** JavaScript values *)

(** Defined primitive values, as [JSON.parse] yields them inside a record.
    A property read has type [option jsval]; [None] is [undefined]. *)
Inductive jsval :=
| VNull
| VBool (b : bool)
| VNum (n : Z)
| VStr (s : string).

#[global] Instance jsval_eq_dec : EqDecision jsval.
Proof. solve_decision. Defined.

(** A flat object: own properties only. *)
Abbreviation doc := (gmap string jsval).

(** ToBoolean. *)
Definition truthy (v : option jsval) : bool :=
  match v with
  | None | Some VNull => false
  | Some (VBool b) => b
  | Some (VNum n) => negb (Z.eqb n 0)
  | Some (VStr s) => negb (String.eqb s "")
  end.

(** ToPropertyKey on a primitive (integers print in decimal). *)
Definition prop_key (v : option jsval) : string :=
  match v with
  | None => "undefined"
  | Some VNull => "null"
  | Some (VBool true) => "true"
  | Some (VBool false) => "false"
  | Some (VNum n) => pretty n
  | Some (VStr s) => s
  end.

(** A query object; its values may be [undefined]. *)
Abbreviation query := (gmap string (option jsval)).

(** [Object.keys(query).every(key => s[key] === query[key])]. *)
Definition matches (query : query) (s : doc) : Prop :=
  map_Forall (λ key v, s !! key = v) query.

#[global] Instance matches_dec query s : Decision (matches query s).
Proof. unfold matches. apply _. Defined.

(** A value of the configuration document. *)
Inductive cval :=
| CPrim (v : jsval)
| CList (l : list jsval).

(** What a table file parses to: an array of records or one object. *)
Inductive json :=
| JArr (rows : list doc)
| JObj (fields : gmap string cval).

(** ** Exceptions *)

Inductive exn :=
| FsError (code : string)          (* rejected fs call; [error.code] *)
| SyntaxError                      (* JSON.parse *)
| TypeError (what : string)
| NetError (message : string)      (* probe or connect failure *)
| TelegramError (description : string).

(** ** Process state *)

(** A file of the data directory.  The text of a readable file is kept as
    what [JSON.parse] makes of it: [Text None] is text that does not parse. *)
Inductive fstate :=
| Text (parsed : option json)
| Faulty (code : string).          (* fs.readFile rejects with this code *)

(** An entry of [activeClients]. *)
Record botInfo := BotInfo {
  client : nat;                    (* handle of the protocol client *)
  type : string;
  serverId : option jsval;
  startTime : Z
}.

Abbreviation protocolMap := (gmap string (gmap string jsval)).

(** The Telegram context of a request; [None] is a call without context. *)
Abbreviation context := (option Z).

Inductive message :=
| Msg (key : string)               (* ctx.i18n.t(key, ...) *)
| Menu (server : doc)              (* getManageServerMenu(server) *)
| Notice (server : doc).           (* the disconnect notice to the owner *)

Inductive uicall :=
| EditMessageText (chat : Z) (m : message)
| AnswerCbQuery (chat : Z) (m : message)
| SendMessage (to : option jsval) (m : message).

(** Listeners attached to a protocol client, as the closures they are:
    the variables each one captured. *)
Inductive listener :=
| OnSpawn (ctx : context) (server : doc)
| OnDisconnect (server : doc) (versions : protocolMap)
| OnError (server : doc) (versions : protocolMap).

Record clientOptions := ClientOptions {
  host : option jsval;
  port : option jsval;
  username : option jsval;
  version : jsval;
  offline : bool
}.

Record connection := Connection {
  options : clientOptions;
  listeners : list listener;
  closed : option string           (* teardown call made: "disconnect" / "quit" *)
}.

(** A pending [setTimeout], as the closure it holds. *)
Inductive callback :=
| Restart (server : doc) (versions : protocolMap)
    (* () => startBedrockBot(null, currentServer, versions) *)
| RefreshMenu (chat : Z) (id : option jsval).

Record timer := Timer {
  armed : Z;                       (* Date.now() at the setTimeout call *)
  delay : Z;
  action : callback
}.

Inductive probed :=
| Responds (protocol : Z) (name : string)
| Fails (message : string).

(** The collaborators: what an external call would answer. *)
Record environment := Environment {
  statusBedrock : option jsval → option jsval → probed;
  createClient : clientOptions → option string;   (* Some: throws *)
  telegram : uicall → option string;               (* Some: rejects *)
  teardown : nat → option string                   (* Some: throws *)
}.

Record world := World {
  now : Z;                                 (* Date.now() *)
  files : gmap string fstate;              (* absent: ENOENT *)
  wfault : gmap string string;             (* fs.writeFile rejects *)
  written : list string;                   (* completed fs.writeFile calls *)
  dbLocks : gmap string bool;
  activeClients : gmap string botInfo;
  clients : list connection;               (* every client created *)
  timers : list timer;
  console : list string;
  outbox : list uicall;                    (* Telegram calls made *)
  env : environment
}.

Definition set_files (f : gmap string fstate → gmap string fstate) (w : world) :=
  World (now w) (f (files w)) (wfault w) (written w) (dbLocks w)
        (activeClients w) (clients w) (timers w) (console w) (outbox w) (env w).
Definition set_written (f : list string → list string) (w : world) :=
  World (now w) (files w) (wfault w) (f (written w)) (dbLocks w)
        (activeClients w) (clients w) (timers w) (console w) (outbox w) (env w).
Definition set_dbLocks (f : gmap string bool → gmap string bool) (w : world) :=
  World (now w) (files w) (wfault w) (written w) (f (dbLocks w))
        (activeClients w) (clients w) (timers w) (console w) (outbox w) (env w).
Definition set_activeClients
    (f : gmap string botInfo → gmap string botInfo) (w : world) :=
  World (now w) (files w) (wfault w) (written w) (dbLocks w)
        (f (activeClients w)) (clients w) (timers w) (console w) (outbox w) (env w).
Definition set_clients (f : list connection → list connection) (w : world) :=
  World (now w) (files w) (wfault w) (written w) (dbLocks w)
        (activeClients w) (f (clients w)) (timers w) (console w) (outbox w) (env w).
Definition set_timers (f : list timer → list timer) (w : world) :=
  World (now w) (files w) (wfault w) (written w) (dbLocks w)
        (activeClients w) (clients w) (f (timers w)) (console w) (outbox w) (env w).
Definition set_console (f : list string → list string) (w : world) :=
  World (now w) (files w) (wfault w) (written w) (dbLocks w)
        (activeClients w) (clients w) (timers w) (f (console w)) (outbox w) (env w).
Definition set_outbox (f : list uicall → list uicall) (w : world) :=
  World (now w) (files w) (wfault w) (written w) (dbLocks w)
        (activeClients w) (clients w) (timers w) (console w) (f (outbox w)) (env w).
Definition set_now (f : Z → Z) (w : world) :=
  World (f (now w)) (files w) (wfault w) (written w) (dbLocks w)
        (activeClients w) (clients w) (timers w) (console w) (outbox w) (env w).
Definition set_env (f : environment → environment) (w : world) :=
  World (now w) (files w) (wfault w) (written w) (dbLocks w)
        (activeClients w) (clients w) (timers w) (console w) (outbox w) (f (env w)).

(** ** Programs *)

Inductive prog (A : Type) : Type :=
| Ret (a : A)
| Throw (e : exn)
| Get (k : world → prog A)
| Upd (f : world → world) (k : prog A)
| Block (ready : world → bool) (k : prog A).
    (* suspended; resumable once [ready] holds *)

Arguments Ret {A} a.
Arguments Throw {A} e.
Arguments Get {A} k.
Arguments Upd {A} f k.
Arguments Block {A} ready k.

Fixpoint bind {A B} (p : prog A) (k : A → prog B) : prog B :=
  match p with
  | Ret a => k a
  | Throw e => Throw e
  | Get g => Get (λ w, bind (g w) k)
  | Upd f q => Upd f (bind q k)
  | Block r q => Block r (bind q k)
  end.

(** [try { p } catch (e) { h e }]. *)
Fixpoint try_catch {A} (p : prog A) (h : exn → prog A) : prog A :=
  match p with
  | Ret a => Ret a
  | Throw e => h e
  | Get g => Get (λ w, try_catch (g w) h)
  | Upd f q => Upd f (try_catch q h)
  | Block r q => Block r (try_catch q h)
  end.

(** [try { p } finally { f }]. *)
Fixpoint finally {A} (p : prog A) (f : prog unit) : prog A :=
  match p with
  | Ret a => bind f (λ _, Ret a)
  | Throw e => bind f (λ _, Throw e)
  | Get g => Get (λ w, finally (g w) f)
  | Upd u q => Upd u (finally q f)
  | Block r q => Block r (finally q f)
  end.

#[global] Instance prog_ret : MRet prog := @Ret.
#[global] Instance prog_bind : MBind prog := λ A B k p, bind p k.

(** [await p]: the continuation runs in a later turn of the loop. *)
Definition await {A} (p : prog A) : prog A :=
  x ← p; Block (λ _, true) (Ret x).

(** [try { await p } catch (e) { /* ignore */ }]. *)
Definition ignoring (p : prog unit) : prog unit :=
  try_catch p (λ _, Ret tt).

Definition modify (f : world → world) : prog unit := Upd f (Ret tt).
Definition log (line : string) : prog unit :=
  modify (set_console (λ c, (c ++ [line])%list)).

(** *** Running alone *)

Inductive outcome (A : Type) :=
| Ok (a : A)
| Err (e : exn)
| Stuck.                            (* waits for something nobody does *)

Arguments Ok {A} a.
Arguments Err {A} e.
Arguments Stuck {A}.

Fixpoint run {A} (p : prog A) (w : world) : outcome A * world :=
  match p with
  | Ret a => (Ok a, w)
  | Throw e => (Err e, w)
  | Get k => run (k w) w
  | Upd f k => run k (f w)
  | Block ready k => if ready w then run k w else (Stuck, w)
  end.

(** Up to the next suspension point. *)
Fixpoint advance {A} (p : prog A) (w : world) : prog A * world :=
  match p with
  | Get k => advance (k w) w
  | Upd f k => advance k (f w)
  | _ => (p, w)
  end.

(** ** Record store *)

Definition locked (w : world) (file : string) : bool :=
  match dbLocks w !! file with Some b => b | None => false end.

Definition acquireLock (file : string) : prog unit :=
  Get (λ w,
    if locked w file
    then Block (λ w', negb (locked w' file))          (* the polling loop *)
           (modify (set_dbLocks (<[file := true]>)))
    else modify (set_dbLocks (<[file := true]>))).

Definition releaseLock (file : string) : prog unit :=
  modify (set_dbLocks (delete file)).

Definition default_for (file : string) : json :=
  if String.eqb file "users.json" then JArr []
  else if String.eqb file "servers.json" then JArr []
  else if String.eqb file "config.json" then JObj ∅
  else if String.eqb file "versions.json" then JArr []
  else JObj ∅.

(** [await fs.readFile(filePath, 'utf-8')]. *)
Definition readFile (file : string) : prog (option json) :=
  Block (λ _, true) (Get (λ w,
    match files w !! file with
    | None => Throw (FsError "ENOENT")
    | Some (Faulty code) => Throw (FsError code)
    | Some (Text data) => Ret data
    end)).

Definition JSON_parse (data : option json) : prog json :=
  match data with
  | Some v => Ret v
  | None => Throw SyntaxError
  end.

Definition is_ENOENT (error : exn) : bool :=
  match error with
  | FsError code => String.eqb code "ENOENT"
  | _ => false
  end.

Definition is_SyntaxError (error : exn) : bool :=
  match error with
  | SyntaxError => true
  | _ => false
  end.

Definition readDb (file : string) : prog json :=
  await (acquireLock file);;
  finally
    (try_catch
       (data ← readFile file;
        JSON_parse data)
       (λ error,
          if is_ENOENT error then Ret (default_for file)
          else if is_SyntaxError error then
            log ("Syntax error in " +:+ file +:+ ", returning default.");;
            Ret (default_for file)
          else
            log ("Error reading database file " +:+ file);;
            Throw error))
    (releaseLock file).

(** [await fs.writeFile(filePath, JSON.stringify(data, null, 2), 'utf-8')]:
    the text written parses back to [data]. *)
Definition writeFile (file : string) (data : json) : prog unit :=
  Block (λ _, true) (Get (λ w,
    match wfault w !! file with
    | Some code => Throw (FsError code)
    | None =>
        modify (λ w, set_written (λ l, (l ++ [file])%list)
                       (set_files (<[file := Text (Some data)]>) w))
    end)).

Definition writeDb (file : string) (data : json) : prog unit :=
  await (acquireLock file);;
  finally
    (try_catch
       (writeFile file data)
       (λ error,
          log ("Error writing to database file " +:+ file);;
          Throw error))
    (releaseLock file).

(** [servers.find is not a function]: the array methods of a table that is
    not an array. *)
Definition as_array (table : json) : prog (list doc) :=
  match table with
  | JArr rows => Ret rows
  | JObj _ => Throw (TypeError "not a function")
  end.

(** [Object.keys(update)[0]] and [update[operation]]. *)
Definition payload_of (update : list (string * doc)) : doc :=
  match update with
  | (operation, payload) :: _ => payload
  | [] => ∅                         (* spreading undefined adds nothing *)
  end.

(** [$set] patches. *)
Definition set_ (payload : doc) : list (string * doc) := [("$set", payload)].

(** The administrator's Telegram id. *)
Definition ADMIN_ID : Z := 7743455759.

(** [table.length]: the length of an array, the property of that name of
    an object. *)
Definition length_of (table : json) : option cval :=
  match table with
  | JArr rows => Some (CPrim (VNum (Z.of_nat (length rows))))
  | JObj fields => fields !! "length"
  end.

Module Users.
Definition find : prog json := await (readDb "users.json").

Definition findOne (query : query) : prog (option doc) :=
  users ← await find;
  rows ← as_array users;
  Ret (snd <$> list_find (matches query) rows).

Section Clock.
(** [Date.prototype.toISOString], from milliseconds. *)
Variable toISOString : Z → string.

Definition create (userData : doc) : prog doc :=
  users ← await find;
  Get (λ w,
    let newUser : doc :=
      {[ "isBanned" := VBool false;
         "isAdmin" := VBool (bool_decide (userData !! "userId" = Some (VNum ADMIN_ID)));
         "joinedAt" := VStr (toISOString (now w));
         "language" := default VNull (userData !! "language") ]} ∪ userData in
    rows ← as_array users;
    await (writeDb "users.json" (JArr (rows ++ [newUser])%list));;
    Ret newUser).
End Clock.

Definition updateOne (query : query) (update : list (string * doc)) : prog unit :=
  users ← await find;
  rows ← as_array users;
  match list_find (matches query) rows with
  | Some (userIndex, u) =>
      let payload := payload_of update in
      await (writeDb "users.json" (JArr (<[userIndex := payload ∪ u]> rows)))
  | None => Ret tt
  end.
End Users.

Module Servers.
Definition find (query : query) : prog json :=
  servers ← await (readDb "servers.json");
  if decide (query = ∅) then Ret servers
  else rows ← as_array servers; Ret (JArr (filter (matches query) rows)).

Definition findById (id : option jsval) : prog (option doc) :=
  servers ← await (find ∅);
  rows ← as_array servers;
  Ret (snd <$> list_find (λ s : doc, s !! "_id" = id) rows).

Definition updateOne (query : query) (update : list (string * doc)) : prog unit :=
  servers ← await (find ∅);
  rows ← as_array servers;
  match list_find (λ s : doc, s !! "_id" = mjoin (query !! "_id")) rows with
  | Some (serverIndex, s) =>
      let payload := payload_of update in
      await (writeDb "servers.json" (JArr (<[serverIndex := payload ∪ s]> rows)))
  | None => Ret tt
  end.

(** Returns [deletedCount]. *)
Definition deleteOne (query : query) : prog Z :=
  servers ← await (find ∅);
  rows ← as_array servers;
  let initialLength := length rows in
  let servers := filter (λ s, ¬ matches query s) rows in
  if decide (length servers < initialLength)%nat then
    await (writeDb "servers.json" (JArr servers));;
    Ret 1
  else Ret 0.

Definition findOne (query : query) : prog (option doc) :=
  servers ← await (find ∅);
  rows ← as_array servers;
  Ret (snd <$> list_find (matches query) rows).

(** [_id] is the identifier drawn, [crypto.randomBytes(12).toString('hex')]. *)
Definition create (_id : string) (serverData : doc) : prog doc :=
  servers ← await (find ∅);
  let newServer : doc :=
    {[ "status" := VStr "متوقف";
       "notifyOnError" := VBool true;
       "autoRestart" := VBool false;
       "botName" := VStr "MaxBlack" ]} ∪ serverData ∪ {[ "_id" := VStr _id ]} in
  rows ← as_array servers;
  await (writeDb "servers.json" (JArr (rows ++ [newServer])%list));;
  Ret newServer.

Definition countDocuments (query : query) : prog (option cval) :=
  servers ← await (find ∅);
  if decide (query = ∅) then Ret (length_of servers)
  else
    rows ← as_array servers;
    Ret (Some (CPrim (VNum (Z.of_nat (length (filter (matches query) rows)))))).
End Servers.

Module Versions.
Definition find (query : query) : prog json :=
  versions ← await (readDb "versions.json");
  if decide (query = ∅) then Ret versions
  else rows ← as_array versions; Ret (JArr (filter (matches query) rows)).

(** Returns [deletedCount]. *)
Definition deleteOne (query : query) : prog Z :=
  versions ← await (find ∅);
  rows ← as_array versions;
  let initialLength := length rows in
  let versions := filter (λ v, ¬ matches query v) rows in
  if decide (length versions < initialLength)%nat then
    await (writeDb "versions.json" (JArr versions));;
    Ret 1
  else Ret 0.

(** Throws an [Error] whose [code] is 11000 when a version of that type and
    protocol is there already. *)
Definition create (versionData : doc) : prog unit :=
  versions ← await (find ∅);
  rows ← as_array versions;
  let exists_ :=
    bool_decide (Exists (λ v : doc, v !! "protocol" = versionData !! "protocol"
                                    ∧ v !! "type" = versionData !! "type") rows) in
  if exists_ then Throw (FsError "11000")
  else await (writeDb "versions.json" (JArr (rows ++ [versionData])%list)).

Definition countDocuments : prog (option cval) :=
  versions ← await (find ∅);
  Ret (length_of versions).
End Versions.

(** ** Caching mechanism *)

(** [userCache] and [subscriptionCache] are [Map]s handed to the two
    functions below, which mutate them in place: the map is threaded
    through, and [Date.now()] is the argument [now]. *)
Module Cache.
Section Cache.
Context {K : Type} `{Countable K} {V : Type}.
Variable null : V.

Record entry := Entry { value : V; expiry : Z }.

Definition getFromCache (now : Z) (cache : gmap K entry) (key : K)
    : V * gmap K entry :=
  match cache !! key with
  | Some entry =>
      if decide (expiry entry > now) then (value entry, cache)
      else (null, delete key cache)       (* Remove expired entry *)
  | None => (null, delete key cache)
  end.

(** [ttl] in seconds. *)
Definition setToCache (now : Z) (cache : gmap K entry) (key : K)
    (value : V) (ttl : Z) : gmap K entry :=
  let expiry := now + ttl * 1000 in
  <[key := Entry value expiry]> cache.
End Cache.
End Cache.

(** ** Renumbering a user's servers *)

Section Renumbering.
(** [String.prototype.localeCompare], the collation of the host. *)
Variable localeCompare : string → string → Z.

(** [(a, b) => a._id.localeCompare(b._id)]; the argument is converted to
    a string, the receiver has to be one. *)
Definition by_id (a b : doc) : prog Z :=
  match a !! "_id" with
  | Some (VStr x) => Ret (localeCompare x (prop_key (b !! "_id")))
  | _ => Throw (TypeError "a._id.localeCompare is not a function")
  end.

(** [Array.prototype.sort] is stable; with a consistent comparator its
    result is that of a stable insertion sort.  (Which pairs an engine
    compares, and so when a throwing comparator is reached, is its own
    business.) *)
Fixpoint insert_sorted (compareFn : doc → doc → prog Z) (x : doc) (l : list doc)
    : prog (list doc) :=
  match l with
  | [] => Ret [x]
  | y :: l' =>
      c ← compareFn x y;
      if decide (c ≤ 0) then Ret (x :: y :: l')
      else r ← insert_sorted compareFn x l'; Ret (y :: r)
  end.

Fixpoint sort (compareFn : doc → doc → prog Z) (l : list doc) : prog (list doc) :=
  match l with
  | [] => Ret []
  | x :: l' => s ← sort compareFn l'; insert_sorted compareFn x s
  end.

(** [`S - ${i + 1}`]. *)
Definition numbered (i : nat) : string := "S - " +:+ pretty (S i).

Definition reorderServers (userId : option jsval) : prog unit :=
  allServers ← await (Servers.find ∅);
  rows ← as_array allServers;
  let userServers := filter (λ s : doc, s !! "userId" = userId) rows in
  userServers ← sort by_id userServers;
  let userServers :=
    imap (λ i (s : doc), <["serverName" := VStr (numbered i)]> s) userServers in
  let otherServers := filter (λ s : doc, s !! "userId" ≠ userId) rows in
  let merged := (otherServers ++ userServers)%list in
  await (writeDb "servers.json" (JArr merged)).
End Renumbering.

(** Comparison by code units: a collation under which the identifiers that
    [Servers.create] draws (lower-case hexadecimal) are ordered as by any
    locale. *)
Definition ordinal (a b : string) : Z :=
  match String.compare a b with
  | Lt => -1
  | Eq => 0
  | Gt => 1
  end.

(** The identifier a record is compared by. *)
Definition id_of (s : doc) : string := prop_key (s !! "_id").

(** The same insertion sort, over a comparator that cannot throw. *)
Fixpoint insert_pure (cmp : doc → doc → Z) (x : doc) (l : list doc) : list doc :=
  match l with
  | [] => [x]
  | y :: l' => if decide (cmp x y ≤ 0) then x :: y :: l' else y :: insert_pure cmp x l'
  end.

Fixpoint sort_pure (cmp : doc → doc → Z) (l : list doc) : list doc :=
  match l with
  | [] => []
  | x :: l' => insert_pure cmp x (sort_pure cmp l')
  end.

(** ** Session manager *)

(** The values of a server's [status]. *)
Definition Stopped : jsval := VStr "متوقف".
Definition Searching : jsval := VStr "جاري البحث...".
Definition Connecting : jsval := VStr "جاري الاتصال...".
Definition Active : jsval := VStr "نشط".
Definition Reconnecting : jsval := VStr "إعادة الاتصال...".
Definition Unsupported : jsval := VStr "إصدار غير مدعوم".
Definition ConnectFailed : jsval := VStr "فشل الاتصال".

(** [{ key: v }]. *)
Definition field (key : string) (v : option jsval) : query := {[ key := v ]}.

(** [v.toString()]. *)
Definition toString (v : option jsval) : prog string :=
  match v with
  | None | Some VNull => Throw (TypeError "Cannot read properties (reading 'toString')")
  | _ => Ret (prop_key v)
  end.

Fixpoint includes (s sub : string) : bool :=
  String.prefix sub s ||
  match s with
  | EmptyString => false
  | String _ s' => includes s' sub
  end.

(** A call of the Telegram API: sent at once, answered later. *)
Definition call (c : uicall) : prog unit :=
  modify (set_outbox (λ o, (o ++ [c])%list));;
  Block (λ _, true) (Get (λ w,
    match telegram (env w) c with
    | Some description => Throw (TelegramError description)
    | None => Ret tt
    end)).

(** [ctx.editMessageText(...)]; without a context the property read
    throws. *)
Definition editMessageText (ctx : context) (m : message) : prog unit :=
  match ctx with
  | Some chat => call (EditMessageText chat m)
  | None => Throw (TypeError "Cannot read properties of null")
  end.

Definition answerCbQuery (ctx : context) (m : message) : prog unit :=
  match ctx with
  | Some chat => call (AnswerCbQuery chat m)
  | None => Throw (TypeError "Cannot read properties of null")
  end.

(** [ctx?.editMessageText(...)]. *)
Definition editMessageText_opt (ctx : context) (m : message) : prog unit :=
  match ctx with
  | Some chat => call (EditMessageText chat m)
  | None => Ret tt
  end.

(** The [catch] clauses that keep quiet about "message is not modified". *)
Definition unless_not_modified (line : string) (e : exn) : prog unit :=
  match e with
  | TelegramError description =>
      if includes description "message is not modified" then Ret tt else log line
  | _ => log line
  end.

Definition setTimeout (f : callback) (ms : Z) : prog unit :=
  Get (λ w, modify (set_timers (λ ts, (ts ++ [Timer (now w) ms f])%list))).

(** [await statusBedrock(ip, port, { timeout: 8000 })]. *)
Definition probe (ip port : option jsval) : prog (Z * string) :=
  Block (λ _, true) (Get (λ w,
    match statusBedrock (env w) ip port with
    | Responds protocol name => Ret (protocol, name)
    | Fails message => Throw (NetError message)
    end)).

(** [bedrock.createClient(options)]: the handle of a new client, or an
    exception. *)
Definition bedrock_createClient (o : clientOptions) : prog nat :=
  Get (λ w,
    match createClient (env w) o with
    | Some message => Throw (NetError message)
    | None =>
        modify (set_clients (λ cs, (cs ++ [Connection o [] None])%list));;
        Ret (length (clients w))
    end).

(** [client.on(event, listener)]. *)
Definition on (client : nat) (l : listener) : prog unit :=
  modify (set_clients
    (alter (λ c, Connection (options c) (listeners c ++ [l])%list (closed c)) client)).

Definition removeAllListeners (client : nat) : prog unit :=
  modify (set_clients (alter (λ c, Connection (options c) [] (closed c)) client)).

(** [client.disconnect()] and [client.quit()]. *)
Definition hang_up (how : string) (client : nat) : prog unit :=
  Get (λ w,
    match teardown (env w) client with
    | Some message => Throw (NetError message)
    | None =>
        modify (set_clients
          (alter (λ c, Connection (options c) (listeners c) (Some how)) client))
    end).

(** [protocolMap[v.type][v.protocol] = v.name], after making sure that
    [protocolMap[v.type]] is an object. *)
Definition register (map : protocolMap) (v : doc) : protocolMap :=
  let type := prop_key (v !! "type") in
  let ofType := default ∅ (map !! type) in
  <[type := partial_alter (λ _, v !! "name") (prop_key (v !! "protocol")) ofType]> map.

Definition getSupportedVersions : prog protocolMap :=
  versions ← await (Versions.find ∅);
  rows ← as_array versions;
  Ret (foldl register {[ "bedrock" := ∅; "java" := ∅ ]} rows).

(** The [catch] of a promise nobody awaits. *)
Definition detached (p : prog unit) : prog unit :=
  try_catch p (λ _, log "unhandled rejection").

(** The last statement of [handleDisconnect]: the notice to the owner, in
    the owner's language, inside a [try] that logs what goes wrong;
    [sendMessage(...).catch(console.error)] logs a rejection. *)
Definition notify_owner (server : doc) : prog unit :=
  try_catch
    (user ← await (Users.findOne (field "userId" (server !! "userId")));
     await (try_catch
              (call (SendMessage (server !! "userId") (Notice server)))
              (λ e, log "sendMessage rejected")))
    (λ e, log "Failed sending disconnect message to owner:").

(** The closure [handleDisconnect] of [startBedrockBot], over the variables
    it captures. *)
Definition handleDisconnect (server : doc) (versions : protocolMap)
    (client : nat) (clientIdentifier : string) (reason : string) : prog unit :=
  log ("Bot disconnected. Reason: " +:+ reason);;
  modify (set_activeClients (delete clientIdentifier));;
  removeAllListeners client;;
  currentServer ← await (Servers.findById (server !! "_id"));
  match currentServer with
  | Some currentServer =>
      if truthy (currentServer !! "autoRestart") then
        log "Auto-restarting bot in 30 seconds...";;
        await (Servers.updateOne (field "_id" (currentServer !! "_id"))
                 (set_ {[ "status" := Reconnecting ]}));;
        setTimeout (Restart currentServer versions) 30000
      else
        await (Servers.updateOne (field "_id" (server !! "_id"))
                 (set_ {[ "status" := Stopped ]}))
  | None =>
      await (Servers.updateOne (field "_id" (server !! "_id"))
               (set_ {[ "status" := Stopped ]}))
  end;;
  notify_owner server.

(** The ['spawn'] listener. *)
Definition handleSpawn (ctx : context) (server : doc) : prog unit :=
  log "bot connected";;
  await (Servers.updateOne (field "_id" (server !! "_id"))
           (set_ {[ "status" := Active ]}));;
  match ctx with
  | Some chat =>
      ignoring (await (call (EditMessageText chat (Msg "bot_now_active"))));;
      setTimeout (RefreshMenu chat (server !! "_id")) 3000
  | None => Ret tt
  end.

(** The [catch] clause of [startBedrockBot]. *)
Definition connection_error (ctx : context) (server : doc)
    (clientIdentifier : string) (error : exn) : prog unit :=
  log "Bedrock connection error";;
  modify (set_activeClients (delete clientIdentifier));;
  await (Servers.updateOne (field "_id" (server !! "_id"))
           (set_ {[ "status" := ConnectFailed ]}));;
  ignoring (await (editMessageText_opt ctx (Msg "failed_connect"))).

Definition startBedrockBot (ctx : context) (server : doc) (versions : protocolMap)
    : prog unit :=
  clientIdentifier ← toString (server !! "_id");
  try_catch
    (response ← probe (server !! "ip") (server !! "port");
     let protocolVersion := response.1 in
     bedrock ← match versions !! "bedrock" with
               | Some m => Ret m
               | None => Throw (TypeError "Cannot read properties of undefined")
               end;
     let mcVersion := bedrock !! prop_key (Some (VNum protocolVersion)) in
     if negb (truthy mcVersion) then
       await (Servers.updateOne (field "_id" (server !! "_id"))
                (set_ {[ "status" := Unsupported ]}));;
       ignoring (await (editMessageText_opt ctx (Msg "unsupported_protocol")))
     else
       await (Servers.updateOne (field "_id" (server !! "_id"))
                (set_ {[ "status" := Connecting ]}));;
       match ctx with
       | Some chat =>
           try_catch
             (await (call (EditMessageText chat (Msg "server_found_and_starting"))))
             (unless_not_modified "Error editing message in startBedrockBot (server found):")
       | None => Ret tt
       end;;
       client ← bedrock_createClient
                  (ClientOptions (server !! "ip") (server !! "port")
                     (server !! "botName") (default VNull mcVersion) true);
       now ← Get (λ w, Ret (now w));
       modify (set_activeClients
                 (<[clientIdentifier := BotInfo client "bedrock" (server !! "_id") now]>));;
       on client (OnSpawn ctx server);;
       on client (OnDisconnect server versions);;
       on client (OnError server versions))
    (connection_error ctx server clientIdentifier).

Definition startBot (ctx : context) (serverId : option jsval) : prog unit :=
  server ← await (Servers.findById serverId);
  match server with
  | None => ignoring (await (editMessageText_opt ctx (Msg "server_not_found")))
  | Some server =>
      clientIdentifier ← toString (server !! "_id");
      has ← Get (λ w, Ret (bool_decide (is_Some (activeClients w !! clientIdentifier))));
      if has : bool then
        ignoring (await (editMessageText_opt ctx (Msg "bot_already_running")))
      else
        await (Servers.updateOne (field "_id" (server !! "_id"))
                 (set_ {[ "status" := Searching ]}));;
        ignoring
          (match ctx, server !! "serverType" with
           | Some chat, Some (VStr _) =>
               await (call (EditMessageText chat (Msg "searching_server")))
           | Some chat, _ => Throw (TypeError "toUpperCase is not a function")
           | None, _ => Ret tt
           end);;
        versions ← await getSupportedVersions;
        if String.eqb (prop_key (server !! "serverType")) "bedrock" then
          detached (startBedrockBot ctx server versions)
        else Throw (TypeError "botFunctions[server.serverType] is not a function")
  end.

Definition manageServerAction (ctx : context) (serverId : option jsval) : prog unit :=
  server ← await (Servers.findById serverId);
  match server with
  | Some server =>
      try_catch
        (await (editMessageText ctx (Menu server)))
        (unless_not_modified "Error in manageServerAction:")
  | None => ignoring (await (editMessageText ctx (Msg "server_not_found")))
  end.

Definition stopBot (ctx : context) (serverId : option jsval) : prog unit :=
  server ← await (Servers.findById serverId);
  match server with
  | None => ignoring (await (editMessageText ctx (Msg "server_not_found")))
  | Some server =>
      await (Servers.updateOne (field "_id" (server !! "_id"))
               (set_ {[ "status" := Stopped; "autoRestart" := VBool false ]}));;
      clientIdentifier ← toString (server !! "_id");
      botInfo ← Get (λ w, Ret (activeClients w !! clientIdentifier));
      match botInfo with
      | Some botInfo =>
          (if String.eqb (type botInfo) "java" then hang_up "quit" (client botInfo)
           else hang_up "disconnect" (client botInfo));;
          modify (set_activeClients (delete clientIdentifier))
      | None => Ret tt
      end;;
      ignoring (await (answerCbQuery ctx (Msg "bot_stopped")));;
      await (manageServerAction ctx serverId)
  end.

(** The timer of the ['spawn'] listener, which redraws the menu. *)
Definition refreshMenu (chat : Z) (id : option jsval) : prog unit :=
  ignoring
    (updatedServer ← await (Servers.findById id);
     match updatedServer with
     | Some updatedServer => await (call (EditMessageText chat (Menu updatedServer)))
     | None => Ret tt
     end).

(** ** The event loop *)

(** [bot.action(/start_bot:(.+)/, ...)] and [bot.action(/stop_bot:(.+)/, ...)]. *)
Definition start_bot (chat : Z) (id : string) : prog unit :=
  ignoring (await (answerCbQuery (Some chat) (Msg "sending_start_command")));;
  await (startBot (Some chat) (Some (VStr id))).

Definition stop_bot (chat : Z) (id : string) : prog unit :=
  await (stopBot (Some chat) (Some (VStr id))).

(** What a protocol client emits. *)
Inductive emitted :=
| Spawn
| Disconnect (reason : option string)      (* packet.reason *)
| Error (message : string).                (* err.message *)

Definition listener_task (client : nat) (l : listener) (e : emitted)
    : option (prog unit) :=
  match l, e with
  | OnSpawn ctx server, Spawn => Some (handleSpawn ctx server)
  | OnDisconnect server versions, Disconnect reason =>
      Some (handleDisconnect server versions client (prop_key (server !! "_id"))
              (default "فُصِلَ من السيرفر" reason))
  | OnError server versions, Error message =>
      Some (handleDisconnect server versions client (prop_key (server !! "_id"))
              message)
  | _, _ => None
  end.

Definition fire (f : callback) : prog unit :=
  match f with
  | Restart server versions => detached (startBedrockBot None server versions)
  | RefreshMenu chat id => refreshMenu chat id
  end.

(** The tasks in flight, each stopped at a suspension point or finished,
    and the process state they share. *)
Record system := System {
  tasks : list (prog unit);
  state : world
}.

(** A new task runs at once, up to its first suspension point. *)
Definition spawn (p : prog unit) (s : system) : system :=
  let '(p', w') := advance p (state s) in
  System (tasks s ++ [p'])%list w'.

Inductive event :=
| Press (handler : prog unit)          (* an update from Telegram *)
| Resume (i : nat)                     (* what task [i] awaits has settled *)
| Expire (i : nat)                     (* pending timer [i] is due *)
| Emit (client : nat) (e : emitted)
| Elapse (ms : Z).

Definition step (e : event) (s : system) : option system :=
  match e with
  | Press handler => Some (spawn handler s)
  | Resume i =>
      match tasks s !! i with
      | Some (Block ready k) =>
          if ready (state s) then
            let '(p', w') := advance k (state s) in
            Some (System (<[i := p']> (tasks s)) w')
          else Some s
      | _ => Some s
      end
  | Expire i =>
      match timers (state s) !! i with
      | Some t =>
          if decide (armed t + delay t ≤ now (state s)) then
            Some (spawn (fire (action t))
                    (System (tasks s) (set_timers (delete i) (state s))))
          else None
      | None => None
      end
  | Emit client e =>
      match clients (state s) !! client with
      | Some c =>
          Some (foldl
                  (λ s l, match listener_task client l e with
                          | Some p => spawn (detached p) s
                          | None => s
                          end)
                  s (listeners c))
      | None => None
      end
  | Elapse ms =>
      if decide (0 ≤ ms) then Some (System (tasks s) (set_now (λ t, t + ms) (state s)))
      else None
  end.

Fixpoint exec (es : list event) (s : system) : option system :=
  match es with
  | [] => Some s
  | e :: es' => s' ← step e s; exec es' s'
  end.

(** [n] turns of the loop over [k] tasks, each resumed in order. *)
Definition turns (n k : nat) : list event :=
  mjoin (replicate n (Resume <$> seq 0 k)).

Definition finished (p : prog unit) : bool :=
  match p with
  | Ret _ => true
  | _ => false
  end.

(** ** Other actions of the server menu *)

(** [ctx.answerCbQuery()], with no text. *)
Definition no_text : message := Msg "".

(** [message] is the translation key of the text to show, if one is
    given. *)
Definition showMyServers (chat from : Z) (message : option string) : prog unit :=
  allServers ← await (Servers.find (field "userId" (Some (VNum from))));
  rows ← as_array allServers;
  let servers := filter (λ s : doc, s !! "serverType" = Some (VStr "bedrock")) rows in
  if decide (length servers = 0%nat) then
    ignoring (await (call (EditMessageText chat (Msg "no_bedrock_servers"))))
  else
    let text := default "choose_server" message in
    ignoring (await (call (EditMessageText chat (Msg text)))).

Section Actions.
(** [String.prototype.localeCompare], the collation of the host. *)
Variable localeCompare : string → string → Z.
(** [bot.handleUpdate(ctx.update)] once the update's [data] has been
    replaced: the middleware chain and the handler that the data selects. *)
Variable handleUpdate : string → prog unit.

(** [bot.action(/toggle_autorestart:(.+)/, ...)]. *)
Definition toggle_autorestart (chat : Z) (id : string) : prog unit :=
  ignoring (await (answerCbQuery (Some chat) no_text));;
  s ← await (Servers.findById (Some (VStr id)));
  match s with
  | None => Throw (TypeError "Cannot read properties of null (reading '_id')")
  | Some s =>
      await (Servers.updateOne (field "_id" (s !! "_id"))
               (set_ {[ "autoRestart" := VBool (negb (truthy (s !! "autoRestart"))) ]}));;
      await (handleUpdate ("manage_server:" +:+ id))
  end.

(** [bot.action(/delete_do:(.+)/, ...)]; [from] is [ctx.from.id]. *)
Definition delete_do (chat from : Z) (sId : string) : prog unit :=
  ignoring (await (answerCbQuery (Some chat) (Msg "deleting")));;
  has ← Get (λ w, Ret (bool_decide (is_Some (activeClients w !! sId))));
  (if has : bool then
     await (try_catch (stopBot (Some chat) (Some (VStr sId))) (λ _, Ret tt))
   else Ret tt);;
  await (Servers.deleteOne
           {[ "_id" := Some (VStr sId); "userId" := Some (VNum from) ]});;
  await (reorderServers localeCompare (Some (VNum from)));;
  await (showMyServers chat from (Some "server_deleted")).
End Actions.

(** The figures of [uptime_server]: hours, minutes and seconds since
    [startTime].  [%] takes the sign of the dividend. *)
Definition uptime (now startTime : Z) : Z * Z * Z :=
  let diff := now - startTime in
  let seconds := Z.rem (diff / 1000) 60 in
  let minutes := Z.rem (diff / 60000) 60 in
  let hours := diff / 3600000 in
  (hours, minutes, seconds).

(** ** The periodic check of the sessions *)

Definition Unknown : jsval := VStr "غير معروف".

Section Sweep.
(** [client.connected || client.isAlive], of the client with that handle. *)
Variable alive : nat → bool.

(** One round of the loop of [checkServersStatus]. *)
Definition check (serverId : string) (clientInfo : botInfo) : prog unit :=
  try_catch
    (isOnline ← (if alive (client clientInfo) then Ret true
                 else modify (set_activeClients (delete serverId));; Ret false);
     server ← await (Servers.findById (Some (VStr serverId)));
     match server with
     | None => Ret tt
     | Some server =>
         await (Servers.updateOne
                  {[ "_id" := Some (VStr serverId); "userId" := server !! "userId" ]}
                  (set_ {[ "status" := if isOnline : bool then Active else Stopped ]}))
     end)
    (λ e,
       log ("⚠️ خطأ بفحص السيرفر " +:+ serverId +:+ ":");;
       ignoring
         (server ← await (Servers.findById (Some (VStr serverId)));
          match server with
          | Some server =>
              await (Servers.updateOne
                       {[ "_id" := Some (VStr serverId); "userId" := server !! "userId" ]}
                       (set_ {[ "status" := Unknown ]}))
          | None => Ret tt
          end)).

(** [entries] are the entries of [activeClients] in the order in which the
    loop meets them, the order of their insertion. *)
Definition checkServersStatus (entries : list (string * botInfo)) : prog unit :=
  Get (λ w,
    if decide (0 < size (activeClients w))%nat then
      log ("🚀 بدء فحص " +:+ pretty (size (activeClients w)) +:+ " سيرفر شغّال...")
    else Ret tt);;
  foldr (λ '(serverId, clientInfo) rest, check serverId clientInfo;; rest)
    (Ret tt) entries;;
  Get (λ w,
    if decide (0 < size (activeClients w))%nat then
      log "✅ فحص السيرفرات المشغلة اكتمل."
    else Ret tt).
End Sweep.

(** ** The configuration document *)

#[global] Instance cval_eq_dec : EqDecision cval.
Proof. solve_decision. Defined.

(** The object that [readDb('config.json')] hands out, as the code below
    uses it: its named properties and, when the file holds an array, the
    elements, which are all that [JSON.stringify] writes back of an array.
    (A name is neither [length] nor an index of that array.) *)
Record object := Object {
  elements : option (list doc);
  properties : gmap string cval
}.

Definition object_of (data : json) : object :=
  match data with
  | JArr rows => Object (Some rows) ∅
  | JObj fields => Object None fields
  end.

Definition stringify (o : object) : json :=
  match elements o with
  | Some rows => JArr rows
  | None => JObj (properties o)
  end.

(** [config[key] = v]; a property that is [undefined] is not written. *)
Definition assign (key : string) (v : option cval) (o : object) : object :=
  Object (elements o) (partial_alter (λ _, v) key (properties o)).

(** ToBoolean; an array is an object. *)
Definition truthy_c (v : option cval) : bool :=
  match v with
  | Some (CList _) => true
  | Some (CPrim p) => truthy (Some p)
  | None => false
  end.

Module Config.
(** An update document: for each operator that is there, the [value] it
    carries. *)
Record update := Update {
  op_set : option (option cval);            (* $set *)
  op_addToSet : option (option jsval);      (* $addToSet *)
  op_pull : option (option jsval);          (* $pull *)
  op_setOnInsert : option (option cval)     (* $setOnInsert *)
}.

(** [{ key: query.key, value: config[query.key] }]. *)
Definition findOne (key : string) : prog (string * option cval) :=
  config ← await (readDb "config.json");
  Ret (key, properties (object_of config) !! key).

Definition updateOne (key : string) (update : update) (upsert : bool) : prog unit :=
  config ← await (readDb "config.json");
  let config := object_of config in
  config ←
    match op_set update, op_addToSet update, op_pull update, op_setOnInsert update with
    | Some value, _, _, _ => Ret (assign key value config)
    | None, Some valueToAdd, _, _ =>
        let config :=
          if truthy_c (properties config !! key) then config
          else assign key (Some (CList [])) config in
        match properties config !! key with
        | Some (CList l) =>
            let found :=
              match valueToAdd with
              | Some v => bool_decide (v ∈ l)
              | None => false
              end in
            if found then Ret config
            else Ret (assign key (Some (CList (l ++ [default VNull valueToAdd])%list)) config)
        | Some (CPrim (VStr s)) =>
            if includes s (prop_key valueToAdd) then Ret config
            else Throw (TypeError "config[key].push is not a function")
        | _ => Throw (TypeError "config[key].includes is not a function")
        end
    | None, None, Some value, _ =>
        match properties config !! key with
        | Some (CList l) =>
            Ret (assign key (Some (CList (filter (λ item, Some item ≠ value) l))) config)
        | v =>
            if truthy_c v then Throw (TypeError "config[key].filter is not a function")
            else Ret config
        end
    | None, None, None, Some value =>
        if upsert then
          if decide (properties config !! key = None) then Ret (assign key value config)
          else Ret config
        else Ret config
    | None, None, None, None => Ret config
    end;
  await (writeDb "config.json" (stringify config)).
End Config.

(** ** First start *)

Definition BEDROCK_VERSIONS : list (Z * string) :=
  [ (827, "1.21.100"); (818, "1.21.90"); (800, "1.21.80"); (786, "1.21.70");
    (776, "1.21.60"); (766, "1.21.50"); (748, "1.21.42"); (729, "1.21.30");
    (712, "1.21.20"); (686, "1.21.2"); (685, "1.21.0"); (671, "1.20.80");
    (662, "1.20.71"); (649, "1.20.61"); (630, "1.20.50"); (622, "1.20.40");
    (618, "1.20.30"); (594, "1.20.10"); (589, "1.20.0"); (582, "1.19.80");
    (575, "1.19.70"); (568, "1.19.63"); (560, "1.19.50"); (554, "1.19.30");
    (544, "1.19.20"); (527, "1.19.1"); (503, "1.18.30"); (475, "1.18.0");
    (448, "1.17.10"); (422, "1.16.201") ].

(** [for (const protocol in BEDROCK_VERSIONS)] meets integer keys in
    ascending order. *)
Definition ascending_keys (a b : Z * string) : Prop := a.1 ≤ b.1.

#[global] Instance ascending_keys_dec a b : Decision (ascending_keys a b).
Proof. unfold ascending_keys. apply _. Defined.

Definition versionDocs : list doc :=
  (λ '(protocol, name),
     ({[ "type" := VStr "bedrock"; "protocol" := VNum protocol;
         "name" := VStr name ]} : doc))
    <$> merge_sort ascending_keys BEDROCK_VERSIONS.

Definition defaults : list (string * cval) :=
  [ ("botOnline", CPrim (VBool true));
    ("adminNotifications", CPrim (VBool false));
    ("requiredChannels", CList []) ].

Section Startup.
(** [fs.mkdir(dataDir, { recursive: true })]. *)
Variable mkdir : prog unit.
(** [Date.prototype.toISOString], from milliseconds. *)
Variable toISOString : Z → string.

Definition setupInitialConfig : prog unit :=
  await mkdir;;
  users ← await (readDb "users.json");
  rows ← as_array users;
  match list_find (λ u : doc, u !! "userId" = Some (VNum ADMIN_ID)) rows with
  | Some (i, admin) =>
      if truthy (admin !! "isAdmin") then Ret tt
      else
        await (writeDb "users.json"
                 (JArr (<[i := <["isAdmin" := VBool true]> admin]> rows)))
  | None =>
      Get (λ w,
        let admin : doc :=
          {[ "userId" := VNum ADMIN_ID; "username" := VStr "Admin";
             "isBanned" := VBool false; "isAdmin" := VBool true;
             "joinedAt" := VStr (toISOString (now w)); "language" := VStr "en" ]} in
        await (writeDb "users.json" (JArr (rows ++ [admin])%list)))
  end;;
  config ← await (readDb "config.json");
  let '(config, configUpdated) :=
    foldl (λ '((config, configUpdated) : object * bool) '((key, v) : string * cval),
             if decide (properties config !! key = None)
             then (assign key (Some v) config, true)
             else (config, configUpdated))
      (object_of config, false) defaults in
  (if configUpdated : bool then await (writeDb "config.json" (stringify config))
   else Ret tt);;
  versionsCount ← await Versions.countDocuments;
  if decide (versionsCount = Some (CPrim (VNum 0))) then
    await (writeDb "versions.json" (JArr versionDocs));;
    log "✅ Database initialized with 30 Minecraft Bedrock versions"
  else Ret tt.
End Startup.

(** ** Reading the state *)

(** [servers.find(s => s._id === id)], with the index. *)
Definition lookup_id (id : option jsval) (rows : list doc) : option (nat * doc) :=
  list_find (λ s : doc, s !! "_id" = id) rows.

(** The table after [Servers.updateOne({ _id: id }, { $set: payload })]. *)
Definition patch (id : option jsval) (payload : doc) (rows : list doc) : list doc :=
  match lookup_id id rows with
  | Some (i, s) => <[i := payload ∪ s]> rows
  | None => rows
  end.

(** The record of a server as the store would return it. *)
Definition record (w : world) (id : option jsval) : option doc :=
  match files w !! "servers.json" with
  | Some (Text (Some (JArr rows))) => snd <$> lookup_id id rows
  | _ => None
  end.

Definition status (w : world) (id : option jsval) : option jsval :=
  s ← record w id; s !! "status".

(** Console lines and Telegram calls added, nothing else touched. *)
Definition chatter (lines : list string) (calls : list uicall) (w : world) : world :=
  set_console (λ c, (c ++ lines)%list) (set_outbox (λ o, (o ++ calls)%list) w).

(** The translation key a Telegram call carries. *)
Definition signal (c : uicall) : string :=
  match c with
  | EditMessageText _ (Msg key) | AnswerCbQuery _ (Msg key) | SendMessage _ (Msg key) => key
  | EditMessageText _ (Menu _) | AnswerCbQuery _ (Menu _) | SendMessage _ (Menu _) => "menu"
  | EditMessageText _ (Notice _) | AnswerCbQuery _ (Notice _) | SendMessage _ (Notice _) =>
      "bot_disconnected"
  end.

(** The outbox after [ctx?.editMessageText(m)]. *)
Definition edited (ctx : context) (m : message) (w : world) : world :=
  match ctx with
  | Some chat => set_outbox (λ o, (o ++ [EditMessageText chat m])%list) w
  | None => w
  end.

(** A table file that holds an array of records. *)
Definition holds (w : world) (file : string) (rows : list doc) : Prop :=
  files w !! file = Some (Text (Some (JArr rows))).

(** The store answers: nothing holds a lock, writes go through. *)
Definition healthy (w : world) : Prop :=
  dbLocks w = ∅ ∧ wfault w = ∅.

(** The state after a completed [writeDb file (JArr rows)]. *)
Definition stored (file : string) (rows : list doc) (w : world) : world :=
  set_written (λ l, (l ++ [file])%list)
    (set_files (<[file := Text (Some (JArr rows))]>) w).

(** The patch of an explicit stop. *)
Definition stop_patch : doc := {[ "status" := Stopped; "autoRestart" := VBool false ]}.

(** How [stopBot] closes a session's client. *)
Definition hung_up (b : botInfo) (cs : list connection) : list connection :=
  alter (λ c, Connection (options c) (listeners c)
                (Some (if String.eqb (type b) "java" then "quit" else "disconnect")))
    (client b) cs.

(** What a scenario shows of the process: which tasks have finished, the
    session table as (server, client) pairs, every client created with the
    number of its listeners and the teardown it has seen, the translation
    keys sent to Telegram, the pending timers as (armed, delay), the
    completed table writes, and [status] and [autoRestart] of one record. *)
Record snapshot := Snapshot {
  done : list bool;
  sessions : list (string * nat);
  connections : list (nat * option string);
  sent : list string;
  pending : list (Z * Z);
  writes : list string;
  persisted : option jsval * option jsval
}.

Definition observe (id : string) (s : system) : snapshot :=
  let w := state s in
  Snapshot
    (finished <$> tasks s)
    (prod_map Datatypes.id client <$> map_to_list (activeClients w))
    ((λ c, (length (listeners c), closed c)) <$> clients w)
    (signal <$> outbox w)
    ((λ t, (armed t, delay t)) <$> timers w)
    (written w)
    (status w (Some (VStr id)),
     r ← record w (Some (VStr id)); r !! "autoRestart").

(** The table that [reorderServers(userId)] writes over [rows], when the
    comparisons go through. *)
Definition renumbered (localeCompare : string → string → Z)
    (userId : option jsval) (rows : list doc) : list doc :=
  (filter (λ s : doc, s !! "userId" ≠ userId) rows
   ++ imap (λ i (s : doc), <["serverName" := VStr (numbered i)]> s)
        (sort_pure (λ a b, localeCompare (id_of a) (id_of b))
           (filter (λ s : doc, s !! "userId" = userId) rows)))%list.

(** The query of [delete_do]. *)
Definition own (sId : string) (from : Z) : query :=
  {[ "_id" := Some (VStr sId); "userId" := Some (VNum from) ]}.

(** [{ $addToSet: { value } }] and [{ $pull: { value } }], the updates of
    the required channels. *)
Definition addToSet_ (value : jsval) : Config.update :=
  Config.Update None (Some (Some value)) None None.

Definition pull_ (value : jsval) : Config.update :=
  Config.Update None None (Some (Some value)) None.

(** The configuration file holds an object. *)
Definition configured (w : world) (fields : gmap string cval) : Prop :=
  files w !! "config.json" = Some (Text (Some (JObj fields))).

(** The state after a completed [writeDb('config.json', fields)]. *)
Definition stored_config (fields : gmap string cval) (w : world) : world :=
  set_written (λ l, (l ++ ["config.json"])%list)
    (set_files (<["config.json" := Text (Some (JObj fields))]>) w).

(** [config[key] || []], the list a key of the configuration stands for. *)
Definition listed (fields : gmap string cval) (key : string) : list jsval :=
  match fields !! key with
  | Some (CList l) => l
  | _ => []
  end.

(** What [readDb file] returns, for a file that is missing or holds text
    that parses. *)
Definition reads (w : world) (file : string) (data : json) : Prop :=
  files w !! file = Some (Text (Some data))
  ∨ (files w !! file = None ∧ data = default_for file).

(** The administrator's record of a first start. *)
Definition first_admin (joinedAt : string) : doc :=
  {[ "userId" := VNum ADMIN_ID; "username" := VStr "Admin";
     "isBanned" := VBool false; "isAdmin" := VBool true;
     "joinedAt" := VStr joinedAt; "language" := VStr "en" ]}.

(** The session table after the rounds of [checkServersStatus] over
    [entries]: the sessions whose client is not alive are dropped. *)
Definition swept (alive : nat → bool) (entries : list (string * botInfo))
    (sessions : gmap string botInfo) : gmap string botInfo :=
  foldl (λ m '(serverId, clientInfo),
           if alive (client clientInfo) then m else delete serverId m)
    sessions entries.

(** ** Sample states *)

(** Collaborators that answer every call: any host reports protocol 827,
    clients connect, Telegram accepts. *)
Definition calm : environment :=
  Environment (λ _ _, Responds 827 "1.21.100") (λ _, None) (λ _, None) (λ _, None).

(** Collaborators when nothing can be reached: probes time out. *)
Definition unreachable : environment :=
  Environment (λ _ _, Fails "timeout") (λ _, None) (λ _, None) (λ _, None).


(** A fresh process over an empty data directory. *)
Definition boot : world :=
  World 0 ∅ ∅ [] ∅ ∅ [] [] [] [] calm.

(** The same process over the given table files. *)
Definition over (fs : list (string * fstate)) : world :=
  set_files (λ _, list_to_map fs) boot.

(** Three servers of two owners, and the table file that holds them. *)
Definition server_of (id : string) (owner : Z) (name : string) : doc :=
  {[ "_id" := VStr id; "userId" := VNum owner; "serverName" := VStr name;
     "serverType" := VStr "bedrock"; "ip" := VStr "play.example.net";
     "port" := VNum 19132; "botName" := VStr "MaxBlack" ]}.

Definition three_servers : list doc :=
  [ server_of "b2" 7 "S - 1"; server_of "a1" 7 "S - 2"; server_of "c3" 8 "S - 1" ].

(** One bedrock server "a1" of owner 7, and a catalogue that knows
    protocol 827. *)
Definition catalogue : list doc :=
  [ {[ "type" := VStr "bedrock"; "protocol" := VNum 827; "name" := VStr "1.21.100" ]} ].

Definition a1 (autoRestart : bool) : doc :=
  <["status" := Stopped]>
    (<["autoRestart" := VBool autoRestart]> (server_of "a1" 7 "S - 1")).

Definition one_server (autoRestart : bool) : world :=
  over [ ("servers.json", Text (Some (JArr [ a1 autoRestart ])));
         ("versions.json", Text (Some (JArr catalogue)));
         ("users.json",
          Text (Some (JArr [ {[ "userId" := VNum 7; "language" := VStr "en" ]} ]))) ].

(** Collaborators when a client cannot be torn down. *)
Definition broken_pipe : environment :=
  Environment (λ _ _, Responds 827 "1.21.100") (λ _, None) (λ _, None)
    (λ _, Some "write EPIPE").

(** What [getSupportedVersions] makes of [catalogue]. *)
Definition supported : protocolMap :=
  {[ "bedrock" := {[ "827" := VStr "1.21.100" ]}; "java" := ∅ ]}.

(** The record of "a1" while it is watched. *)
Definition a1_live (autoRestart : bool) : doc :=
  <["status" := Active]> (a1 autoRestart).

(** [one_server] once "a1" has been started from chat 100 and its client
    has spawned: a session on client 0, whose listeners hold the record as
    [startBot] read it. *)
Definition watching (autoRestart : bool) : world :=
  set_activeClients (λ _, {[ "a1" := BotInfo 0 "bedrock" (Some (VStr "a1")) 0 ]})
    (set_clients
       (λ _, [ Connection
                 (ClientOptions (Some (VStr "play.example.net")) (Some (VNum 19132))
                    (Some (VStr "MaxBlack")) (VStr "1.21.100") true)
                 [ OnSpawn (Some 100) (a1 autoRestart);
                   OnDisconnect (a1 autoRestart) supported;
                   OnError (a1 autoRestart) supported ]
                 None ])
       (set_files (<["servers.json" := Text (Some (JArr [ a1_live autoRestart ]))]>)
          (one_server autoRestart))).

(** The owner starts "a1" from chat 100, the client spawns, and three
    seconds later the menu is redrawn. *)
Definition goes_live : list event :=
  ([Press (start_bot 100 "a1")] ++ turns 40 1
   ++ [Emit 0 Spawn] ++ turns 10 2
   ++ [Elapse 3000; Expire 0%nat] ++ turns 10 3)%list.

(** The connection is lost, and the owner presses stop. *)
Definition lost_then_stopped : list event :=
  ([Emit 0 (Disconnect (Some "bye"))] ++ turns 30 4
   ++ [Press (stop_bot 100 "a1")] ++ turns 30 5)%list.

(** The connection is lost, and the owner presses start. *)
Definition lost_then_started : list event :=
  ([Emit 0 (Disconnect (Some "bye"))] ++ turns 30 4
   ++ [Press (start_bot 100 "a1")] ++ turns 40 5)%list.

(** Two starts of "a1", from chats 100 and 101, taken in turns. *)
Definition two_starts (n : nat) : list event :=
  Press (start_bot 100 "a1") :: Press (start_bot 101 "a1") :: turns n 2.


(** * Properties *)

Arguments await : simpl never.
Arguments readDb : simpl never.
Arguments writeDb : simpl never.
Arguments Servers.find : simpl never.
Arguments Versions.find : simpl never.
Arguments Users.find : simpl never.

Lemma run_bind' {A B} (p : prog A) (k : A → prog B) w :
  run (bind p k) w =
    match run p w with
    | (Ok a, w') => run (k a) w'
    | (Err e, w') => (Err e, w')
    | (Stuck, w') => (Stuck, w')
    end.
Proof.
  revert w.
  induction p as [a|e|g IH|f q IH|r q IH]; intros w; simpl; auto.
  destruct (r w); auto.
Qed.

Lemma run_bind {A B} (p : prog A) (k : A → prog B) w :
  run (p ≫= k) w =
    match run p w with
    | (Ok a, w') => run (k a) w'
    | (Err e, w') => (Err e, w')
    | (Stuck, w') => (Stuck, w')
    end.
Proof. apply run_bind'. Qed.

Ltac run_bind := first [rewrite run_bind | rewrite run_bind'].

Lemma run_try_catch {A} (p : prog A) (h : exn → prog A) w :
  run (try_catch p h) w =
    match run p w with
    | (Err e, w') => run (h e) w'
    | r => r
    end.
Proof.
  revert w.
  induction p as [a|e|g IH|f q IH|r q IH]; intros w; simpl; auto.
  destruct (r w); auto.
Qed.

Lemma run_finally {A} (p : prog A) (f : prog unit) w :
  run (finally p f) w =
    match run p w with
    | (Ok a, w') => run (f;; Ret a) w'
    | (Err e, w') => run (f;; Throw e) w'
    | (Stuck, w') => (Stuck, w')
    end.
Proof.
  revert w.
  induction p as [a|e|g IH|f' q IH|r q IH]; intros w; simpl; auto.
  destruct (r w); auto.
Qed.

Lemma run_await {A} (p : prog A) w : run (await p) w = run p w.
Proof.
  unfold await. rewrite run_bind. destruct (run p w) as [[a|e|] w']; auto.
Qed.

(** *** The record store *)

Lemma unlock_lock file w :
  dbLocks w !! file = None →
  set_dbLocks (delete file) (set_dbLocks (<[file := true]>) w) = w.
Proof.
  intros H. destruct w; unfold set_dbLocks; simpl in *.
  by rewrite delete_insert_id.
Qed.

Lemma unlock_log_lock file line w :
  dbLocks w !! file = None →
  set_dbLocks (delete file)
    (set_console (λ c, (c ++ [line])%list) (set_dbLocks (<[file := true]>) w))
  = set_console (λ c, (c ++ [line])%list) w.
Proof.
  intros H. destruct w; unfold set_dbLocks, set_console; simpl in *.
  by rewrite delete_insert_id.
Qed.

Lemma run_readDb file w :
  dbLocks w !! file = None →
  run (readDb file) w =
    match files w !! file with
    | None => (Ok (default_for file), w)
    | Some (Text (Some v)) => (Ok v, w)
    | Some (Text None) =>
        (Ok (default_for file),
         set_console
           (λ c, (c ++ ["Syntax error in " +:+ file +:+ ", returning default."])%list) w)
    | Some (Faulty code) =>
        if String.eqb code "ENOENT" then (Ok (default_for file), w)
        else (Err (FsError code),
              set_console
                (λ c, (c ++ ["Error reading database file " +:+ file])%list) w)
    end.
Proof.
  intros Hfree. unfold readDb.
  rewrite run_bind, run_await. unfold acquireLock, locked. simpl.
  rewrite Hfree. simpl.
  rewrite run_finally, run_try_catch, run_bind. simpl.
  destruct (files w !! file) as [[[v|]|code]|] eqn:Hf; simpl.
  - by rewrite unlock_lock.
  - by rewrite unlock_log_lock.
  - destruct (String.eqb code "ENOENT"); simpl.
    + by rewrite unlock_lock.
    + by rewrite unlock_log_lock.
  - by rewrite unlock_lock.
Qed.

(** C8. Reading a table whose file is missing yields the table's default
    ([[]] for users, servers and versions, [{}] for config) and leaves the
    process untouched; unparseable text is logged on the console and yields
    the same default; any other read failure is logged and rethrown. *)
Theorem readDb_missing_malformed_default (w : world) (file : string) :
  dbLocks w !! file = None →
  default_for "users.json" = JArr []
  ∧ default_for "servers.json" = JArr []
  ∧ default_for "versions.json" = JArr []
  ∧ default_for "config.json" = JObj ∅
  ∧ (files w !! file = None →
     run (readDb file) w = (Ok (default_for file), w))
  ∧ (files w !! file = Some (Text None) →
     ∃ line, run (readDb file) w =
               (Ok (default_for file), set_console (λ c, (c ++ [line])%list) w))
  ∧ (∀ code, files w !! file = Some (Faulty code) → code ≠ "ENOENT" →
     ∃ line, run (readDb file) w =
               (Err (FsError code), set_console (λ c, (c ++ [line])%list) w)).
Proof.
  intros Hfree. repeat split; try reflexivity.
  - intros Hf. by rewrite run_readDb, Hf.
  - intros Hf. eexists. by rewrite run_readDb, Hf.
  - intros code Hf Hcode. eexists. rewrite run_readDb, Hf by done.
    destruct (String.eqb_spec code "ENOENT"); [done | reflexivity].
Qed.

Lemma readDb_missing_malformed_default_witness :
  dbLocks (over [("servers.json", Text None)]) !! "servers.json" = None
  ∧ ∃ line,
      run (readDb "servers.json") (over [("servers.json", Text None)]) =
        (Ok (JArr []),
         set_console (λ c, (c ++ [line])%list) (over [("servers.json", Text None)])).
Proof.
  split; [reflexivity |].
  apply (readDb_missing_malformed_default
           (over [("servers.json", Text None)]) "servers.json");
    reflexivity.
Defined.

Lemma run_writeDb file data w :
  dbLocks w !! file = None →
  wfault w !! file = None →
  run (writeDb file data) w =
    (Ok tt,
     set_written (λ l, (l ++ [file])%list)
       (set_files (<[file := Text (Some data)]>) w)).
Proof.
  intros Hfree Hw. unfold writeDb.
  rewrite run_bind, run_await. unfold acquireLock, locked. simpl.
  rewrite Hfree. simpl.
  rewrite run_finally, run_try_catch. simpl. rewrite Hw. simpl.
  f_equal. destruct w; unfold set_written, set_files, set_dbLocks; simpl in *.
  by rewrite delete_insert_id.
Qed.

Lemma healthy_free w file : healthy w → dbLocks w !! file = None.
Proof. intros [-> _]. apply lookup_empty. Qed.

Lemma healthy_writable w file : healthy w → wfault w !! file = None.
Proof. intros [_ ->]. apply lookup_empty. Qed.

Lemma run_Servers_find_all w rows :
  healthy w → holds w "servers.json" rows →
  run (Servers.find ∅) w = (Ok (JArr rows), w).
Proof.
  intros Hh Hf. unfold Servers.find.
  rewrite run_bind, run_await, run_readDb by by apply healthy_free.
  by rewrite Hf.
Qed.

Lemma run_Versions_find_all w rows :
  healthy w → holds w "versions.json" rows →
  run (Versions.find ∅) w = (Ok (JArr rows), w).
Proof.
  intros Hh Hf. unfold Versions.find.
  rewrite run_bind, run_await, run_readDb by by apply healthy_free.
  by rewrite Hf.
Qed.

Lemma filter_none_length {A} (P : A → Prop) `{∀ x, Decision (P x)} (l : list A) :
  Forall (λ x, ¬ P x) l ↔ length (filter (λ x, ¬ P x) l) = length l.
Proof.
  induction l as [|x l IH]; simpl; [by split; [|constructor]|].
  rewrite filter_cons. case_decide as Hx; simpl.
  - rewrite Forall_cons. rewrite IH. split; [intros [_ ->]; done | intros [=]; done].
  - split.
    + intros [? _]%Forall_cons. done.
    + intros Hl. pose proof (length_filter (λ x, ¬ P x) l). lia.
Qed.

Lemma filter_some_shorter {A} (P : A → Prop) `{∀ x, Decision (P x)} (l : list A) :
  ¬ Forall (λ x, ¬ P x) l → (length (filter (λ x, ¬ P x) l) < length l)%nat.
Proof.
  intros Hsome. pose proof (length_filter (λ x, ¬ P x) l) as Hle.
  destruct (decide (length (filter (λ x, ¬ P x) l) = length l)) as [Heq|]; [|lia].
  by apply (filter_none_length P l) in Heq.
Qed.

(** [deleteOne] once the table has been read: the same on both tables. *)
Ltac run_deleteOne rows query :=
  cbn;
  destruct (decide (Forall (λ s, ¬ matches query s) rows)) as [Hall|Hsome];
  [ apply (filter_none_length (matches query) rows) in Hall;
    rewrite decide_False by lia; reflexivity
  | rewrite decide_True by exact (filter_some_shorter (matches query) rows Hsome);
    first [rewrite run_bind | rewrite run_bind'];
    rewrite run_await, run_writeDb
      by (by apply healthy_free || by apply healthy_writable);
    reflexivity ].

Lemma run_Servers_deleteOne w rows query :
  healthy w → holds w "servers.json" rows →
  run (Servers.deleteOne query) w =
    if decide (Forall (λ s, ¬ matches query s) rows) then (Ok 0, w)
    else (Ok 1, stored "servers.json" (filter (λ s, ¬ matches query s) rows) w).
Proof.
  intros Hh Hf. unfold Servers.deleteOne.
  rewrite run_bind, run_await, (run_Servers_find_all w rows) by done.
  run_deleteOne rows query.
Qed.

Lemma run_Versions_deleteOne w rows query :
  healthy w → holds w "versions.json" rows →
  run (Versions.deleteOne query) w =
    if decide (Forall (λ s, ¬ matches query s) rows) then (Ok 0, w)
    else (Ok 1, stored "versions.json" (filter (λ s, ¬ matches query s) rows) w).
Proof.
  intros Hh Hf. unfold Versions.deleteOne.
  rewrite run_bind, run_await, (run_Versions_find_all w rows) by done.
  run_deleteOne rows query.
Qed.

Lemma filter_split_length {A} (P : A → Prop) `{∀ x, Decision (P x)} (l : list A) :
  (length (filter (λ x, ¬ P x) l) + length (filter P l) = length l)%nat.
Proof.
  induction l as [|x l IH]; [done|].
  rewrite !filter_cons. destruct (decide (P x)) as [Hx|Hx].
  - rewrite decide_False by tauto. simpl. lia.
  - rewrite decide_True by done. simpl. lia.
Qed.

Lemma filter_matching_nonempty {A} (P : A → Prop) `{∀ x, Decision (P x)} (l : list A) :
  (0 < length (filter P l))%nat → ¬ Forall (λ x, ¬ P x) l.
Proof.
  intros Hlen Hall. apply (filter_none_length P l) in Hall.
  pose proof (filter_split_length P l). lia.
Qed.

(** C10. On the servers and on the versions table alike: a [deleteOne]
    whose query matches no record returns [deletedCount] 0 without writing
    the file or changing anything; a query that matches several records
    rewrites the table without any of them (so more than one record goes),
    and still returns [deletedCount] 1. *)
Theorem deleteOne_none_and_many (w : world) (rows : list doc) (query : query) :
  healthy w →
  (holds w "servers.json" rows →
     (Forall (λ s, ¬ matches query s) rows →
        run (Servers.deleteOne query) w = (Ok 0, w))
     ∧ ((1 < length (filter (matches query) rows))%nat →
        let rest := filter (λ s, ¬ matches query s) rows in
        run (Servers.deleteOne query) w = (Ok 1, stored "servers.json" rest w)
        ∧ holds (stored "servers.json" rest w) "servers.json" rest
        ∧ Forall (λ s, ¬ matches query s) rest
        ∧ (length rest + 1 < length rows)%nat))
  ∧ (holds w "versions.json" rows →
     (Forall (λ v, ¬ matches query v) rows →
        run (Versions.deleteOne query) w = (Ok 0, w))
     ∧ ((1 < length (filter (matches query) rows))%nat →
        let rest := filter (λ v, ¬ matches query v) rows in
        run (Versions.deleteOne query) w = (Ok 1, stored "versions.json" rest w)
        ∧ holds (stored "versions.json" rest w) "versions.json" rest
        ∧ Forall (λ v, ¬ matches query v) rest
        ∧ (length rest + 1 < length rows)%nat)).
Proof.
  intros Hh.
  assert (Hrest : Forall (λ s, ¬ matches query s)
                    (filter (λ s, ¬ matches query s) rows)).
  { apply Forall_forall. intros s Hs. by apply list_elem_of_filter in Hs as [? _]. }
  pose proof (filter_split_length (matches query) rows) as Hsplit.
  split; intros Hf; split.
  - intros Hnone. rewrite (run_Servers_deleteOne w rows) by done.
    by rewrite decide_True.
  - intros Hmany rest. rewrite (run_Servers_deleteOne w rows) by done.
    rewrite decide_False by (apply (filter_matching_nonempty (matches query) rows); lia).
    repeat split; [ | done | subst rest; lia ].
    unfold holds, stored. simpl. apply lookup_insert_eq.
  - intros Hnone. rewrite (run_Versions_deleteOne w rows) by done.
    by rewrite decide_True.
  - intros Hmany rest. rewrite (run_Versions_deleteOne w rows) by done.
    rewrite decide_False by (apply (filter_matching_nonempty (matches query) rows); lia).
    repeat split; [ | done | subst rest; lia ].
    unfold holds, stored. simpl. apply lookup_insert_eq.
Qed.

Lemma deleteOne_none_and_many_witness :
  let w := over [("servers.json", Text (Some (JArr three_servers)))] in
  let query : query := {[ "userId" := Some (VNum 7) ]} in
  healthy w
  ∧ holds w "servers.json" three_servers
  ∧ (1 < length (filter (matches query) three_servers))%nat
  ∧ run (Servers.deleteOne query) w =
      (Ok 1, stored "servers.json" [server_of "c3" 8 "S - 1"] w).
Proof.
  intros w query.
  assert (Hh : healthy w) by (split; reflexivity).
  assert (Hf : holds w "servers.json" three_servers) by reflexivity.
  assert (Hn : (1 < length (filter (matches query) three_servers))%nat)
    by (vm_compute; lia).
  split; [exact Hh |]. split; [exact Hf |]. split; [exact Hn |].
  destruct (deleteOne_none_and_many w three_servers query Hh) as [[_ Hmany] _];
    [exact Hf |].
  destruct (Hmany Hn) as [Hrun _]. exact Hrun.
Defined.

(** *** The cache *)

(** C9. A read returns the stored value, leaving the cache alone, exactly
    when the key has an entry that expires strictly after [now]; otherwise
    it returns [null] and the entry is gone.  A write replaces whatever
    entry the key had by one that expires [ttl] seconds later.  So: written
    with ttl 0, a key misses on any later read; written with ttl 60, it
    hits 30 seconds later and misses 61 seconds later. *)
Theorem cache_get_set {V : Type} (null : V)
    (cache : gmap Z (Cache.entry (V:=V))) (key : Z) (value : V) (ttl now : Z) :
  (∀ e, cache !! key = Some e → now < Cache.expiry e →
     Cache.getFromCache null now cache key = (Cache.value e, cache))
  ∧ (∀ e, cache !! key = Some e → Cache.expiry e ≤ now →
     Cache.getFromCache null now cache key = (null, delete key cache))
  ∧ (cache !! key = None →
     Cache.getFromCache null now cache key = (null, delete key cache))
  ∧ Cache.setToCache now cache key value ttl !! key
      = Some (Cache.Entry value (now + ttl * 1000))
  ∧ (∀ key', key' ≠ key →
     Cache.setToCache now cache key value ttl !! key' = cache !! key')
  ∧ (∀ later, now ≤ later →
     Cache.getFromCache null later (Cache.setToCache now cache key value 0) key
       = (null, delete key cache))
  ∧ Cache.getFromCache null (now + 30 * 1000)
      (Cache.setToCache now cache key value 60) key
      = (value, Cache.setToCache now cache key value 60)
  ∧ Cache.getFromCache null (now + 61 * 1000)
      (Cache.setToCache now cache key value 60) key
      = (null, delete key cache).
Proof.
  unfold Cache.getFromCache, Cache.setToCache.
  repeat split.
  - intros e -> He. by rewrite decide_True by lia.
  - intros e -> He. by rewrite decide_False by lia.
  - by intros ->.
  - apply lookup_insert_eq.
  - intros key' Hne. by apply lookup_insert_ne.
  - intros later Hle. rewrite lookup_insert_eq. simpl.
    rewrite decide_False by lia. by rewrite delete_insert_eq.
  - rewrite lookup_insert_eq. simpl. by rewrite decide_True by lia.
  - rewrite lookup_insert_eq. simpl.
    rewrite decide_False by lia. by rewrite delete_insert_eq.
Qed.

Lemma cache_get_set_witness :
  let cache : gmap Z Cache.entry := {[ 42 := Cache.Entry (VBool true) 5000 ]} in
  (cache !! 42 = Some (Cache.Entry (VBool true) 5000) ∧ 4999 < 5000
   ∧ Cache.getFromCache VNull 4999 cache 42 = (VBool true, cache))
  ∧ (5000 ≤ 5000 ∧ Cache.getFromCache VNull 5000 cache 42 = (VNull, ∅))
  ∧ (1000 ≤ 1000
     ∧ Cache.getFromCache VNull 1000
         (Cache.setToCache 1000 cache 42 (VBool false) 0) 42 = (VNull, ∅)).
Proof.
  intros cache.
  pose proof (cache_get_set VNull cache 42 (VBool false) 0 4999)
    as (Hhit & _).
  pose proof (cache_get_set VNull cache 42 (VBool false) 0 5000)
    as (_ & Hexp & _).
  pose proof (cache_get_set VNull cache 42 (VBool false) 0 1000)
    as (_ & _ & _ & _ & _ & Hzero & _).
  split; [split; [reflexivity | split; [lia |]] |].
  { exact (Hhit _ eq_refl ltac:(simpl; lia)). }
  split; [split; [lia |] |].
  { exact (Hexp _ eq_refl ltac:(simpl; lia)). }
  split; [lia |].
  exact (Hzero 1000 ltac:(lia)).
Defined.

(** *** Renumbering *)

Lemma filter_all {A} (P : A → Prop) `{∀ x, Decision (P x)} (l : list A) :
  Forall P l → filter P l = l.
Proof.
  induction 1 as [|x l Hx _ IH]; [done|].
  by rewrite filter_cons_True, IH.
Qed.

Lemma filter_nothing {A} (P : A → Prop) `{∀ x, Decision (P x)} (l : list A) :
  Forall (λ x, ¬ P x) l → filter P l = [].
Proof.
  induction 1 as [|x l Hx _ IH]; [done|].
  by rewrite filter_cons_False.
Qed.

Lemma insert_pure_perm cmp x l : insert_pure cmp x l ≡ₚ x :: l.
Proof.
  induction l as [|y l IH]; simpl; [done|].
  case_decide; [done|]. rewrite IH. apply Permutation_swap.
Qed.

Lemma sort_pure_perm cmp l : sort_pure cmp l ≡ₚ l.
Proof.
  induction l as [|x l IH]; simpl; [done|].
  by rewrite insert_pure_perm, IH.
Qed.

Section RenumberingFacts.
Variable localeCompare : string → string → Z.

(** The collation is an order: of two strings one sorts no later than
    the other. *)
Hypothesis localeCompare_total :
  ∀ a b, 0 < localeCompare a b → localeCompare b a ≤ 0.

Let cmp (a b : doc) : Z := localeCompare (id_of a) (id_of b).
Let ascending (a b : doc) : Prop := localeCompare (id_of a) (id_of b) ≤ 0.

Lemma insert_pure_sorted x l :
  Sorted ascending l → Sorted ascending (insert_pure cmp x l).
Proof.
  induction 1 as [|y l Hl IH Hy]; simpl.
  - repeat constructor.
  - case_decide as Hc.
    + constructor; [by constructor | by constructor].
    + constructor; [done|].
      assert (ascending y x) by (apply localeCompare_total; unfold cmp in Hc; lia).
      destruct Hy as [|z l' Hz]; simpl; [by constructor|].
      case_decide; by constructor.
Qed.

Lemma sort_pure_sorted l : Sorted ascending (sort_pure cmp l).
Proof.
  induction l as [|x l IH]; simpl; [constructor | by apply insert_pure_sorted].
Qed.

Lemma run_by_id a b w :
  (∃ id, a !! "_id" = Some (VStr id)) →
  run (by_id localeCompare a b) w = (Ok (cmp a b), w).
Proof. intros [id Hid]. unfold by_id, cmp, id_of. by rewrite Hid. Qed.

Lemma run_insert_sorted x l w :
  (∃ id, x !! "_id" = Some (VStr id)) →
  run (insert_sorted (by_id localeCompare) x l) w = (Ok (insert_pure cmp x l), w).
Proof.
  intros Hx. induction l as [|y l IH]; [done|].
  cbn [insert_sorted insert_pure]. rewrite run_bind, run_by_id by done.
  case_decide; [done|]. by rewrite run_bind, IH.
Qed.

Lemma run_sort l w :
  Forall (λ s : doc, ∃ id, s !! "_id" = Some (VStr id)) l →
  run (sort (by_id localeCompare) l) w = (Ok (sort_pure cmp l), w).
Proof.
  induction 1 as [|x l Hx _ IH]; [done|].
  cbn [sort sort_pure]. rewrite run_bind, IH. by apply run_insert_sorted.
Qed.

(** C3, as the code has it. Renumbering the servers of [userId] rewrites
    the table as the other owners' records, untouched and in their
    order, followed by this owner's records sorted by ascending [_id];
    of these only [serverName] changes, the record at position i of
    that order being named "S - i+1".  (The names are "S - 1", "S - 2",
    ..., not "#1", "#2", ....) *)
Theorem reorderServers_frame (w : world) (rows : list doc) (userId : option jsval) :
  healthy w →
  holds w "servers.json" rows →
  Forall (λ s : doc, s !! "userId" = userId → ∃ id, s !! "_id" = Some (VStr id)) rows →
  let mine := filter (λ s : doc, s !! "userId" = userId) rows in
  let others := filter (λ s : doc, s !! "userId" ≠ userId) rows in
  ∃ sorted renamed,
    run (reorderServers localeCompare userId) w
      = (Ok tt, stored "servers.json" (others ++ renamed)%list w)
    ∧ sorted ≡ₚ mine
    ∧ Sorted ascending sorted
    ∧ filter (λ s : doc, s !! "userId" ≠ userId) (others ++ renamed)%list = others
    ∧ filter (λ s : doc, s !! "userId" = userId) (others ++ renamed)%list = renamed
    ∧ length renamed = length mine
    ∧ ∀ (i : nat) (s' : doc), renamed !! i = Some s' →
        ∃ s : doc, sorted !! i = Some s
          ∧ s' !! "serverName" = Some (VStr ("S - " +:+ pretty (S i)))
          ∧ ∀ key, key ≠ "serverName" → s' !! key = s !! key.
Proof.
  intros Hh Hf Hids mine others.
  set (sorted := sort_pure cmp mine).
  set (renamed := imap (λ i (s : doc), <["serverName" := VStr (numbered i)]> s) sorted).
  assert (Hperm : sorted ≡ₚ mine) by apply sort_pure_perm.
  assert (Hmine : Forall (λ s : doc, s !! "userId" = userId) mine).
  { apply Forall_forall. intros s Hs. by apply list_elem_of_filter in Hs as [? _]. }
  assert (Hothers : Forall (λ s : doc, s !! "userId" ≠ userId) others).
  { apply Forall_forall. intros s Hs. by apply list_elem_of_filter in Hs as [? _]. }
  assert (Hren : Forall (λ s : doc, s !! "userId" = userId) renamed).
  { apply Forall_forall. intros s' [i [s [-> Hi]]]%elem_of_lookup_imap.
    rewrite lookup_insert_ne by done.
    assert (s ∈ mine) as Hs by (rewrite <- Hperm; eapply list_elem_of_lookup_2; eauto).
    by apply list_elem_of_filter in Hs as [? _]. }
  exists sorted, renamed. repeat split.
  - unfold reorderServers.
    rewrite run_bind, run_await, (run_Servers_find_all w rows) by done.
    cbn. run_bind. rewrite run_sort.
    + rewrite run_await, run_writeDb
        by (by apply healthy_free || by apply healthy_writable).
      done.
    + apply Forall_forall. intros s Hs.
      apply list_elem_of_filter in Hs as [Hu Hs].
      rewrite Forall_forall in Hids. by apply Hids.
  - done.
  - apply sort_pure_sorted.
  - rewrite filter_app, (filter_all _ others) by done.
    rewrite (filter_nothing _ renamed); [by rewrite app_nil_r|].
    eapply Forall_impl; [exact Hren|]. by intros s Hs Hn.
  - rewrite filter_app, (filter_all _ renamed) by done.
    rewrite (filter_nothing _ others); [done|].
    eapply Forall_impl; [exact Hothers|]. by intros s Hs Hn.
  - unfold renamed. by rewrite length_imap, Hperm.
  - intros i s' Hs'.
    destruct (sorted !! i) as [s|] eqn:Hi;
      unfold renamed in Hs'; rewrite list_lookup_imap, Hi in Hs'; [|done].
    injection Hs' as <-. exists s. split; [done|]. split.
    + by rewrite lookup_insert_eq.
    + intros key Hkey. by rewrite lookup_insert_ne.
Qed.
End RenumberingFacts.

Lemma ordinal_total a b : 0 < ordinal a b → ordinal b a ≤ 0.
Proof.
  unfold ordinal. rewrite String.compare_antisym.
  destruct (String.compare b a); simpl; lia.
Qed.

(** Scenario: owner 7 has "b2" and "a1", owner 8 has "c3". *)
Example reorder_three_servers :
  let w := over [("servers.json", Text (Some (JArr three_servers)))] in
  run (reorderServers ordinal (Some (VNum 7))) w
  = (Ok tt,
     stored "servers.json"
       [ server_of "c3" 8 "S - 1"; server_of "a1" 7 "S - 1"; server_of "b2" 7 "S - 2" ]
       w).
Proof. vm_compute. reflexivity. Qed.

(** Scenario: an owner has "a", "b" and "c"; "b" is deleted and the rest
    renumbered. *)
Example delete_then_reorder :
  let w := over [("servers.json",
                  Text (Some (JArr [ server_of "a" 7 "S - 1"; server_of "b" 7 "S - 2";
                                     server_of "c" 7 "S - 3" ])))] in
  run (Servers.deleteOne {[ "_id" := Some (VStr "b"); "userId" := Some (VNum 7) ]};;
       reorderServers ordinal (Some (VNum 7))) w
  = (Ok tt,
     stored "servers.json" [ server_of "a" 7 "S - 1"; server_of "c" 7 "S - 2" ]
       (stored "servers.json" [ server_of "a" 7 "S - 1"; server_of "c" 7 "S - 3" ] w)).
Proof. vm_compute. reflexivity. Qed.

Lemma reorderServers_frame_witness :
  let w := over [("servers.json", Text (Some (JArr three_servers)))] in
  let userId := Some (VNum 7) in
  healthy w
  ∧ holds w "servers.json" three_servers
  ∧ Forall (λ s : doc, s !! "userId" = userId → ∃ id, s !! "_id" = Some (VStr id))
      three_servers
  ∧ ∃ sorted renamed,
      run (reorderServers ordinal userId) w
        = (Ok tt,
           stored "servers.json"
             (filter (λ s : doc, s !! "userId" ≠ userId) three_servers ++ renamed)%list w)
      ∧ sorted ≡ₚ filter (λ s : doc, s !! "userId" = userId) three_servers
      ∧ Sorted (λ a b, ordinal (id_of a) (id_of b) ≤ 0) sorted
      ∧ length renamed = 2%nat.
Proof.
  intros w userId.
  assert (Hh : healthy w) by (split; reflexivity).
  assert (Hf : holds w "servers.json" three_servers) by reflexivity.
  assert (Hids : Forall (λ s : doc, s !! "userId" = userId →
                           ∃ id, s !! "_id" = Some (VStr id)) three_servers).
  { repeat constructor; intros _; eexists; vm_compute; reflexivity. }
  split; [exact Hh |]. split; [exact Hf |]. split; [exact Hids |].
  destruct (reorderServers_frame ordinal ordinal_total w three_servers userId Hh Hf Hids)
    as (sorted & renamed & Hrun & Hperm & Hsorted & _ & _ & Hlen & _).
  exists sorted, renamed. split; [exact Hrun |]. split; [exact Hperm |].
  split; [exact Hsorted |]. exact Hlen.
Defined.

(** C3 as stated fails: the only server of owner 7 is not named "#1". *)
Lemma reorderServers_names_not_hash :
  let w := over [("servers.json", Text (Some (JArr [server_of "a1" 7 "first"])))] in
  ¬ (∀ w' rows', run (reorderServers ordinal (Some (VNum 7))) w = (Ok tt, w') →
       holds w' "servers.json" rows' →
       ∀ (i : nat) (s : doc),
         filter (λ s : doc, s !! "userId" = Some (VNum 7)) rows' !! i = Some s →
         s !! "serverName" = Some (VStr ("#" +:+ pretty (S i)))).
Proof.
  intros w Hclaim.
  specialize (Hclaim (stored "servers.json" [server_of "a1" 7 "S - 1"] w)
                [server_of "a1" 7 "S - 1"]).
  assert (Hrun : run (reorderServers ordinal (Some (VNum 7))) w
                 = (Ok tt, stored "servers.json" [server_of "a1" 7 "S - 1"] w))
    by (vm_cast_no_check
          (eq_refl (Ok tt, stored "servers.json" [server_of "a1" 7 "S - 1"] w))).
  specialize (Hclaim Hrun (lookup_insert_eq _ _ _)
                0%nat (server_of "a1" 7 "S - 1") eq_refl).
  discriminate Hclaim.
Qed.

(** *** Session manager: the steps *)

Arguments Servers.findById : simpl never.
Arguments Servers.updateOne : simpl never.
Arguments Users.findOne : simpl never.
Arguments call : simpl never.
Arguments getSupportedVersions : simpl never.
Arguments startBedrockBot : simpl never.
Arguments manageServerAction : simpl never.

Lemma healthy_stored file rows w : healthy w → healthy (stored file rows w).
Proof. done. Qed.

Lemma holds_stored file rows w : holds (stored file rows w) file rows.
Proof. unfold holds, stored. simpl. apply lookup_insert_eq. Qed.

Lemma holds_stored_ne file file' rows rows' w :
  file ≠ file' → holds w file' rows' → holds (stored file rows w) file' rows'.
Proof. intros Hne Hf. unfold holds, stored. simpl. by rewrite lookup_insert_ne. Qed.

Lemma run_call c w :
  run (call c) w =
    (match telegram (env w) c with
     | Some description => Err (TelegramError description)
     | None => Ok tt
     end,
     set_outbox (λ o, (o ++ [c])%list) w).
Proof. unfold call. cbn. by destruct (telegram (env w) c). Qed.

Lemma run_ignoring_call c w :
  run (ignoring (await (call c))) w = (Ok tt, set_outbox (λ o, (o ++ [c])%list) w).
Proof.
  unfold ignoring. rewrite run_try_catch, run_await, run_call.
  by destruct (telegram (env w) c).
Qed.

Lemma run_ignoring_edit_opt ctx m w :
  run (ignoring (await (editMessageText_opt ctx m))) w = (Ok tt, edited ctx m w).
Proof.
  destruct ctx as [chat|]; [apply run_ignoring_call|].
  unfold ignoring. by rewrite run_try_catch, run_await.
Qed.

Lemma run_Servers_findById id w rows :
  healthy w → holds w "servers.json" rows →
  run (Servers.findById id) w = (Ok (snd <$> lookup_id id rows), w).
Proof.
  intros Hh Hf. unfold Servers.findById.
  by rewrite run_bind, run_await, (run_Servers_find_all w rows).
Qed.

Lemma run_Servers_updateOne id payload w rows :
  healthy w → holds w "servers.json" rows →
  run (Servers.updateOne (field "_id" id) (set_ payload)) w =
    (Ok tt,
     match lookup_id id rows with
     | Some _ => stored "servers.json" (patch id payload rows) w
     | None => w
     end).
Proof.
  intros Hh Hf. unfold Servers.updateOne.
  rewrite run_bind, run_await, (run_Servers_find_all w rows) by done.
  cbn. unfold field. rewrite lookup_singleton_eq. cbn.
  unfold patch, lookup_id.
  destruct (list_find _ rows) as [[i s]|]; [|done].
  by rewrite run_await, run_writeDb
    by (by apply healthy_free || by apply healthy_writable).
Qed.

Lemma lookup_id_Some id rows i s :
  lookup_id id rows = Some (i, s) → rows !! i = Some s ∧ s !! "_id" = id.
Proof. unfold lookup_id. intros H%list_find_Some. tauto. Qed.

(** A patch that leaves [_id] alone does not move the record. *)
Lemma lookup_id_patch id payload rows :
  payload !! "_id" = None →
  lookup_id id (patch id payload rows)
  = (λ '(i, s), (i, payload ∪ s)) <$> lookup_id id rows.
Proof.
  intros Hp. unfold patch. destruct (lookup_id id rows) as [[i s]|] eqn:Hl; [|by rewrite Hl].
  unfold lookup_id in *. apply list_find_Some in Hl as (Hi & Hs & Hbefore).
  simpl. apply list_find_Some. split; [|split].
  - apply list_lookup_insert_eq. by eapply lookup_lt_Some.
  - rewrite lookup_union_r by done. done.
  - intros j y Hj Hlt. rewrite list_lookup_insert_ne in Hj by lia. by eapply Hbefore.
Qed.

Lemma record_stored id rows w :
  record (stored "servers.json" rows w) id = snd <$> lookup_id id rows.
Proof. unfold record. by rewrite holds_stored. Qed.

Arguments connection_error : simpl never.
Arguments probe : simpl never.
Arguments bedrock_createClient : simpl never.

Lemma chatter_nil w : chatter [] [] w = w.
Proof. destruct w. unfold chatter, set_console, set_outbox. simpl. by rewrite !app_nil_r. Qed.

Lemma chatter_chatter l1 c1 l2 c2 w :
  chatter l2 c2 (chatter l1 c1 w) = chatter (l1 ++ l2) (c1 ++ c2) w.
Proof.
  destruct w. unfold chatter, set_console, set_outbox. simpl. by rewrite !app_assoc.
Qed.

Lemma run_probe ip port w :
  run (probe ip port) w =
    (match statusBedrock (env w) ip port with
     | Responds protocol name => Ok (protocol, name)
     | Fails message => Err (NetError message)
     end, w).
Proof. unfold probe. cbn. by destruct (statusBedrock (env w) ip port). Qed.

Lemma run_connection_error ctx server id error w rows :
  healthy w → holds w "servers.json" rows →
  run (connection_error ctx server id error) w =
    (Ok tt,
     edited ctx (Msg "failed_connect")
       (let w1 := set_activeClients (delete id)
                    (set_console (λ c, (c ++ ["Bedrock connection error"])%list) w) in
        match lookup_id (server !! "_id") rows with
        | Some _ =>
            stored "servers.json"
              (patch (server !! "_id") {[ "status" := ConnectFailed ]} rows) w1
        | None => w1
        end)).
Proof.
  intros Hh Hf. unfold connection_error. cbn.
  run_bind. rewrite run_await.
  rewrite (run_Servers_updateOne _ _ _ rows) by done.
  cbn. by rewrite run_ignoring_edit_opt.
Qed.

(** The edit that reports "server found", whose failure is at most logged. *)
Lemma run_edit_logged c line w :
  ∃ lines,
    run (try_catch (await (call c)) (unless_not_modified line)) w
    = (Ok tt, chatter lines [c] w).
Proof.
  rewrite run_try_catch, run_await, run_call.
  destruct (telegram (env w) c) as [d|]; cbn.
  - destruct (includes d "message is not modified"); cbn.
    + exists []. destruct w. unfold chatter, set_console, set_outbox. simpl.
      by rewrite app_nil_r.
    + by exists [line].
  - exists []. destruct w. unfold chatter, set_console, set_outbox. simpl.
    by rewrite app_nil_r.
Qed.

Lemma healthy_chatter lines calls w : healthy w → healthy (chatter lines calls w).
Proof. done. Qed.

Lemma holds_chatter lines calls w file rows :
  holds w file rows → holds (chatter lines calls w) file rows.
Proof. done. Qed.

Lemma healthy_edited ctx m w : healthy w → healthy (edited ctx m w).
Proof. by destruct ctx. Qed.

Lemma holds_edited ctx m w file rows :
  holds w file rows → holds (edited ctx m w) file rows.
Proof. by destruct ctx. Qed.

Lemma record_edited ctx m w id : record (edited ctx m w) id = record w id.
Proof. by destruct ctx. Qed.

Lemma activeClients_edited ctx m w : activeClients (edited ctx m w) = activeClients w.
Proof. by destruct ctx. Qed.

Lemma clients_edited ctx m w : clients (edited ctx m w) = clients w.
Proof. by destruct ctx. Qed.

Lemma status_patched id payload rows w v :
  payload !! "_id" = None →
  payload !! "status" = Some v →
  is_Some (lookup_id id rows) →
  status (stored "servers.json" (patch id payload rows) w) id = Some v.
Proof.
  intros Hid Hst [[i s] Hl]. unfold status.
  rewrite record_stored, lookup_id_patch, Hl by done. simpl.
  by apply lookup_union_Some_l.
Qed.

Lemma patch_is_Some id payload rows :
  payload !! "_id" = None →
  is_Some (lookup_id id rows) → is_Some (lookup_id id (patch id payload rows)).
Proof. intros Hid [[i s] Hl]. rewrite lookup_id_patch, Hl by done. by eexists. Qed.

(** C4. When the probe fails, or the client cannot be created after a probe
    that resolved, [startBedrockBot] returns normally: no session is left
    for the server, its record says ConnectFailed, no client was opened,
    and a request with a context is answered with "failed_connect". *)
Theorem startBedrockBot_failure_contained
    (w : world) (ctx : context) (server : doc) (versions : protocolMap)
    (rows : list doc) (id : string) :
  healthy w →
  holds w "servers.json" rows →
  server !! "_id" = Some (VStr id) →
  is_Some (lookup_id (Some (VStr id)) rows) →
  (∃ message,
     statusBedrock (env w) (server !! "ip") (server !! "port") = Fails message)
  ∨ (∃ protocol name bedrock mcVersion,
       statusBedrock (env w) (server !! "ip") (server !! "port")
         = Responds protocol name
       ∧ versions !! "bedrock" = Some bedrock
       ∧ bedrock !! pretty protocol = Some mcVersion
       ∧ truthy (Some mcVersion) = true
       ∧ is_Some (createClient (env w)
                    (ClientOptions (server !! "ip") (server !! "port")
                       (server !! "botName") mcVersion true))) →
  ∃ w',
    run (startBedrockBot ctx server versions) w = (Ok tt, w')
    ∧ activeClients w' !! id = None
    ∧ status w' (Some (VStr id)) = Some ConnectFailed
    ∧ clients w' = clients w
    ∧ ∀ chat, ctx = Some chat →
        last (outbox w') = Some (EditMessageText chat (Msg "failed_connect")).
Proof.
  intros Hh Hf Hid Hrec Hfail.
  unfold startBedrockBot. rewrite Hid. cbn.
  rewrite run_try_catch. run_bind. rewrite run_probe.
  destruct Hfail as [[message Hp] | (protocol & name & bedrock & mcVersion
                                     & Hp & Hb & Hv & Ht & [m Hc])]; rewrite Hp.
  - (* the probe fails *)
    rewrite (run_connection_error _ _ _ _ _ rows), Hid by done.
    destruct Hrec as [[i s] Hl]. rewrite Hl.
    eexists. split; [reflexivity|]. repeat split.
    + rewrite activeClients_edited. cbn. apply lookup_delete_eq.
    + unfold status. rewrite record_edited.
      apply status_patched; [reflexivity | reflexivity | by eauto].
    + by rewrite clients_edited.
    + intros chat ->. cbn. apply last_snoc.
  - (* the probe answers, the client is not created *)
    cbn. rewrite Hb. cbn. rewrite Hv, Ht. cbn.
    run_bind. rewrite run_await.
    rewrite (run_Servers_updateOne _ _ _ rows) by done.
    destruct Hrec as [[i s] Hl]. rewrite Hl. cbn.
    set (rows1 := patch (Some (VStr id)) {[ "status" := Connecting ]} rows).
    assert (Hrec1 : is_Some (lookup_id (Some (VStr id)) rows1))
      by (apply patch_is_Some; by eauto).
    destruct ctx as [chat|].
    + run_bind.
      destruct (run_edit_logged (EditMessageText chat (Msg "server_found_and_starting"))
                  "Error editing message in startBedrockBot (server found):"
                  (stored "servers.json" rows1 w)) as [lines ->].
      cbn. run_bind. unfold bedrock_createClient. cbn. rewrite Hc. cbn.
      rewrite (run_connection_error _ _ _ _ _ rows1), Hid
        by (done || apply holds_stored).
      destruct Hrec1 as [[i1 s1] Hl1]. rewrite Hl1.
      eexists. split; [reflexivity|]. repeat split.
      * cbn. apply lookup_delete_eq.
      * unfold status. rewrite record_edited.
        apply status_patched; [reflexivity | reflexivity | by eauto].
      * intros chat' [= <-]. cbn. apply last_snoc.
    + cbn. run_bind. unfold bedrock_createClient. cbn. rewrite Hc. cbn.
      rewrite (run_connection_error _ _ _ _ _ rows1), Hid
        by (done || apply holds_stored).
      destruct Hrec1 as [[i1 s1] Hl1]. rewrite Hl1.
      eexists. split; [reflexivity|]. repeat split.
      * cbn. apply lookup_delete_eq.
      * unfold status. rewrite record_edited.
        apply status_patched; [reflexivity | reflexivity | by eauto].
      * intros chat' [=].
Qed.

Lemma startBedrockBot_failure_contained_witness :
  let w := set_env (λ _, unreachable) (one_server false) in
  healthy w
  ∧ holds w "servers.json" [a1 false]
  ∧ a1 false !! "_id" = Some (VStr "a1")
  ∧ is_Some (lookup_id (Some (VStr "a1")) [a1 false])
  ∧ statusBedrock (env w) (a1 false !! "ip") (a1 false !! "port") = Fails "timeout"
  ∧ ∃ w',
      run (startBedrockBot (Some 100) (a1 false) ∅) w = (Ok tt, w')
      ∧ activeClients w' !! "a1" = None
      ∧ status w' (Some (VStr "a1")) = Some ConnectFailed
      ∧ clients w' = clients w
      ∧ ∀ chat, Some 100 = Some chat →
          last (outbox w') = Some (EditMessageText chat (Msg "failed_connect")).
Proof.
  intros w.
  assert (Hh : healthy w) by (split; reflexivity).
  assert (Hf : holds w "servers.json" [a1 false]) by reflexivity.
  assert (Hid : a1 false !! "_id" = Some (VStr "a1")) by reflexivity.
  assert (Hrec : is_Some (lookup_id (Some (VStr "a1")) [a1 false]))
    by (eexists; reflexivity).
  assert (Hp : statusBedrock (env w) (a1 false !! "ip") (a1 false !! "port")
               = Fails "timeout") by reflexivity.
  split; [exact Hh |]. split; [exact Hf |]. split; [exact Hid |].
  split; [exact Hrec |]. split; [exact Hp |].
  exact (startBedrockBot_failure_contained w (Some 100) (a1 false) ∅ [a1 false] "a1"
           Hh Hf Hid Hrec (or_introl (ex_intro _ "timeout" Hp))).
Defined.

(** *** The catalogue *)

Lemma run_getSupportedVersions w vrows :
  healthy w → holds w "versions.json" vrows →
  run getSupportedVersions w
  = (Ok (foldl register {[ "bedrock" := ∅; "java" := ∅ ]} vrows), w).
Proof.
  intros Hh Hf. unfold getSupportedVersions.
  by rewrite run_bind, run_await, (run_Versions_find_all w vrows).
Qed.






(** *** Disconnection *)

Arguments notify_owner : simpl never.

Lemma console_chatter line w :
  set_console (λ c, (c ++ [line])%list) w = chatter [line] [] w.
Proof. destruct w. unfold chatter, set_console, set_outbox. simpl. by rewrite app_nil_r. Qed.

Lemma outbox_chatter c w :
  set_outbox (λ o, (o ++ [c])%list) w = chatter [] [c] w.
Proof. destruct w. unfold chatter, set_console, set_outbox. simpl. by rewrite app_nil_r. Qed.

Lemma run_Users_findOne query w :
  healthy w →
  (∃ users, holds w "users.json" users
            ∧ run (Users.findOne query) w
              = (Ok (snd <$> list_find (matches query) users), w))
  ∨ (¬ (∃ users, holds w "users.json" users)
     ∧ ∃ r lines, run (Users.findOne query) w = (r, chatter lines [] w)
                  ∧ r ≠ Stuck).
Proof.
  intros Hh. unfold Users.findOne, Users.find.
  rewrite run_bind, !run_await, run_readDb by by apply healthy_free.
  unfold holds.
  destruct (files w !! "users.json") as [[[[users|o]|]|code]|] eqn:Hf.
  - left. exists users. done.
  - right. split; [by intros [? [=]]|]. exists (Err (TypeError "not a function")), [].
    by rewrite chatter_nil.
  - right. split; [by intros [? [=]]|]. cbn. rewrite console_chatter.
    by eexists (Ok None), _.
  - right. split; [by intros [? [=]]|].
    destruct (String.eqb code "ENOENT"); cbn.
    + exists (Ok None), []. by rewrite chatter_nil.
    + rewrite console_chatter. by eexists (Err _), _.
  - right. split; [by intros [? [=]]|]. exists (Ok None), [].
    by rewrite chatter_nil.
Qed.

(** The notice never fails, whatever the users table and Telegram do; with
    a readable users table it is sent. *)
Lemma run_notify_owner server w :
  healthy w →
  ∃ lines calls,
    run (notify_owner server) w = (Ok tt, chatter lines calls w)
    ∧ ((∃ users, holds w "users.json" users) →
       calls = [SendMessage (server !! "userId") (Notice server)]).
Proof.
  intros Hh. unfold notify_owner. rewrite run_try_catch. run_bind. rewrite run_await.
  destruct (run_Users_findOne (field "userId" (server !! "userId")) w Hh)
    as [(users & Hu & ->) | (Hno & r & lines & -> & Hr)].
  - rewrite run_await, run_try_catch, run_call.
    destruct (telegram (env w) _); cbn;
      rewrite ?console_chatter, ?outbox_chatter, ?chatter_chatter;
      by eexists _, _.
  - destruct r as [user|e|]; [| |done].
    + rewrite run_await, run_try_catch, run_call. cbn.
      destruct (telegram (env w) _); cbn;
        rewrite ?console_chatter, ?outbox_chatter, ?chatter_chatter;
        by eexists _, _.
    + cbn. rewrite ?console_chatter, ?outbox_chatter, ?chatter_chatter.
      by eexists _, _.
Qed.

Lemma status_chatter lines calls w id : status (chatter lines calls w) id = status w id.
Proof. done. Qed.

(** C6. The ['disconnect'] and ['error'] listener.  Its first turn, up to
    the first suspension point, already removes the session and has written
    nothing.  Run to the end it returns normally with the session removed;
    if the record read back has [autoRestart] set, the status is
    Reconnecting and one timer is pending, 30000 ms from now, whose
    callback is [startBedrockBot] without a context on the record read
    back; otherwise the status is Stopped and no timer is added.  The
    notice to the owner is sent when the users table can be read, and
    nothing that goes wrong with it makes the listener fail. *)
Theorem handleDisconnect_effect
    (w : world) (server : doc) (versions : protocolMap) (client : nat)
    (id reason : string) (rows : list doc) :
  healthy w →
  holds w "servers.json" rows →
  (∃ p w1,
     advance (handleDisconnect server versions client id reason) w = (p, w1)
     ∧ finished p = false
     ∧ activeClients w1 = delete id (activeClients w)
     ∧ files w1 = files w
     ∧ written w1 = written w)
  ∧ ∃ w',
      run (handleDisconnect server versions client id reason) w = (Ok tt, w')
      ∧ activeClients w' = delete id (activeClients w)
      ∧ (∀ i currentServer,
           lookup_id (server !! "_id") rows = Some (i, currentServer) →
           truthy (currentServer !! "autoRestart") = true →
           status w' (server !! "_id") = Some Reconnecting
           ∧ timers w' = (timers w ++ [Timer (now w) 30000 (Restart currentServer versions)])%list
           ∧ fire (Restart currentServer versions)
             = detached (startBedrockBot None currentServer versions))
      ∧ (∀ i currentServer,
           lookup_id (server !! "_id") rows = Some (i, currentServer) →
           truthy (currentServer !! "autoRestart") = false →
           status w' (server !! "_id") = Some Stopped
           ∧ timers w' = timers w)
      ∧ ((∃ users, holds w "users.json" users) →
         SendMessage (server !! "userId") (Notice server) ∈ outbox w').
Proof.
  intros Hh Hf. split.
  - unfold handleDisconnect, Servers.findById, Servers.find, readDb, await,
      acquireLock, locked.
    cbn. rewrite (healthy_free _ _ Hh). cbn.
    eexists _, _. split; [reflexivity|]. done.
  - unfold handleDisconnect. cbn.
    set (w0 := set_clients _ _).
    assert (Hh0 : healthy w0) by done.
    assert (Hf0 : holds w0 "servers.json" rows) by done.
    run_bind. rewrite run_await. rewrite (run_Servers_findById _ _ rows) by done.
    destruct (lookup_id (server !! "_id") rows) as [[i cs]|] eqn:Hl; cbn.
    + destruct (lookup_id_Some _ _ _ _ Hl) as [Hi Hid].
      destruct (truthy (cs !! "autoRestart")) eqn:Hauto; cbn.
      * run_bind. run_bind. rewrite run_await, Hid.
        rewrite (run_Servers_updateOne _ _ _ rows) by done. rewrite Hl. cbn.
        set (w1 := set_timers _ _).
        destruct (run_notify_owner server w1) as (lines & calls & -> & Hsent); [done|].
        eexists. split_and!; [reflexivity | done | | | ].
        -- intros i' cs' [= <- <-] _. split_and!; [|reflexivity..].
           rewrite status_chatter. apply status_patched; by eauto.
        -- intros i' cs' [= <- <-]. congruence.
        -- intros [users Hu]. rewrite Hsent; cbn.
           2:{ exists users. unfold holds in *. cbn.
               rewrite ?lookup_insert_ne by done. exact Hu. }
           apply elem_of_app. right. by left.
      * run_bind. rewrite run_await.
        rewrite (run_Servers_updateOne _ _ _ rows) by done. rewrite Hl. cbn.
        set (w1 := stored _ _ _).
        destruct (run_notify_owner server w1) as (lines & calls & -> & Hsent); [done|].
        eexists. split_and!; [reflexivity | done | | | ].
        -- intros i' cs' [= <- <-]. congruence.
        -- intros i' cs' [= <- <-] _. split_and!; [|reflexivity].
           rewrite status_chatter. apply status_patched; by eauto.
        -- intros [users Hu]. rewrite Hsent; cbn.
           2:{ exists users. unfold holds in *. cbn.
               rewrite ?lookup_insert_ne by done. exact Hu. }
           apply elem_of_app. right. by left.
    + run_bind. rewrite run_await.
      rewrite (run_Servers_updateOne _ _ _ rows) by done. rewrite Hl. cbn.
      destruct (run_notify_owner server w0) as (lines & calls & -> & Hsent); [done|].
      eexists. split_and!; [reflexivity | done | by intros ? ? [=] | by intros ? ? [=] | ].
      intros [users Hu]. rewrite Hsent; cbn.
      2:{ exists users. unfold holds in *. cbn.
               rewrite ?lookup_insert_ne by done. exact Hu. }
      apply elem_of_app. right. by left.
Qed.

Lemma handleDisconnect_effect_witness :
  let w := one_server true in
  healthy w
  ∧ holds w "servers.json" [a1 true]
  ∧ lookup_id (a1 true !! "_id") [a1 true] = Some (0%nat, a1 true)
  ∧ truthy (a1 true !! "autoRestart") = true
  ∧ ∃ w',
      run (handleDisconnect (a1 true) ∅ 0 "a1" "closed") w = (Ok tt, w')
      ∧ activeClients w' = delete "a1" (activeClients w)
      ∧ status w' (a1 true !! "_id") = Some Reconnecting
      ∧ timers w' = [Timer 0 30000 (Restart (a1 true) ∅)].
Proof.
  intros w.
  assert (Hh : healthy w) by (split; reflexivity).
  assert (Hf : holds w "servers.json" [a1 true]) by reflexivity.
  assert (Hl : lookup_id (a1 true !! "_id") [a1 true] = Some (0%nat, a1 true))
    by reflexivity.
  assert (Ha : truthy (a1 true !! "autoRestart") = true) by reflexivity.
  repeat (split; [assumption |]).
  destruct (handleDisconnect_effect w (a1 true) ∅ 0 "a1" "closed" [a1 true] Hh Hf)
    as [_ (w' & Hrun & Hgone & Hrestart & _)].
  destruct (Hrestart 0%nat (a1 true) Hl Ha) as (Hst & Htm & _).
  exists w'. split; [exact Hrun |]. split; [exact Hgone |].
  split; [exact Hst | exact Htm].
Defined.

(** *** Stopping *)

Lemma run_manageServerAction ctx id w rows :
  healthy w → holds w "servers.json" rows →
  ∃ lines calls, run (manageServerAction ctx id) w = (Ok tt, chatter lines calls w).
Proof.
  intros Hh Hf. unfold manageServerAction.
  rewrite run_bind, run_await, (run_Servers_findById _ _ rows) by done.
  destruct (snd <$> lookup_id id rows) as [server|]; cbn.
  - destruct ctx as [chat|].
    + destruct (run_edit_logged (EditMessageText chat (Menu server))
                  "Error in manageServerAction:" w) as [lines Hrun].
      by exists lines, [EditMessageText chat (Menu server)].
    + rewrite run_try_catch, run_await. cbn. rewrite console_chatter. by eexists _, _.
  - destruct ctx as [chat|].
    + cbn. rewrite run_ignoring_call, outbox_chatter. by eexists _, _.
    + unfold ignoring. rewrite run_try_catch, run_await. cbn.
      exists [], []. by rewrite chatter_nil.
Qed.

Lemma run_ignoring_answer ctx m w :
  ∃ calls, run (ignoring (await (answerCbQuery ctx m))) w = (Ok tt, chatter [] calls w).
Proof.
  destruct ctx as [chat|]; cbn.
  - rewrite run_ignoring_call, outbox_chatter. by eexists.
  - unfold ignoring. rewrite run_try_catch, run_await. cbn.
    exists []. by rewrite chatter_nil.
Qed.

Lemma run_stopBot ctx id w rows i server :
  healthy w → holds w "servers.json" rows →
  lookup_id (Some (VStr id)) rows = Some (i, server) →
  let rows1 := patch (Some (VStr id)) stop_patch rows in
  let w1 := stored "servers.json" rows1 w in
  match activeClients w !! id with
  | None =>
      ∃ lines calls,
        run (stopBot ctx (Some (VStr id))) w = (Ok tt, chatter lines calls w1)
  | Some b =>
      match teardown (env w) (client b) with
      | Some message =>
          run (stopBot ctx (Some (VStr id))) w = (Err (NetError message), w1)
      | None =>
          ∃ lines calls,
            run (stopBot ctx (Some (VStr id))) w
            = (Ok tt,
               chatter lines calls
                 (set_activeClients (delete id) (set_clients (hung_up b) w1)))
      end
  end.
Proof.
  intros Hh Hf Hl rows1 w1.
  destruct (lookup_id_Some _ _ _ _ Hl) as [Hi Hid].
  assert (Hf1 : holds w1 "servers.json" rows1) by apply holds_stored.
  unfold stopBot.
  rewrite run_bind, run_await, (run_Servers_findById _ _ rows), Hl by done.
  cbn. rewrite Hid. run_bind.
  rewrite run_await.
  rewrite (run_Servers_updateOne _ _ _ rows), Hl by done.
  fold stop_patch rows1 w1. cbn.
  destruct (activeClients w !! id) as [b|] eqn:Hb; cbn.
  - unfold hang_up.
    assert (Hhang :
      ∀ how, run (Get (λ w0 : world,
                    match teardown (env w0) (client b) with
                    | Some message => Throw (NetError message)
                    | None =>
                        modify (set_clients
                          (alter (λ c, Connection (options c) (listeners c) (Some how))
                             (client b)))
                    end)) w1
             = match teardown (env w) (client b) with
               | Some message => (Err (NetError message), w1)
               | None =>
                   (Ok tt,
                    set_clients
                      (alter (λ c, Connection (options c) (listeners c) (Some how))
                         (client b)) w1)
               end).
    { intros how. cbn. by destruct (teardown (env w) (client b)). }
    run_bind. run_bind.
    destruct (String.eqb (type b) "java") eqn:Hjava;
      rewrite Hhang; destruct (teardown (env w) (client b)) as [message|] eqn:Ht;
      try done; cbn.
    + unfold hung_up. rewrite Hjava. set (w2 := set_activeClients _ _).
      destruct (run_ignoring_answer ctx (Msg "bot_stopped") w2) as [calls Ha].
      destruct (run_manageServerAction ctx (Some (VStr id))
                  (chatter [] calls w2) rows1) as (lines & calls' & Hm); [done..|].
      run_bind. rewrite Ha, run_await, Hm, chatter_chatter.
      by eexists _, _.
    + unfold hung_up. rewrite Hjava. set (w2 := set_activeClients _ _).
      destruct (run_ignoring_answer ctx (Msg "bot_stopped") w2) as [calls Ha].
      destruct (run_manageServerAction ctx (Some (VStr id))
                  (chatter [] calls w2) rows1) as (lines & calls' & Hm); [done..|].
      run_bind. rewrite Ha, run_await, Hm, chatter_chatter.
      by eexists _, _.
  - destruct (run_ignoring_answer ctx (Msg "bot_stopped") w1) as [calls Ha].
    destruct (run_manageServerAction ctx (Some (VStr id))
                (chatter [] calls w1) rows1) as (lines & calls' & Hm); [done..|].
    run_bind. rewrite Ha, run_await, Hm, chatter_chatter. by eexists _, _.
Qed.

Lemma record_chatter lines calls w id : record (chatter lines calls w) id = record w id.
Proof. done. Qed.

Lemma record_stop_patched id rows i server w :
  lookup_id (Some (VStr id)) rows = Some (i, server) →
  record (stored "servers.json" (patch (Some (VStr id)) stop_patch rows) w)
    (Some (VStr id))
  = Some (stop_patch ∪ server).
Proof.
  intros Hl. by rewrite record_stored, lookup_id_patch, Hl.
Qed.

(** What a stop does, case by case. Stopping a server that has a record
    persists status Stopped and [autoRestart] false, whatever happens
    next.  Without a session nothing else changes.  With a session the
    client's teardown
    is called: if it returns, the session is removed; if it throws, the
    exception leaves [stopBot] and the session stays.  A second stop right
    after the first leaves status Stopped again, and returns normally
    whenever the first one did. *)
Theorem stopBot_effect
    (w : world) (ctx : context) (id : string) (rows : list doc)
    (i : nat) (server : doc) :
  healthy w →
  holds w "servers.json" rows →
  lookup_id (Some (VStr id)) rows = Some (i, server) →
  ∃ r w',
    run (stopBot ctx (Some (VStr id))) w = (r, w')
    ∧ status w' (Some (VStr id)) = Some Stopped
    ∧ (s ← record w' (Some (VStr id)); s !! "autoRestart") = Some (VBool false)
    ∧ (activeClients w !! id = None →
       r = Ok tt ∧ activeClients w' = activeClients w ∧ clients w' = clients w)
    ∧ (∀ b, activeClients w !! id = Some b → teardown (env w) (client b) = None →
       r = Ok tt
       ∧ activeClients w' = delete id (activeClients w)
       ∧ clients w' = hung_up b (clients w))
    ∧ (∀ b message,
         activeClients w !! id = Some b →
         teardown (env w) (client b) = Some message →
         r = Err (NetError message) ∧ activeClients w' = activeClients w)
    ∧ ∃ r2 w'',
        run (stopBot ctx (Some (VStr id))) w' = (r2, w'')
        ∧ status w'' (Some (VStr id)) = Some Stopped
        ∧ (r = Ok tt → r2 = Ok tt ∧ activeClients w'' !! id = None).
Proof.
  intros Hh Hf Hl.
  set (rows1 := patch (Some (VStr id)) stop_patch rows).
  assert (Hl1 : lookup_id (Some (VStr id)) rows1 = Some (i, stop_patch ∪ server))
    by (unfold rows1; by rewrite lookup_id_patch, Hl).
  set (rows2 := patch (Some (VStr id)) stop_patch rows1).
  assert (Hst : ∀ w0 rows0, is_Some (lookup_id (Some (VStr id)) rows0) →
            status (stored "servers.json" (patch (Some (VStr id)) stop_patch rows0) w0)
              (Some (VStr id)) = Some Stopped)
    by (intros; by apply status_patched).
  (* what any run establishes, so that a second one can follow *)
  assert (Hany : ∀ w0 rows0 i0 s0,
            healthy w0 → holds w0 "servers.json" rows0 →
            lookup_id (Some (VStr id)) rows0 = Some (i0, s0) →
            ∃ r w',
              run (stopBot ctx (Some (VStr id))) w0 = (r, w')
              ∧ healthy w'
              ∧ holds w' "servers.json" (patch (Some (VStr id)) stop_patch rows0)
              ∧ (activeClients w0 !! id = None →
                 r = Ok tt ∧ activeClients w' = activeClients w0
                 ∧ clients w' = clients w0)
              ∧ (∀ b, activeClients w0 !! id = Some b →
                      teardown (env w0) (client b) = None →
                 r = Ok tt ∧ activeClients w' = delete id (activeClients w0)
                 ∧ clients w' = hung_up b (clients w0))
              ∧ (∀ b message, activeClients w0 !! id = Some b →
                      teardown (env w0) (client b) = Some message →
                 r = Err (NetError message) ∧ activeClients w' = activeClients w0)).
  { intros w0 rows0 i0 s0 Hh0 Hf0 Hl0.
    pose proof (run_stopBot ctx id w0 rows0 i0 s0 Hh0 Hf0 Hl0) as Hrun.
    cbn zeta in Hrun.
    destruct (activeClients w0 !! id) as [b|] eqn:Hb.
    - destruct (teardown (env w0) (client b)) as [message|] eqn:Ht.
      + eexists _, _. split; [exact Hrun|].
        split_and!; [done | apply holds_stored | done | | ].
        * intros b' [= <-] Hn. congruence.
        * intros b' message' [= <-] Hm. split; [congruence | done].
      + destruct Hrun as (lines & calls & Hrun).
        eexists _, _. split; [exact Hrun|].
        split_and!; [done | apply holds_chatter, holds_stored | done | | ].
        * intros b' [= <-] _. done.
        * intros b' message' [= <-] Hm. congruence.
    - destruct Hrun as (lines & calls & Hrun).
      eexists _, _. split; [exact Hrun|].
      split_and!; [done | apply holds_chatter, holds_stored | done
                   | by intros ? [=] | by intros ? ? [=]]. }
  destruct (Hany w rows i server Hh Hf Hl)
    as (r & w' & Hrun & Hh' & Hf' & Hnone & Hdown & Hthrow).
  destruct (Hany w' rows1 i (stop_patch ∪ server) Hh' Hf' Hl1)
    as (r2 & w'' & Hrun2 & Hh'' & Hf'' & Hnone2 & Hdown2 & Hthrow2).
  assert (Hstat : ∀ w0 rows0, holds w0 "servers.json" rows0 →
            status w0 (Some (VStr id)) = (snd <$> lookup_id (Some (VStr id)) rows0)
                                          ≫= (.!! "status")).
  { intros w0 rows0 H0. unfold status, record. by rewrite H0. }
  subst rows2 rows1.
  exists r, w'. split; [exact Hrun|]. split_and!.
  - rewrite (Hstat _ _ Hf'), Hl1. cbn. by apply lookup_union_Some_l.
  - unfold record. rewrite Hf', Hl1. cbn. by apply lookup_union_Some_l.
  - exact Hnone.
  - exact Hdown.
  - exact Hthrow.
  - exists r2, w''. split; [exact Hrun2|]. split.
    + rewrite (Hstat _ _ Hf''). rewrite lookup_id_patch, Hl1 by done. cbn.
      by apply lookup_union_Some_l.
    + intros ->.
      assert (Hgone : activeClients w' !! id = None).
      { destruct (activeClients w !! id) as [b|] eqn:Hb.
        - destruct (teardown (env w) (client b)) as [message|] eqn:Ht.
          + by destruct (Hthrow b message eq_refl Ht) as [[=] _].
          + destruct (Hdown b eq_refl Ht) as (_ & -> & _).
            apply lookup_delete_eq.
        - destruct (Hnone eq_refl) as (_ & -> & _). done. }
      destruct (Hnone2 Hgone) as (-> & Heq & _). split; [done|].
      by rewrite Heq.
Qed.

Lemma stopBot_effect_witness :
  let w := watching false in
  healthy w
  ∧ holds w "servers.json" [a1_live false]
  ∧ lookup_id (Some (VStr "a1")) [a1_live false] = Some (0%nat, a1_live false)
  ∧ ∃ w',
      run (stopBot (Some 100) (Some (VStr "a1"))) w = (Ok tt, w')
      ∧ status w' (Some (VStr "a1")) = Some Stopped
      ∧ activeClients w' = delete "a1" (activeClients w)
      ∧ ∃ w'',
          run (stopBot (Some 100) (Some (VStr "a1"))) w' = (Ok tt, w'')
          ∧ status w'' (Some (VStr "a1")) = Some Stopped.
Proof.
  intros w.
  assert (Hh : healthy w) by (split; reflexivity).
  assert (Hf : holds w "servers.json" [a1_live false]) by reflexivity.
  assert (Hl : lookup_id (Some (VStr "a1")) [a1_live false] = Some (0%nat, a1_live false))
    by reflexivity.
  repeat (split; [assumption |]).
  destruct (stopBot_effect w (Some 100) "a1" [a1_live false] 0 (a1_live false) Hh Hf Hl)
    as (r & w' & Hrun & Hst & _ & _ & Hdown & _ & r2 & w'' & Hrun2 & Hst2 & Hagain).
  destruct (Hdown (BotInfo 0 "bedrock" (Some (VStr "a1")) 0) eq_refl eq_refl)
    as (-> & Hgone & _).
  destruct (Hagain eq_refl) as [-> _].
  exists w'. split; [exact Hrun |]. split; [exact Hst |]. split; [exact Hgone |].
  exists w''. split; [exact Hrun2 | exact Hst2].
Defined.

(** Removal of the session whatever the teardown does, and a second stop
    that never throws, do not hold: when the client's teardown throws, the
    session is still registered after the stop, and a second stop throws
    again. *)
Lemma stopBot_teardown_throws :
  let w := set_env (λ _, broken_pipe) (watching false) in
  ¬ (∀ r w' r2 w'',
       run (stopBot (Some 100) (Some (VStr "a1"))) w = (r, w') →
       run (stopBot (Some 100) (Some (VStr "a1"))) w' = (r2, w'') →
       activeClients w' !! "a1" = None ∧ r2 = Ok tt).
Proof.
  intros w Hclaim.
  destruct (Hclaim _ _ _ _ (surjective_pairing _) (surjective_pairing _))
    as [Hgone _].
  vm_compute in Hgone. discriminate Hgone.
Qed.

(** *** Starting *)

(** A start while a session is registered signals "already running" and
    does nothing else. *)
Lemma startBot_already_running ctx id w rows i server b :
  healthy w → holds w "servers.json" rows →
  lookup_id (Some (VStr id)) rows = Some (i, server) →
  activeClients w !! id = Some b →
  run (startBot ctx (Some (VStr id))) w
  = (Ok tt, edited ctx (Msg "bot_already_running") w).
Proof.
  intros Hh Hf Hl Hb.
  destruct (lookup_id_Some _ _ _ _ Hl) as [Hi Hid].
  unfold startBot.
  rewrite run_bind, run_await, (run_Servers_findById _ _ rows), Hl by done.
  cbn. rewrite Hid. cbn. rewrite Hb. cbn.
  apply run_ignoring_edit_opt.
Qed.

(** C7 fails on the code. When the teardown of the session's client throws,
    [stopBot] has already stored status Stopped with [autoRestart] off, and
    the exception leaves it before the session is removed: the session
    stays registered on a client that was not closed.  From then on every
    stop of the server throws again, and every start is answered
    [bot_already_running] and opens nothing, so the server can be neither
    stopped nor started. *)
Theorem stopBot_throwing_teardown_keeps_session
    (w : world) (ctx : context) (id : string) (rows : list doc)
    (i : nat) (server : doc) (b : botInfo) (message : string) :
  healthy w →
  holds w "servers.json" rows →
  lookup_id (Some (VStr id)) rows = Some (i, server) →
  activeClients w !! id = Some b →
  teardown (env w) (client b) = Some message →
  ∃ w',
    run (stopBot ctx (Some (VStr id))) w = (Err (NetError message), w')
    ∧ status w' (Some (VStr id)) = Some Stopped
    ∧ (s ← record w' (Some (VStr id)); s !! "autoRestart") = Some (VBool false)
    ∧ activeClients w' = activeClients w
    ∧ clients w' = clients w
    ∧ (∃ w'',
         run (stopBot ctx (Some (VStr id))) w' = (Err (NetError message), w'')
         ∧ activeClients w'' !! id = Some b)
    ∧ ∀ ctx',
        run (startBot ctx' (Some (VStr id))) w'
        = (Ok tt, edited ctx' (Msg "bot_already_running") w').
Proof.
  intros Hh Hf Hl Hb Ht.
  set (rows1 := patch (Some (VStr id)) stop_patch rows).
  set (w1 := stored "servers.json" rows1 w).
  pose proof (run_stopBot ctx id w rows i server Hh Hf Hl) as Hstop.
  cbn zeta in Hstop. rewrite Hb, Ht in Hstop.
  assert (Hh1 : healthy w1) by by apply healthy_stored.
  assert (Hf1 : holds w1 "servers.json" rows1) by apply holds_stored.
  assert (Hl1 : lookup_id (Some (VStr id)) rows1 = Some (i, stop_patch ∪ server)).
  { unfold rows1. by rewrite lookup_id_patch, Hl. }
  assert (Hrec : record w1 (Some (VStr id)) = Some (stop_patch ∪ server))
    by exact (record_stop_patched id rows i server w Hl).
  exists w1. split; [exact Hstop |].
  split; [unfold status; rewrite Hrec; by apply lookup_union_Some_l |].
  split; [rewrite Hrec; by apply lookup_union_Some_l |].
  split; [reflexivity |]. split; [reflexivity |].
  split.
  - pose proof (run_stopBot ctx id w1 rows1 i (stop_patch ∪ server) Hh1 Hf1 Hl1)
      as Hstop2.
    cbn zeta in Hstop2.
    change (activeClients w1) with (activeClients w) in Hstop2.
    change (env w1) with (env w) in Hstop2.
    rewrite Hb, Ht in Hstop2.
    eexists. split; [exact Hstop2 | exact Hb].
  - intros ctx'.
    exact (startBot_already_running ctx' id w1 rows1 i (stop_patch ∪ server) b
             Hh1 Hf1 Hl1 Hb).
Qed.

Lemma stopBot_throwing_teardown_keeps_session_witness :
  let w := set_env (λ _, broken_pipe) (watching false) in
  let b := BotInfo 0 "bedrock" (Some (VStr "a1")) 0 in
  healthy w
  ∧ holds w "servers.json" [a1_live false]
  ∧ lookup_id (Some (VStr "a1")) [a1_live false] = Some (0%nat, a1_live false)
  ∧ activeClients w !! "a1" = Some b
  ∧ teardown (env w) (client b) = Some "write EPIPE"
  ∧ ∃ w',
      run (stopBot (Some 100) (Some (VStr "a1"))) w = (Err (NetError "write EPIPE"), w')
      ∧ status w' (Some (VStr "a1")) = Some Stopped
      ∧ activeClients w' = activeClients w
      ∧ (∃ w'',
           run (stopBot (Some 100) (Some (VStr "a1"))) w'
           = (Err (NetError "write EPIPE"), w'')
           ∧ activeClients w'' !! "a1" = Some b)
      ∧ run (startBot (Some 100) (Some (VStr "a1"))) w'
        = (Ok tt, edited (Some 100) (Msg "bot_already_running") w').
Proof.
  intros w b.
  assert (Hh : healthy w) by done.
  assert (Hf : holds w "servers.json" [a1_live false]) by reflexivity.
  assert (Hl : lookup_id (Some (VStr "a1")) [a1_live false]
               = Some (0%nat, a1_live false)) by reflexivity.
  assert (Hb : activeClients w !! "a1" = Some b) by reflexivity.
  assert (Ht : teardown (env w) (client b) = Some "write EPIPE") by reflexivity.
  split; [exact Hh |]. split; [exact Hf |]. split; [exact Hl |].
  split; [exact Hb |]. split; [exact Ht |].
  destruct (stopBot_throwing_teardown_keeps_session w (Some 100) "a1" [a1_live false]
              0 (a1_live false) b "write EPIPE" Hh Hf Hl Hb Ht)
    as (w' & H1 & H2 & _ & H3 & _ & H4 & H5).
  exists w'. split; [exact H1 |]. split; [exact H2 |]. split; [exact H3 |].
  split; [exact H4 | exact (H5 (Some 100))].
Defined.

(** C1 fails on the code. Two starts of the same server, taken in turns by
    the event loop.  After 18 turns both have passed the presence check
    (each has persisted Searching and reported it) while no session is
    registered and both are suspended: the check and the registration are
    several suspension points apart.  After 40 turns both have finished,
    neither was told "already running", two clients are open and
    listening, and the session table knows only the second. *)
Theorem concurrent_starts_both_connect :
  observe "a1" <$> exec (two_starts 18) (System [] (one_server false))
  = Some {| done := [false; false];
            sessions := [];
            connections := [];
            sent := [ "sending_start_command"; "sending_start_command";
                      "searching_server"; "searching_server" ];
            pending := [];
            writes := ["servers.json"; "servers.json"];
            persisted := (Some Searching, Some (VBool false)) |}
  ∧ observe "a1" <$> exec (two_starts 40) (System [] (one_server false))
    = Some {| done := [true; true];
              sessions := [("a1", 1%nat)];
              connections := [(3%nat, None); (3%nat, None)];
              sent := [ "sending_start_command"; "sending_start_command";
                        "searching_server"; "searching_server";
                        "server_found_and_starting"; "server_found_and_starting" ];
              pending := [];
              writes := ["servers.json"; "servers.json"; "servers.json"; "servers.json"];
              persisted := (Some Connecting, Some (VBool false)) |}.
Proof. split; vm_compute; reflexivity. Qed.

(** The hand-built [watching] is the state the process reaches by
    [goes_live], as far as tables, sessions and clients go. *)
Example goes_live_watching :
  (λ s, (files (state s), activeClients (state s), clients (state s)))
    <$> exec goes_live (System [] (one_server true))
  = Some (files (watching true), activeClients (watching true),
          clients (watching true)).
Proof.
  vm_cast_no_check
    (eq_refl (Some (files (watching true), activeClients (watching true),
                    clients (watching true)))).
Qed.

(** C2 fails on the code. A server with [autoRestart] is started and goes
    Active; it loses its connection, which arms the restart timer; the
    owner then stops it, so that the record says Stopped with [autoRestart]
    false and no session is left.  The timer cannot fire before 30 s; when
    it does, the callback acts on the record it captured, without reading
    the store: a new client is opened and registered, and the server goes
    Connecting and, once that client spawns, Active, while its record
    still says [autoRestart] false. *)
Theorem stopped_server_restarted_by_timer :
  let fresh := System [] (one_server true) in
  observe "a1" <$> exec goes_live fresh
  = Some {| done := [true; true; true];
            sessions := [("a1", 0%nat)];
            connections := [(3%nat, None)];
            sent := [ "sending_start_command"; "searching_server";
                      "server_found_and_starting"; "bot_now_active"; "menu" ];
            pending := [];
            writes := ["servers.json"; "servers.json"; "servers.json"];
            persisted := (Some Active, Some (VBool true)) |}
  ∧ observe "a1" <$> exec (goes_live ++ lost_then_stopped) fresh
    = Some {| done := [true; true; true; true; true];
              sessions := [];
              connections := [(0%nat, None)];
              sent := [ "sending_start_command"; "searching_server";
                        "server_found_and_starting"; "bot_now_active"; "menu";
                        "bot_disconnected"; "bot_stopped"; "menu" ];
              pending := [(3000, 30000)];
              writes := [ "servers.json"; "servers.json"; "servers.json";
                          "servers.json"; "servers.json" ];
              persisted := (Some Stopped, Some (VBool false)) |}
  ∧ exec (goes_live ++ lost_then_stopped ++ [Elapse 29999; Expire 0%nat]) fresh = None
  ∧ observe "a1" <$> exec (goes_live ++ lost_then_stopped
                           ++ [Elapse 30000; Expire 0%nat] ++ turns 30 6) fresh
    = Some {| done := [true; true; true; true; true; true];
              sessions := [("a1", 1%nat)];
              connections := [(0%nat, None); (3%nat, None)];
              sent := [ "sending_start_command"; "searching_server";
                        "server_found_and_starting"; "bot_now_active"; "menu";
                        "bot_disconnected"; "bot_stopped"; "menu" ];
              pending := [];
              writes := [ "servers.json"; "servers.json"; "servers.json";
                          "servers.json"; "servers.json"; "servers.json" ];
              persisted := (Some Connecting, Some (VBool false)) |}
  ∧ observe "a1" <$> exec (goes_live ++ lost_then_stopped
                           ++ [Elapse 30000; Expire 0%nat] ++ turns 30 6
                           ++ [Emit 1 Spawn] ++ turns 30 7) fresh
    = Some {| done := [true; true; true; true; true; true; true];
              sessions := [("a1", 1%nat)];
              connections := [(0%nat, None); (3%nat, None)];
              sent := [ "sending_start_command"; "searching_server";
                        "server_found_and_starting"; "bot_now_active"; "menu";
                        "bot_disconnected"; "bot_stopped"; "menu" ];
              pending := [];
              writes := [ "servers.json"; "servers.json"; "servers.json";
                          "servers.json"; "servers.json"; "servers.json";
                          "servers.json" ];
              persisted := (Some Active, Some (VBool false)) |}.
Proof. intros fresh. split_and!; vm_compute; reflexivity. Qed.

(** The same timer makes a second session beside one started by hand: the
    callback goes to [startBedrockBot] directly, past the presence check of
    [startBot].  Here the owner restarts the server during the 30 s. *)
Example restart_timer_beside_manual_start :
  observe "a1" <$> exec (goes_live ++ lost_then_started
                         ++ [Elapse 30000; Expire 0%nat] ++ turns 30 6)
                     (System [] (one_server true))
  = Some {| done := [true; true; true; true; true; true];
            sessions := [("a1", 2%nat)];
            connections := [(0%nat, None); (3%nat, None); (3%nat, None)];
            sent := [ "sending_start_command"; "searching_server";
                      "server_found_and_starting"; "bot_now_active"; "menu";
                      "bot_disconnected"; "sending_start_command";
                      "searching_server"; "server_found_and_starting" ];
            pending := [];
            writes := [ "servers.json"; "servers.json"; "servers.json";
                        "servers.json"; "servers.json"; "servers.json";
                        "servers.json" ];
            persisted := (Some Connecting, Some (VBool true)) |}.
Proof. vm_compute. reflexivity. Qed.

(** *** What a restart looks at *)

Lemma alter_last {A} (f : A → A) (l : list A) (x : A) :
  alter f (length l) (l ++ [x])%list = (l ++ [f x])%list.
Proof.
  replace (length l) with (length l + 0)%nat by lia.
  by rewrite alter_app_r.
Qed.

(** [startBedrockBot] on a server that answers with a catalogued protocol:
    it opens a client and registers it under the server's id, and persists
    Connecting.  Nothing in it depends on the session table or on the
    stored record: a session already registered is overwritten, and the
    record's [autoRestart] is neither read nor changed.  This is the whole
    of what the restart timer runs. *)
Lemma restart_connects_whatever_is_stored
    (w : world) (ctx : context) (server : doc) (versions : protocolMap)
    (rows : list doc) (id : string) (protocol : Z) (name : string)
    (bedrock : gmap string jsval) (mcVersion : jsval) :
  healthy w →
  holds w "servers.json" rows →
  server !! "_id" = Some (VStr id) →
  statusBedrock (env w) (server !! "ip") (server !! "port") = Responds protocol name →
  versions !! "bedrock" = Some bedrock →
  bedrock !! pretty protocol = Some mcVersion →
  truthy (Some mcVersion) = true →
  createClient (env w)
    (ClientOptions (server !! "ip") (server !! "port") (server !! "botName")
       mcVersion true) = None →
  ∃ w',
    run (fire (Restart server versions)) w = (Ok tt, w')
    ∧ activeClients w'
      = <[id := BotInfo (length (clients w)) "bedrock" (Some (VStr id)) (now w)]>
          (activeClients w)
    ∧ clients w'
      = (clients w ++
         [Connection
            (ClientOptions (server !! "ip") (server !! "port") (server !! "botName")
               mcVersion true)
            [OnSpawn None server; OnDisconnect server versions; OnError server versions]
            None])%list
    ∧ (is_Some (lookup_id (Some (VStr id)) rows) →
       status w' (Some (VStr id)) = Some Connecting)
    ∧ (r ← record w' (Some (VStr id)); r !! "autoRestart")
      = (r ← record w (Some (VStr id)); r !! "autoRestart").
Proof.
  intros Hh Hf Hid Hp Hb Hv Ht Hc.
  cbn [fire]. unfold detached. rewrite run_try_catch.
  unfold startBedrockBot. rewrite Hid. cbn.
  rewrite run_try_catch. run_bind. rewrite run_probe, Hp. cbn.
  rewrite Hb. cbn. rewrite Hv, Ht. cbn.
  run_bind. rewrite run_await.
  rewrite (run_Servers_updateOne _ _ _ rows) by done.
  set (w1 := match lookup_id (Some (VStr id)) rows with
             | Some _ => stored "servers.json"
                           (patch (Some (VStr id)) {[ "status" := Connecting ]} rows) w
             | None => w
             end).
  assert (Hw1 : env w1 = env w ∧ clients w1 = clients w
                ∧ activeClients w1 = activeClients w ∧ now w1 = now w).
  { unfold w1. by destruct (lookup_id _ rows). }
  destruct Hw1 as (He & Hcl & Hac & Hnow).
  cbn. unfold bedrock_createClient. cbn. rewrite He, Hc. cbn.
  eexists. split; [reflexivity|]. cbn. rewrite Hcl, Hac, Hnow, !alter_last. cbn.
  split_and!; try done.
  - intros Hrec. unfold w1. destruct (lookup_id _ rows) as [[i s]|] eqn:Hl.
    + apply (status_patched _ _ rows); [reflexivity | reflexivity | by rewrite Hl].
    + by destruct Hrec.
  - change (record (set_clients _ _)) with (record w1).
    unfold w1. destruct (lookup_id _ rows) as [[i s]|] eqn:Hl; [|done].
    rewrite record_stored, lookup_id_patch, Hl by done.
    unfold record. rewrite Hf, Hl. cbn. by rewrite lookup_union_r.
Qed.

(** ** The rest of the store, the actions and the start-up *)

(** *** The record store: failures and locks *)

Lemma run_writeDb_fault file data w code :
  dbLocks w !! file = None →
  wfault w !! file = Some code →
  run (writeDb file data) w =
    (Err (FsError code),
     set_console (λ c, (c ++ ["Error writing to database file " +:+ file])%list) w).
Proof.
  intros Hfree Hw. unfold writeDb.
  rewrite run_bind, run_await. unfold acquireLock, locked. simpl.
  rewrite Hfree. simpl.
  rewrite run_finally, run_try_catch. simpl. rewrite Hw. simpl.
  by rewrite unlock_log_lock.
Qed.



Lemma run_locked_readDb file w :
  locked w file = true → run (readDb file) w = (Stuck, w).
Proof.
  intros Hl. unfold readDb.
  rewrite run_bind, run_await. unfold acquireLock. simpl. rewrite Hl. simpl.
  by rewrite Hl.
Qed.

Lemma run_locked_writeDb file data w :
  locked w file = true → run (writeDb file data) w = (Stuck, w).
Proof.
  intros Hl. unfold writeDb.
  rewrite run_bind, run_await. unfold acquireLock. simpl. rewrite Hl. simpl.
  by rewrite Hl.
Qed.

(** Whatever the file holds and whether or not the write goes through,
    [readDb] and [writeDb] started on a free lock come to an end and leave
    the lock table as they found it; started while the lock is held they
    touch nothing until it is released. *)
Theorem lock_released_on_every_path (w : world) (file : string) (data : json) :
  (dbLocks w !! file = None →
     (run (readDb file) w).1 ≠ Stuck
     ∧ dbLocks (run (readDb file) w).2 = dbLocks w
     ∧ (run (writeDb file data) w).1 ≠ Stuck
     ∧ dbLocks (run (writeDb file data) w).2 = dbLocks w)
  ∧ (locked w file = true →
     run (readDb file) w = (Stuck, w)
     ∧ run (writeDb file data) w = (Stuck, w)).
Proof.
  split.
  - intros Hfree. rewrite run_readDb by done.
    split_and!.
    + destruct (files w !! file) as [[[v|]|code]|]; simpl; try done.
      by destruct (String.eqb code "ENOENT").
    + destruct (files w !! file) as [[[v|]|code]|]; simpl; try done.
      by destruct (String.eqb code "ENOENT").
    + destruct (wfault w !! file) as [code|] eqn:Hw.
      * by rewrite (run_writeDb_fault file data w code).
      * by rewrite run_writeDb.
    + destruct (wfault w !! file) as [code|] eqn:Hw.
      * by rewrite (run_writeDb_fault file data w code).
      * by rewrite run_writeDb.
  - intros Hl. split; [by apply run_locked_readDb | by apply run_locked_writeDb].
Qed.

Lemma lock_released_on_every_path_witness :
  let w := over [("servers.json", Faulty "EACCES")] in
  dbLocks w !! "servers.json" = None
  ∧ (run (readDb "servers.json") w).1 ≠ Stuck
  ∧ dbLocks (run (readDb "servers.json") w).2 = dbLocks w.
Proof.
  intros w. split; [reflexivity |].
  destruct (lock_released_on_every_path w "servers.json" (JArr [])) as [H _].
  destruct (H eq_refl) as (H1 & H2 & _). split; [exact H1 | exact H2].
Defined.

(** *** Patching records *)

Lemma list_find_insert {A} (P : A → Prop) `{∀ x, Decision (P x)} l i x y :
  list_find P l = Some (i, x) → P y → list_find P (<[i := y]> l) = Some (i, y).
Proof.
  intros (Hi & Hx & Hlt)%list_find_Some Hy. apply list_find_Some.
  split_and!; [| done |].
  - apply list_lookup_insert_eq. by eapply lookup_lt_Some.
  - intros j z Hj Hji. rewrite list_lookup_insert_ne in Hj by lia. by eapply Hlt.
Qed.

Lemma list_find_insert_ne {A} (P : A → Prop) `{∀ x, Decision (P x)} l i y :
  (∀ x, l !! i = Some x → ¬ P x) → ¬ P y →
  list_find P (<[i := y]> l) = list_find P l.
Proof.
  intros Hx Hy. destruct (list_find P l) as [[j x]|] eqn:Hl.
  - apply list_find_Some in Hl as (Hj & Hpx & Hlt). apply list_find_Some.
    assert (i ≠ j) by (intros ->; by eapply Hx).
    split_and!; [by rewrite list_lookup_insert_ne | done |].
    intros k z Hk Hkj. destruct (decide (i = k)) as [->|Hne].
    + apply list_lookup_insert_Some in Hk as [(_ & <- & _)|[? _]]; done.
    + rewrite list_lookup_insert_ne in Hk by done. by eapply Hlt.
  - apply list_find_None in Hl. apply list_find_None.
    apply Forall_lookup. intros k z Hk.
    apply list_lookup_insert_Some in Hk as [(_ & <- & _)|[_ Hk]]; [done|].
    by eapply (Forall_lookup_1 _ _ _ _ Hl).
Qed.

Lemma lookup_id_patch_ne id id' payload rows :
  id' ≠ id → payload !! "_id" = None →
  lookup_id id' (patch id payload rows) = lookup_id id' rows.
Proof.
  intros Hne Hp. unfold patch.
  destruct (lookup_id id rows) as [[i s]|] eqn:Hl; [|done].
  apply lookup_id_Some in Hl as [Hi Hs].
  unfold lookup_id. apply list_find_insert_ne.
  - intros x Hx. rewrite Hi in Hx. injection Hx as <-. congruence.
  - rewrite lookup_union_r by done. congruence.
Qed.



Lemma run_Users_find_all w rows :
  healthy w → holds w "users.json" rows →
  run Users.find w = (Ok (JArr rows), w).
Proof.
  intros Hh Hf. unfold Users.find.
  rewrite run_await, run_readDb by by apply healthy_free.
  by rewrite Hf.
Qed.

Lemma run_Users_updateOne query payload w rows :
  healthy w → holds w "users.json" rows →
  run (Users.updateOne query (set_ payload)) w =
    (Ok tt,
     match list_find (matches query) rows with
     | Some (i, u) => stored "users.json" (<[i := payload ∪ u]> rows) w
     | None => w
     end).
Proof.
  intros Hh Hf. unfold Users.updateOne.
  rewrite run_bind, run_await, (run_Users_find_all w rows) by done.
  cbn. destruct (list_find (matches query) rows) as [[i u]|]; [|done].
  rewrite run_await, run_writeDb
    by (by apply healthy_free || by apply healthy_writable).
  done.
Qed.



(** *** New records *)

Arguments Users.create : simpl never.
Arguments Users.updateOne : simpl never.
Arguments Servers.create : simpl never.
Arguments Servers.findOne : simpl never.
Arguments Versions.create : simpl never.

Lemma run_Users_findOne_rows query w rows :
  healthy w → holds w "users.json" rows →
  run (Users.findOne query) w = (Ok (snd <$> list_find (matches query) rows), w).
Proof.
  intros Hh Hf. unfold Users.findOne.
  by rewrite run_bind, run_await, (run_Users_find_all w rows).
Qed.

Lemma matches_union (query : query) (payload u : doc) :
  (∀ key, is_Some (query !! key) → payload !! key = None) →
  matches query (payload ∪ u) ↔ matches query u.
Proof.
  intros Hdisj. unfold matches.
  split; intros Hm key v Hq; specialize (Hm key v Hq); simpl in *.
  - rewrite lookup_union_r in Hm by (apply Hdisj; by rewrite Hq). done.
  - rewrite lookup_union_r by (apply Hdisj; by rewrite Hq). done.
Qed.

(** After [Users.updateOne(query, { $set: payload })], with a payload that
    leaves the queried fields alone, [Users.findOne(query)] returns the
    first user the query answers to, with the payload's fields set and the
    others as they were; every other user is untouched.  This is how a ban
    ([{ $set: { isBanned: true } }] on [{ userId }]) reaches the record. *)
Theorem Users_updateOne_then_findOne
    (w : world) (rows : list doc) (query : query) (payload : doc)
    (i : nat) (u : doc) :
  healthy w →
  holds w "users.json" rows →
  list_find (matches query) rows = Some (i, u) →
  (∀ key, is_Some (query !! key) → payload !! key = None) →
  ∃ w' rows',
    run (Users.updateOne query (set_ payload)) w = (Ok tt, w')
    ∧ holds w' "users.json" rows'
    ∧ run (Users.findOne query) w' = (Ok (Some (payload ∪ u)), w')
    ∧ rows' !! i = Some (payload ∪ u)
    ∧ (∀ key v, payload !! key = Some v → (payload ∪ u) !! key = Some v)
    ∧ (∀ key, payload !! key = None → (payload ∪ u) !! key = u !! key)
    ∧ length rows' = length rows
    ∧ (∀ j, j ≠ i → rows' !! j = rows !! j).
Proof.
  intros Hh Hf Hl Hdisj.
  exists (stored "users.json" (<[i := payload ∪ u]> rows) w), (<[i := payload ∪ u]> rows).
  assert (Hm : matches query (payload ∪ u)).
  { apply matches_union; [done|]. by apply list_find_Some in Hl as (_ & ? & _). }
  split_and!.
  - rewrite (run_Users_updateOne query payload w rows) by done. by rewrite Hl.
  - apply holds_stored.
  - rewrite (run_Users_findOne_rows query _ (<[i := payload ∪ u]> rows))
      by (by apply healthy_stored || apply holds_stored).
    by rewrite (list_find_insert _ _ _ _ _ Hl Hm).
  - apply list_lookup_insert_eq. apply list_find_Some in Hl as (Hi & _).
    by eapply lookup_lt_Some.
  - intros key v Hv. by apply lookup_union_Some_l.
  - intros key Hv. by apply lookup_union_r.
  - by rewrite length_insert.
  - intros j Hj. by rewrite list_lookup_insert_ne.
Qed.

Lemma Users_updateOne_then_findOne_witness :
  let w := one_server true in
  let user : doc := {[ "userId" := VNum 7; "language" := VStr "en" ]} in
  let query : query := field "userId" (Some (VNum 7)) in
  let ban : doc := {[ "isBanned" := VBool true ]} in
  healthy w
  ∧ holds w "users.json" [user]
  ∧ list_find (matches query) [user] = Some (0%nat, user)
  ∧ (∀ key, is_Some (query !! key) → ban !! key = None)
  ∧ ∃ w',
      run (Users.updateOne query (set_ ban)) w = (Ok tt, w')
      ∧ run (Users.findOne query) w' = (Ok (Some (ban ∪ user)), w').
Proof.
  intros w user query ban.
  assert (Hh : healthy w) by done.
  assert (Hf : holds w "users.json" [user]) by reflexivity.
  assert (Hl : list_find (matches query) [user] = Some (0%nat, user)) by reflexivity.
  assert (Hd : ∀ key, is_Some (query !! key) → ban !! key = None).
  { intros key [v Hv]. unfold query, field in Hv.
    apply lookup_singleton_Some in Hv as [<- _]. reflexivity. }
  split; [exact Hh |]. split; [exact Hf |]. split; [exact Hl |]. split; [exact Hd |].
  destruct (Users_updateOne_then_findOne w [user] query ban 0 user Hh Hf Hl Hd)
    as (w' & rows' & H1 & _ & H2 & _).
  exists w'. split; [exact H1 | exact H2].
Defined.

Lemma run_Users_create toISOString userData w rows :
  healthy w → holds w "users.json" rows →
  let newUser : doc :=
    {[ "isBanned" := VBool false;
       "isAdmin" := VBool (bool_decide (userData !! "userId" = Some (VNum ADMIN_ID)));
       "joinedAt" := VStr (toISOString (now w));
       "language" := default VNull (userData !! "language") ]} ∪ userData in
  run (Users.create toISOString userData) w
  = (Ok newUser, stored "users.json" (rows ++ [newUser])%list w).
Proof.
  intros Hh Hf newUser. unfold Users.create.
  rewrite run_bind, run_await, (run_Users_find_all w rows) by done.
  cbn. run_bind. rewrite run_await, run_writeDb
    by (by apply healthy_free || by apply healthy_writable).
  done.
Qed.

(** [Users.create] appends one user whose [isBanned] is [false] and whose
    [isAdmin] says whether the [userId] is the administrator's, whatever the
    data passed in claim for these two fields; [joinedAt] is the time of
    the call, [language] is [null] unless given, every other field is
    taken over.  The users there before keep their place. *)
Theorem Users_create_sets_flags
    (toISOString : Z → string) (w : world) (rows : list doc) (userData : doc) :
  healthy w →
  holds w "users.json" rows →
  ∃ newUser w',
    run (Users.create toISOString userData) w = (Ok newUser, w')
    ∧ holds w' "users.json" (rows ++ [newUser])%list
    ∧ newUser !! "isBanned" = Some (VBool false)
    ∧ newUser !! "isAdmin"
      = Some (VBool (bool_decide (userData !! "userId" = Some (VNum ADMIN_ID))))
    ∧ newUser !! "joinedAt" = Some (VStr (toISOString (now w)))
    ∧ newUser !! "language" = Some (default VNull (userData !! "language"))
    ∧ (∀ key, key ∉ ["isBanned"; "isAdmin"; "joinedAt"; "language"] →
         newUser !! key = userData !! key)
    ∧ (Forall (λ u : doc, u !! "userId" ≠ userData !! "userId") rows →
       run (Users.findOne (field "userId" (userData !! "userId"))) w'
       = (Ok (Some newUser), w')).
Proof.
  intros Hh Hf. eexists _, _.
  split; [by apply run_Users_create |].
  split; [apply holds_stored |].
  split; [by apply lookup_union_Some_l |].
  split; [by apply lookup_union_Some_l |].
  split; [by apply lookup_union_Some_l |].
  split; [by apply lookup_union_Some_l |].
  split.
  { intros key Hkey. apply lookup_union_r.
    repeat (rewrite lookup_insert_ne by (intros <-; apply Hkey; set_solver)).
    apply lookup_singleton_ne. intros <-. apply Hkey. set_solver. }
  intros Hfresh.
  rewrite (run_Users_findOne_rows _ _ (rows ++ [_])%list)
    by (by apply healthy_stored || apply holds_stored).
  f_equal. f_equal.
  rewrite list_find_app_r.
  2:{ apply list_find_None. eapply Forall_impl; [exact Hfresh|].
      intros u Hu Hm. apply Hu. specialize (Hm "userId" (userData !! "userId")).
      apply Hm. apply lookup_singleton_eq. }
  cbn. rewrite decide_True; [done|].
  intros key v Hq. unfold field in Hq. apply lookup_singleton_Some in Hq as [<- <-].
  simpl. rewrite lookup_union_r; [done|].
  by rewrite !lookup_insert_ne.
Qed.

Lemma Users_create_sets_flags_witness :
  let w := one_server true in
  let users : list doc := [ {[ "userId" := VNum 7; "language" := VStr "en" ]} ] in
  let userData : doc := {[ "userId" := VNum 9; "isAdmin" := VBool true ]} in
  healthy w
  ∧ holds w "users.json" users
  ∧ ∃ newUser w',
      run (Users.create (λ _, "2025-01-01T00:00:00.000Z") userData) w = (Ok newUser, w')
      ∧ newUser !! "isBanned" = Some (VBool false)
      ∧ newUser !! "isAdmin" = Some (VBool false).
Proof.
  intros w users userData.
  assert (Hh : healthy w) by done.
  assert (Hf : holds w "users.json" users) by reflexivity.
  split; [exact Hh |]. split; [exact Hf |].
  destruct (Users_create_sets_flags (λ _, "2025-01-01T00:00:00.000Z") w users userData
              Hh Hf) as (newUser & w' & H1 & _ & H2 & H3 & _).
  exists newUser, w'. split; [exact H1 |]. split; [exact H2 | exact H3].
Defined.





(** *** The catalogue of versions *)

Lemma run_Versions_create versionData w vrows :
  healthy w → holds w "versions.json" vrows →
  run (Versions.create versionData) w =
    if bool_decide (Exists (λ v : doc, v !! "protocol" = versionData !! "protocol"
                                       ∧ v !! "type" = versionData !! "type") vrows)
    then (Err (FsError "11000"), w)
    else (Ok tt, stored "versions.json" (vrows ++ [versionData])%list w).
Proof.
  intros Hh Hf. unfold Versions.create.
  rewrite run_bind, run_await, (run_Versions_find_all w vrows) by done.
  cbn. case_bool_decide; [done|].
  rewrite run_await, run_writeDb
    by (by apply healthy_free || by apply healthy_writable).
  done.
Qed.

Lemma register_keep (type key : string) (x : option jsval) (vrows : list doc)
    (acc : protocolMap) :
  (∀ v : doc, v ∈ vrows →
     prop_key (v !! "type") = type → prop_key (v !! "protocol") ≠ key) →
  (∃ m, acc !! type = Some m ∧ m !! key = x) →
  ∃ m, foldl register acc vrows !! type = Some m ∧ m !! key = x.
Proof.
  revert acc. induction vrows as [|v vrows IH]; intros acc Habsent Hacc; [done|].
  simpl. apply IH.
  - intros v' Hv'. apply Habsent. by right.
  - destruct Hacc as (m & Hm & Hk). unfold register.
    destruct (decide (prop_key (v !! "type") = type)) as [Ht|Ht].
    + rewrite Ht, lookup_insert_eq, Hm. simpl. eexists. split; [done|].
      rewrite lookup_partial_alter_ne; [done|].
      apply Habsent; [by left | done].
    + rewrite lookup_insert_ne by done. eauto.
Qed.

Lemma register_hit (map : protocolMap) (v : doc) :
  ∃ m, register map v !! prop_key (v !! "type") = Some m
       ∧ m !! prop_key (v !! "protocol") = v !! "name".
Proof.
  unfold register. rewrite lookup_insert_eq. eexists. split; [done|].
  by rewrite lookup_partial_alter_eq.
Qed.

Lemma getSupportedVersions_hit (w : world) (before after : list doc) (v : doc) :
  healthy w →
  holds w "versions.json" (before ++ v :: after)%list →
  (∀ v' : doc, v' ∈ after →
     prop_key (v' !! "type") = prop_key (v !! "type") →
     prop_key (v' !! "protocol") ≠ prop_key (v !! "protocol")) →
  ∃ versions m,
    run getSupportedVersions w = (Ok versions, w)
    ∧ versions !! prop_key (v !! "type") = Some m
    ∧ m !! prop_key (v !! "protocol") = v !! "name".
Proof.
  intros Hh Hf Hlast.
  rewrite (run_getSupportedVersions w (before ++ v :: after)%list) by done.
  rewrite foldl_app. simpl.
  destruct (register_keep (prop_key (v !! "type")) (prop_key (v !! "protocol"))
              (v !! "name") after
              (register (foldl register {[ "bedrock" := ∅; "java" := ∅ ]} before) v)
              Hlast (register_hit _ v)) as (m & Hm & Hk).
  eexists _, m. split; [reflexivity |]. split; [exact Hm | exact Hk].
Qed.

(** [getSupportedVersions] resolves a type and a protocol to the name of
    the last row of the catalogue that carries them (as property names: a
    protocol 827 and a protocol "827" are the same entry): rows before it
    are overridden, rows of other types or protocols do not interfere. *)
Theorem getSupportedVersions_last_row_wins
    (w : world) (before after : list doc) (v : doc) :
  healthy w →
  holds w "versions.json" (before ++ v :: after)%list →
  (∀ v' : doc, v' ∈ after →
     prop_key (v' !! "type") = prop_key (v !! "type") →
     prop_key (v' !! "protocol") ≠ prop_key (v !! "protocol")) →
  ∃ versions m,
    run getSupportedVersions w = (Ok versions, w)
    ∧ versions !! prop_key (v !! "type") = Some m
    ∧ m !! prop_key (v !! "protocol") = v !! "name".
Proof. apply getSupportedVersions_hit. Qed.

Lemma getSupportedVersions_last_row_wins_witness :
  let old : doc :=
    {[ "type" := VStr "bedrock"; "protocol" := VNum 827; "name" := VStr "1.21.99" ]} in
  let w := over [("versions.json", Text (Some (JArr (old :: catalogue))))] in
  healthy w
  ∧ holds w "versions.json" ([old] ++ {[ "type" := VStr "bedrock";
                                          "protocol" := VNum 827;
                                          "name" := VStr "1.21.100" ]} :: [])%list
  ∧ ∃ versions m,
      run getSupportedVersions w = (Ok versions, w)
      ∧ versions !! "bedrock" = Some m
      ∧ m !! "827" = Some (VStr "1.21.100").
Proof.
  intros old w.
  assert (Hh : healthy w) by done.
  split; [exact Hh |]. split; [reflexivity |].
  assert (Hlast : ∀ v' : doc, v' ∈ @nil doc →
            prop_key (v' !! "type") = "bedrock" → prop_key (v' !! "protocol") ≠ "827").
  { intros v' Hv'. by apply elem_of_nil in Hv'. }
  exact (getSupportedVersions_last_row_wins w [old]
           [] {[ "type" := VStr "bedrock"; "protocol" := VNum 827;
                 "name" := VStr "1.21.100" ]} Hh eq_refl Hlast).
Defined.

(** [Versions.create] refuses a version whose type and protocol a row of
    the catalogue has already: it throws the error with code 11000 and
    writes nothing.  Otherwise the version is appended, and from then on
    [getSupportedVersions] resolves its type and protocol to its name. *)
Theorem Versions_create_rejects_duplicate
    (w : world) (vrows : list doc) (versionData : doc) :
  healthy w →
  holds w "versions.json" vrows →
  (Exists (λ v : doc, v !! "protocol" = versionData !! "protocol"
                      ∧ v !! "type" = versionData !! "type") vrows →
     run (Versions.create versionData) w = (Err (FsError "11000"), w))
  ∧ (Forall (λ v : doc, ¬ (v !! "protocol" = versionData !! "protocol"
                           ∧ v !! "type" = versionData !! "type")) vrows →
     ∃ w' versions m,
       run (Versions.create versionData) w = (Ok tt, w')
       ∧ holds w' "versions.json" (vrows ++ [versionData])%list
       ∧ written w' = (written w ++ ["versions.json"])%list
       ∧ run getSupportedVersions w' = (Ok versions, w')
       ∧ versions !! prop_key (versionData !! "type") = Some m
       ∧ m !! prop_key (versionData !! "protocol") = versionData !! "name").
Proof.
  intros Hh Hf. split.
  - intros Hdup. rewrite (run_Versions_create versionData w vrows) by done.
    by case_bool_decide.
  - intros Hnew.
    rewrite (run_Versions_create versionData w vrows) by done.
    apply Forall_Exists_neg in Hnew.
    case_bool_decide; [done|].
    destruct (getSupportedVersions_hit
                (stored "versions.json" (vrows ++ [versionData])%list w)
                vrows [] versionData) as (versions & m & H1 & H2 & H3).
    + by apply healthy_stored.
    + apply holds_stored.
    + intros v' Hv'. by apply elem_of_nil in Hv'.
    + eexists _, versions, m.
      split; [reflexivity |]. split; [apply holds_stored |].
      split; [reflexivity |]. split; [exact H1 |]. split; [exact H2 | exact H3].
Qed.

Lemma Versions_create_rejects_duplicate_witness :
  let w := one_server true in
  let again : doc :=
    {[ "type" := VStr "bedrock"; "protocol" := VNum 827; "name" := VStr "other" ]} in
  healthy w
  ∧ holds w "versions.json" catalogue
  ∧ Exists (λ v : doc, v !! "protocol" = again !! "protocol"
                       ∧ v !! "type" = again !! "type") catalogue
  ∧ run (Versions.create again) w = (Err (FsError "11000"), w).
Proof.
  intros w again.
  assert (Hh : healthy w) by done.
  assert (Hf : holds w "versions.json" catalogue) by reflexivity.
  assert (Hdup : Exists (λ v : doc, v !! "protocol" = again !! "protocol"
                                    ∧ v !! "type" = again !! "type") catalogue).
  { apply Exists_cons_hd. split; reflexivity. }
  split; [exact Hh |]. split; [exact Hf |]. split; [exact Hdup |].
  destruct (Versions_create_rejects_duplicate w catalogue again Hh Hf) as [H _].
  exact (H Hdup).
Defined.

(** *** Starting a session *)

Lemma run_startBedrockBot_connects
    (w : world) (ctx : context) (server : doc) (versions : protocolMap)
    (rows : list doc) (id : string) (protocol : Z) (name : string)
    (bedrock : gmap string jsval) (mcVersion : jsval) :
  healthy w →
  holds w "servers.json" rows →
  server !! "_id" = Some (VStr id) →
  statusBedrock (env w) (server !! "ip") (server !! "port") = Responds protocol name →
  versions !! "bedrock" = Some bedrock →
  bedrock !! pretty protocol = Some mcVersion →
  truthy (Some mcVersion) = true →
  createClient (env w)
    (ClientOptions (server !! "ip") (server !! "port") (server !! "botName")
       mcVersion true) = None →
  ∃ w',
    run (startBedrockBot ctx server versions) w = (Ok tt, w')
    ∧ activeClients w'
      = <[id := BotInfo (length (clients w)) "bedrock" (Some (VStr id)) (now w)]>
          (activeClients w)
    ∧ clients w'
      = (clients w ++
         [Connection
            (ClientOptions (server !! "ip") (server !! "port") (server !! "botName")
               mcVersion true)
            [OnSpawn ctx server; OnDisconnect server versions; OnError server versions]
            None])%list
    ∧ record w' (Some (VStr id))
      = snd <$> lookup_id (Some (VStr id))
                  (patch (Some (VStr id)) {[ "status" := Connecting ]} rows)
    ∧ timers w' = timers w.
Proof.
  intros Hh Hf Hid Hp Hb Hv Ht Hc.
  unfold startBedrockBot. rewrite Hid. cbn.
  rewrite run_try_catch. run_bind. rewrite run_probe, Hp. cbn.
  rewrite Hb. cbn. rewrite Hv, Ht. cbn.
  run_bind. rewrite run_await.
  rewrite (run_Servers_updateOne _ _ _ rows) by done.
  set (w1 := match lookup_id (Some (VStr id)) rows with
             | Some _ => stored "servers.json"
                           (patch (Some (VStr id)) {[ "status" := Connecting ]} rows) w
             | None => w
             end).
  assert (Hw1 : env w1 = env w ∧ clients w1 = clients w
                ∧ activeClients w1 = activeClients w ∧ now w1 = now w
                ∧ timers w1 = timers w
                ∧ record w1 (Some (VStr id))
                  = snd <$> lookup_id (Some (VStr id))
                              (patch (Some (VStr id)) {[ "status" := Connecting ]} rows)).
  { unfold w1. destruct (lookup_id _ rows) as [[i s]|] eqn:Hl.
    - split_and!; try done. apply record_stored.
    - split_and!; try done. unfold record, patch. rewrite Hf, Hl. cbn.
      by rewrite Hl. }
  destruct Hw1 as (He & Hcl & Hac & Hnow & Htm & Hrec).
  assert (Hedit : ∃ lines calls,
    run match ctx with
        | Some chat =>
            try_catch
              (await (call (EditMessageText chat (Msg "server_found_and_starting"))))
              (unless_not_modified
                 "Error editing message in startBedrockBot (server found):")
        | None => Ret tt
        end w1 = (Ok tt, chatter lines calls w1)).
  { destruct ctx as [chat|].
    - destruct (run_edit_logged (EditMessageText chat (Msg "server_found_and_starting"))
                  "Error editing message in startBedrockBot (server found):" w1)
        as (lines & Hrun). by exists lines, [EditMessageText chat (Msg "server_found_and_starting")].
    - exists [], []. by rewrite chatter_nil. }
  destruct Hedit as (lines & calls & Hedit).
  cbn. run_bind. rewrite Hedit. cbn. run_bind.
  unfold bedrock_createClient. cbn. rewrite He, Hc. cbn.
  eexists. split; [reflexivity|]. cbn. rewrite Hcl, Hac, Hnow, !alter_last. cbn.
  split_and!; try done.
Qed.

(** The start of a stopped bedrock server that answers the probe with a
    protocol of the catalogue, when a client can be created: [startBot]
    returns normally, the server has a session on the new client, started
    at the time of the call, the client is opened (offline, as the record's
    bot name, with the catalogue's version for the protocol) and has the
    three listeners, which hold the record as it was read at the
    beginning; the stored status is Connecting and no timer is pending. *)
Theorem startBot_connects
    (w : world) (ctx : context) (id : string) (rows vrows : list doc)
    (i : nat) (server : doc) (protocol : Z) (name : string)
    (bedrock : gmap string jsval) (mcVersion : jsval) :
  healthy w →
  holds w "servers.json" rows →
  holds w "versions.json" vrows →
  lookup_id (Some (VStr id)) rows = Some (i, server) →
  activeClients w !! id = None →
  server !! "serverType" = Some (VStr "bedrock") →
  statusBedrock (env w) (server !! "ip") (server !! "port") = Responds protocol name →
  foldl register {[ "bedrock" := ∅; "java" := ∅ ]} vrows !! "bedrock" = Some bedrock →
  bedrock !! pretty protocol = Some mcVersion →
  truthy (Some mcVersion) = true →
  createClient (env w)
    (ClientOptions (server !! "ip") (server !! "port") (server !! "botName")
       mcVersion true) = None →
  ∃ w',
    run (startBot ctx (Some (VStr id))) w = (Ok tt, w')
    ∧ activeClients w'
      = <[id := BotInfo (length (clients w)) "bedrock" (Some (VStr id)) (now w)]>
          (activeClients w)
    ∧ clients w'
      = (clients w ++
         [Connection
            (ClientOptions (server !! "ip") (server !! "port") (server !! "botName")
               mcVersion true)
            [ OnSpawn ctx server;
              OnDisconnect server
                (foldl register {[ "bedrock" := ∅; "java" := ∅ ]} vrows);
              OnError server
                (foldl register {[ "bedrock" := ∅; "java" := ∅ ]} vrows) ]
            None])%list
    ∧ status w' (Some (VStr id)) = Some Connecting
    ∧ timers w' = timers w.
Proof.
  intros Hh Hf Hv Hl Hnone Htype Hp Hb Hmc Ht Hc.
  destruct (lookup_id_Some _ _ _ _ Hl) as [Hi Hid].
  unfold startBot.
  rewrite run_bind, run_await, (run_Servers_findById _ _ rows), Hl by done.
  cbn. rewrite Hid. cbn. rewrite Hnone. cbn.
  run_bind. rewrite run_await, (run_Servers_updateOne _ _ _ rows), Hl by done.
  set (rows1 := patch (Some (VStr id)) {[ "status" := Searching ]} rows).
  set (w1 := stored "servers.json" rows1 w).
  assert (Hrec1 : is_Some (lookup_id (Some (VStr id)) rows1))
    by (apply patch_is_Some; by eauto).
  cbn. rewrite Htype.
  assert (Hedit :
    run (ignoring
           match ctx with
           | Some chat => await (call (EditMessageText chat (Msg "searching_server")))
           | None => Ret tt
           end) w1
    = (Ok tt, edited ctx (Msg "searching_server") w1)).
  { destruct ctx; [apply run_ignoring_call | done]. }
  run_bind. rewrite Hedit.
  set (w2 := edited ctx (Msg "searching_server") w1).
  assert (Hh2 : healthy w2) by by apply healthy_edited.
  assert (Hf2 : holds w2 "servers.json" rows1)
    by (apply holds_edited, holds_stored).
  assert (Hv2 : holds w2 "versions.json" vrows)
    by (by apply holds_edited, holds_stored_ne).
  run_bind. rewrite run_await, (run_getSupportedVersions w2 vrows) by done.
  cbn. unfold detached. rewrite run_try_catch.
  assert (He2 : env w2 = env w) by (unfold w2; by destruct ctx).
  destruct (run_startBedrockBot_connects w2 ctx server
              (foldl register {[ "bedrock" := ∅; "java" := ∅ ]} vrows)
              rows1 id protocol name bedrock mcVersion)
    as (w' & Hrun & Hac & Hcl & Hrec & Htm); try done.
  { by rewrite He2. }
  { by rewrite He2. }
  rewrite Hrun. exists w'. split; [done|].
  assert (Hw2 : activeClients w2 = activeClients w ∧ clients w2 = clients w
                ∧ now w2 = now w ∧ timers w2 = timers w)
    by (unfold w2; by destruct ctx).
  destruct Hw2 as (Hac2 & Hcl2 & Hnow2 & Htm2).
  rewrite Hac, Hcl, Htm, Hac2, Hcl2, Hnow2, Htm2.
  split_and!; try done.
  unfold status. rewrite Hrec.
  rewrite lookup_id_patch by done.
  destruct Hrec1 as [[i1 s1] Hl1]. rewrite Hl1. cbn.
  by apply lookup_union_Some_l.
Qed.

Lemma startBot_connects_witness :
  let w := one_server false in
  let bedrock : doc := {[ "827" := VStr "1.21.100" ]} in
  healthy w
  ∧ holds w "servers.json" [a1 false]
  ∧ holds w "versions.json" catalogue
  ∧ lookup_id (Some (VStr "a1")) [a1 false] = Some (0%nat, a1 false)
  ∧ activeClients w !! "a1" = None
  ∧ a1 false !! "serverType" = Some (VStr "bedrock")
  ∧ statusBedrock (env w) (a1 false !! "ip") (a1 false !! "port")
    = Responds 827 "1.21.100"
  ∧ foldl register {[ "bedrock" := ∅; "java" := ∅ ]} catalogue !! "bedrock"
    = Some bedrock
  ∧ bedrock !! pretty 827 = Some (VStr "1.21.100")
  ∧ truthy (Some (VStr "1.21.100")) = true
  ∧ createClient (env w)
      (ClientOptions (a1 false !! "ip") (a1 false !! "port") (a1 false !! "botName")
         (VStr "1.21.100") true) = None
  ∧ ∃ w',
      run (startBot (Some 100) (Some (VStr "a1"))) w = (Ok tt, w')
      ∧ activeClients w'
        = <["a1" := BotInfo (length (clients w)) "bedrock" (Some (VStr "a1")) (now w)]>
            (activeClients w)
      ∧ status w' (Some (VStr "a1")) = Some Connecting.
Proof.
  intros w bedrock.
  assert (Hh : healthy w) by done.
  assert (Hf : holds w "servers.json" [a1 false]) by reflexivity.
  assert (Hv : holds w "versions.json" catalogue) by reflexivity.
  assert (Hl : lookup_id (Some (VStr "a1")) [a1 false] = Some (0%nat, a1 false))
    by reflexivity.
  assert (Hn : activeClients w !! "a1" = None) by reflexivity.
  assert (Ht : a1 false !! "serverType" = Some (VStr "bedrock")) by reflexivity.
  assert (Hp : statusBedrock (env w) (a1 false !! "ip") (a1 false !! "port")
               = Responds 827 "1.21.100") by reflexivity.
  assert (Hb : foldl register {[ "bedrock" := ∅; "java" := ∅ ]} catalogue !! "bedrock"
               = Some bedrock) by reflexivity.
  assert (Hm : bedrock !! pretty 827 = Some (VStr "1.21.100")) by reflexivity.
  assert (Hy : truthy (Some (VStr "1.21.100")) = true) by reflexivity.
  assert (Hc : createClient (env w)
                 (ClientOptions (a1 false !! "ip") (a1 false !! "port")
                    (a1 false !! "botName") (VStr "1.21.100") true) = None)
    by reflexivity.
  split; [exact Hh |]. split; [exact Hf |]. split; [exact Hv |].
  split; [exact Hl |]. split; [exact Hn |]. split; [exact Ht |].
  split; [exact Hp |]. split; [exact Hb |]. split; [exact Hm |].
  split; [exact Hy |]. split; [exact Hc |].
  destruct (startBot_connects w (Some 100) "a1" [a1 false] catalogue 0 (a1 false)
              827 "1.21.100" bedrock (VStr "1.21.100")
              Hh Hf Hv Hl Hn Ht Hp Hb Hm Hy Hc)
    as (w' & H1 & H2 & _ & H3 & _).
  exists w'. split; [exact H1 |]. split; [exact H2 | exact H3].
Defined.

(** *** The listeners of a client *)

Arguments handleSpawn : simpl never.
Arguments refreshMenu : simpl never.

(** The ['spawn'] listener persists the status Active for a record that is
    there and writes nothing for one that is gone; the session table and
    the clients are not looked at.  Started from a chat, it reports
    [bot_now_active] and arms a timer of 3000 ms; when that timer fires,
    the menu is redrawn from the record as stored by then, whatever
    Telegram answers.  A spawn after a restart (no chat) sends nothing and
    arms nothing. *)
Theorem handleSpawn_persists_active
    (w : world) (ctx : context) (server : doc) (rows : list doc) :
  healthy w →
  holds w "servers.json" rows →
  ∃ w',
    run (handleSpawn ctx server) w = (Ok tt, w')
    ∧ healthy w'
    ∧ (is_Some (lookup_id (server !! "_id") rows) →
       status w' (server !! "_id") = Some Active)
    ∧ (lookup_id (server !! "_id") rows = None →
       files w' = files w ∧ written w' = written w)
    ∧ activeClients w' = activeClients w
    ∧ clients w' = clients w
    ∧ (ctx = None → outbox w' = outbox w ∧ timers w' = timers w)
    ∧ (∀ chat, ctx = Some chat →
       outbox w' = (outbox w ++ [EditMessageText chat (Msg "bot_now_active")])%list
       ∧ timers w'
         = (timers w ++ [Timer (now w) 3000 (RefreshMenu chat (server !! "_id"))])%list
       ∧ ∀ s, record w' (server !! "_id") = Some s →
           run (fire (RefreshMenu chat (server !! "_id"))) w'
           = (Ok tt, set_outbox (λ o, (o ++ [EditMessageText chat (Menu s)])%list) w')).
Proof.
  intros Hh Hf. unfold handleSpawn. cbn.
  set (w0 := set_console _ w).
  assert (Hh0 : healthy w0) by done.
  assert (Hf0 : holds w0 "servers.json" rows) by done.
  run_bind. rewrite run_await, (run_Servers_updateOne _ _ _ rows) by done.
  set (w1 := match lookup_id (server !! "_id") rows with
             | Some _ => stored "servers.json"
                           (patch (server !! "_id") {[ "status" := Active ]} rows) w0
             | None => w0
             end).
  assert (Hw1 : healthy w1 ∧ activeClients w1 = activeClients w
                ∧ clients w1 = clients w ∧ outbox w1 = outbox w
                ∧ timers w1 = timers w ∧ now w1 = now w
                ∧ (is_Some (lookup_id (server !! "_id") rows) →
                   status w1 (server !! "_id") = Some Active)
                ∧ (lookup_id (server !! "_id") rows = None →
                   files w1 = files w ∧ written w1 = written w)
                ∧ ∃ rows1, holds w1 "servers.json" rows1).
  { unfold w1. destruct (lookup_id _ rows) as [[i s]|] eqn:Hl.
    - split_and!; try done.
      + intros _. apply status_patched; [done | done | by rewrite Hl].
      + eexists. apply holds_stored.
    - split_and!; try done; try (by intros [? ?]); by exists rows. }
  destruct Hw1 as (Hh1 & Hac & Hcl & Hout & Htm & Hnow & Hst & Hno & rows1 & Hf1).
  destruct ctx as [chat|]; cbn.
  - run_bind. rewrite run_ignoring_call. cbn.
    eexists. split; [reflexivity|]. cbn.
    rewrite Hac, Hcl, Hout, Htm, Hnow.
    split_and!; try done.
    intros chat' [= <-]. split_and!; try done.
    intros s Hs. unfold refreshMenu, ignoring. rewrite run_try_catch.
    run_bind. rewrite run_await.
    rewrite (run_Servers_findById _ _ rows1) by done.
    change (snd <$> lookup_id (server !! "_id") rows1) with
      (snd <$> lookup_id (server !! "_id") rows1).
    assert (Hrec : snd <$> lookup_id (server !! "_id") rows1 = Some s).
    { rewrite <- Hs. unfold record. cbn. unfold holds in Hf1. by rewrite Hf1. }
    rewrite Hrec. cbn. rewrite run_await, run_call. cbn.
    by destruct (telegram _ _).
  - eexists. split; [reflexivity|]. split_and!; try done.
Qed.

Lemma handleSpawn_persists_active_witness :
  let w := one_server false in
  healthy w
  ∧ holds w "servers.json" [a1 false]
  ∧ ∃ w',
      run (handleSpawn (Some 100) (a1 false)) w = (Ok tt, w')
      ∧ (is_Some (lookup_id (a1 false !! "_id") [a1 false]) →
         status w' (a1 false !! "_id") = Some Active).
Proof.
  intros w.
  assert (Hh : healthy w) by done.
  assert (Hf : holds w "servers.json" [a1 false]) by reflexivity.
  split; [exact Hh |]. split; [exact Hf |].
  destruct (handleSpawn_persists_active w (Some 100) (a1 false) [a1 false] Hh Hf)
    as (w' & H1 & _ & H2 & _).
  exists w'. split; [exact H1 | exact H2].
Defined.



(** *** The switches of the server menu *)

Lemma record_holds w rows id :
  holds w "servers.json" rows → record w id = snd <$> lookup_id id rows.
Proof. intros Hf. unfold record. unfold holds in Hf. by rewrite Hf. Qed.

(** [toggle_autorestart] on a server that is there stores the negation of
    its [autoRestart] (as a boolean) and leaves its other fields and the
    other servers as they were, before the update is dispatched again as
    [manage_server]; pressed twice it restores the flag.  On an id that
    has no record it throws before anything is written or dispatched. *)
Theorem toggle_autorestart_flips
    (handleUpdate : string → prog unit) (w : world) (chat : Z) (id : string)
    (rows : list doc) :
  healthy w →
  holds w "servers.json" rows →
  (∀ data w0 rows0, healthy w0 → holds w0 "servers.json" rows0 →
     ∃ r lines calls, run (handleUpdate data) w0 = (r, chatter lines calls w0)) →
  (lookup_id (Some (VStr id)) rows = None →
     ∃ what,
       run (toggle_autorestart handleUpdate chat id) w
       = (Err (TypeError what),
          set_outbox (λ o, (o ++ [AnswerCbQuery chat no_text])%list) w))
  ∧ (∀ i s, lookup_id (Some (VStr id)) rows = Some (i, s) →
     ∃ r w',
       run (toggle_autorestart handleUpdate chat id) w = (r, w')
       ∧ healthy w'
       ∧ record w' (Some (VStr id))
         = Some (<["autoRestart" := VBool (negb (truthy (s !! "autoRestart")))]> s)
       ∧ (∀ id', id' ≠ Some (VStr id) → record w' id' = record w id')
       ∧ activeClients w' = activeClients w
       ∧ timers w' = timers w
       ∧ ∃ r2 w'',
           run (toggle_autorestart handleUpdate chat id) w' = (r2, w'')
           ∧ record w'' (Some (VStr id))
             = Some (<["autoRestart" := VBool (truthy (s !! "autoRestart"))]> s)).
Proof.
  intros Hh Hf Hdispatch.
  assert (Hstep : ∀ w rows i s,
    healthy w → holds w "servers.json" rows →
    lookup_id (Some (VStr id)) rows = Some (i, s) →
    ∃ r lines calls,
      run (toggle_autorestart handleUpdate chat id) w
      = (r, chatter lines calls
              (stored "servers.json"
                 (patch (Some (VStr id))
                    {[ "autoRestart" := VBool (negb (truthy (s !! "autoRestart"))) ]}
                    rows)
                 (set_outbox (λ o, (o ++ [AnswerCbQuery chat no_text])%list) w)))).
  { clear w rows Hh Hf. intros w rows i s Hh Hf Hl.
    destruct (lookup_id_Some _ _ _ _ Hl) as [Hi Hid].
    unfold toggle_autorestart.
    run_bind. cbn [answerCbQuery]. rewrite run_ignoring_call.
    set (w0 := set_outbox _ w).
    assert (Hh0 : healthy w0) by done.
    assert (Hf0 : holds w0 "servers.json" rows) by done.
    run_bind. rewrite run_await, (run_Servers_findById _ _ rows), Hl by done.
    cbn. run_bind. rewrite run_await, Hid.
    rewrite (run_Servers_updateOne _ _ _ rows), Hl by done.
    rewrite run_await.
    set (w1 := stored _ _ w0).
    destruct (Hdispatch ("manage_server:" +:+ id) w1
                (patch (Some (VStr id))
                   {[ "autoRestart" := VBool (negb (truthy (s !! "autoRestart"))) ]} rows))
      as (r & lines & calls & Hrun);
      [by apply healthy_stored | apply holds_stored |].
    rewrite Hrun. by exists r, lines, calls. }
  split.
  - intros Hl. eexists. unfold toggle_autorestart.
    run_bind. cbn [answerCbQuery]. rewrite run_ignoring_call.
    set (w0 := set_outbox _ w).
    assert (Hh0 : healthy w0) by done.
    assert (Hf0 : holds w0 "servers.json" rows) by done.
    run_bind. rewrite run_await, (run_Servers_findById _ _ rows), Hl by done.
    reflexivity.
  - intros i s Hl.
    destruct (Hstep w rows i s Hh Hf Hl) as (r & lines & calls & Hrun).
    set (flag := VBool (negb (truthy (s !! "autoRestart")))) in *.
    set (rows1 := patch (Some (VStr id)) {[ "autoRestart" := flag ]} rows) in *.
    set (w1 := chatter lines calls (stored "servers.json" rows1 _)) in *.
    assert (Hh1 : healthy w1) by done.
    assert (Hf1 : holds w1 "servers.json" rows1) by (apply holds_chatter, holds_stored).
    assert (Hl1 : lookup_id (Some (VStr id)) rows1
                  = Some (i, {[ "autoRestart" := flag ]} ∪ s)).
    { unfold rows1. by rewrite lookup_id_patch, Hl. }
    exists r, w1. split; [exact Hrun|]. split; [exact Hh1|].
    split.
    { rewrite (record_holds w1 rows1) by done. rewrite Hl1. cbn.
      by rewrite insert_union_singleton_l. }
    split.
    { intros id' Hne. rewrite (record_holds w1 rows1), (record_holds w rows) by done.
      unfold rows1. by rewrite lookup_id_patch_ne. }
    split; [done|]. split; [done|].
    destruct (Hstep w1 rows1 i _ Hh1 Hf1 Hl1) as (r2 & lines2 & calls2 & Hrun2).
    eexists r2, _. split; [exact Hrun2|].
    rewrite record_chatter, record_stored, lookup_id_patch, Hl1 by done. cbn.
    f_equal. rewrite <- !insert_union_singleton_l.
    rewrite lookup_insert_eq. rewrite insert_insert_eq. unfold flag. cbn.
    by rewrite negb_involutive.
Qed.

Lemma toggle_autorestart_flips_witness :
  let w := one_server false in
  let handleUpdate : string → prog unit :=
    λ _, manageServerAction (Some 100) (Some (VStr "a1")) in
  healthy w
  ∧ holds w "servers.json" [a1 false]
  ∧ (∀ data w0 rows0, healthy w0 → holds w0 "servers.json" rows0 →
       ∃ r lines calls, run (handleUpdate data) w0 = (r, chatter lines calls w0))
  ∧ lookup_id (Some (VStr "a1")) [a1 false] = Some (0%nat, a1 false)
  ∧ ∃ r w',
      run (toggle_autorestart handleUpdate 100 "a1") w = (r, w')
      ∧ record w' (Some (VStr "a1")) = Some (a1 true).
Proof.
  intros w handleUpdate.
  assert (Hh : healthy w) by done.
  assert (Hf : holds w "servers.json" [a1 false]) by reflexivity.
  assert (Hd : ∀ data w0 rows0, healthy w0 → holds w0 "servers.json" rows0 →
            ∃ r lines calls, run (handleUpdate data) w0 = (r, chatter lines calls w0)).
  { intros data w0 rows0 Hh0 Hf0.
    destruct (run_manageServerAction (Some 100) (Some (VStr "a1")) w0 rows0 Hh0 Hf0)
      as (lines & calls & Hrun).
    by exists (Ok tt), lines, calls. }
  assert (Hl : lookup_id (Some (VStr "a1")) [a1 false] = Some (0%nat, a1 false))
    by reflexivity.
  split; [exact Hh |]. split; [exact Hf |]. split; [exact Hd |]. split; [exact Hl |].
  destruct (toggle_autorestart_flips handleUpdate w 100 "a1" [a1 false] Hh Hf Hd)
    as [_ H].
  destruct (H 0%nat (a1 false) Hl) as (r & w' & H1 & _ & H2 & _).
  exists r, w'. split; [exact H1 |]. rewrite H2. reflexivity.
Defined.

(** *** Uptime *)

(** For a session started no later than now, the figures of
    [uptime_server] are the whole seconds elapsed, split into hours,
    minutes below 60 and seconds below 60. *)
Theorem uptime_splits_elapsed_seconds (now startTime : Z) :
  startTime ≤ now →
  let '(hours, minutes, seconds) := uptime now startTime in
  0 ≤ hours
  ∧ 0 ≤ minutes < 60
  ∧ 0 ≤ seconds < 60
  ∧ hours * 3600 + minutes * 60 + seconds = (now - startTime) / 1000.
Proof.
  intros Hle. unfold uptime. cbv zeta.
  assert (Hd : 0 ≤ now - startTime) by lia.
  set (d := now - startTime) in *.
  assert (H1 : 0 ≤ d / 1000) by (apply Z.div_pos; lia).
  assert (H2 : 0 ≤ d / 60000) by (apply Z.div_pos; lia).
  rewrite !Z.rem_mod_nonneg by lia.
  assert (Hm : d / 60000 = d / 1000 / 60) by (rewrite Z.div_div by lia; done).
  assert (Hh : d / 3600000 = d / 1000 / 60 / 60) by (rewrite !Z.div_div by lia; done).
  rewrite Hm, Hh.
  set (t := d / 1000) in *.
  pose proof (Z.mod_pos_bound t 60 ltac:(lia)).
  pose proof (Z.mod_pos_bound (t / 60) 60 ltac:(lia)).
  pose proof (Z.div_mod t 60 ltac:(lia)).
  pose proof (Z.div_mod (t / 60) 60 ltac:(lia)).
  assert (0 ≤ t / 60 / 60) by (apply Z.div_pos; [apply Z.div_pos|]; lia).
  split_and!; lia.
Qed.

Lemma uptime_splits_elapsed_seconds_witness :
  1000 ≤ 3726500
  ∧ let '(hours, minutes, seconds) := uptime 3726500 1000 in
    0 ≤ hours
    ∧ 0 ≤ minutes < 60
    ∧ 0 ≤ seconds < 60
    ∧ hours * 3600 + minutes * 60 + seconds = (3726500 - 1000) / 1000.
Proof.
  split; [lia |].
  apply (uptime_splits_elapsed_seconds 3726500 1000). lia.
Defined.

(** *** Deleting a server *)

Arguments showMyServers : simpl never.
Arguments stopBot : simpl never.
Arguments Servers.deleteOne : simpl never.
Arguments reorderServers : simpl never.

Lemma run_reorderServers localeCompare w rows userId :
  healthy w →
  holds w "servers.json" rows →
  Forall (λ s : doc, s !! "userId" = userId → ∃ id, s !! "_id" = Some (VStr id)) rows →
  run (reorderServers localeCompare userId) w
  = (Ok tt, stored "servers.json" (renumbered localeCompare userId rows) w).
Proof.
  intros Hh Hf Hids. unfold reorderServers.
  rewrite run_bind, run_await, (run_Servers_find_all w rows) by done.
  cbn. run_bind. rewrite run_sort.
  - rewrite run_await, run_writeDb
      by (by apply healthy_free || by apply healthy_writable).
    done.
  - apply Forall_forall. intros s Hs.
    apply list_elem_of_filter in Hs as [Hu Hs].
    rewrite Forall_forall in Hids. by apply Hids.
Qed.

Lemma run_showMyServers chat from message w rows :
  healthy w → holds w "servers.json" rows →
  ∃ calls, run (showMyServers chat from message) w = (Ok tt, chatter [] calls w).
Proof.
  intros Hh Hf. unfold showMyServers, Servers.find.
  rewrite run_bind, run_await, run_bind, run_await, run_readDb
    by by apply healthy_free.
  rewrite Hf. rewrite decide_False.
  2:{ unfold field. intros Hempty.
      pose proof (lookup_singleton_eq (M:=gmap string) "userId" (Some (VNum from))) as Hs.
      rewrite Hempty in Hs. by rewrite lookup_empty in Hs. }
  cbn. case_decide.
  - rewrite run_ignoring_call. eexists. by rewrite outbox_chatter.
  - rewrite run_ignoring_call. eexists. by rewrite outbox_chatter.
Qed.

Lemma run_stopBot_missing chat id w rows :
  healthy w → holds w "servers.json" rows →
  lookup_id id rows = None →
  run (stopBot (Some chat) id) w
  = (Ok tt, chatter [] [EditMessageText chat (Msg "server_not_found")] w).
Proof.
  intros Hh Hf Hl. unfold stopBot.
  rewrite run_bind, run_await, (run_Servers_findById _ _ rows), Hl by done.
  cbn [fmap option_fmap option_map editMessageText]. 
  rewrite run_ignoring_call. by rewrite outbox_chatter.
Qed.

Lemma matches_own sId from (s : doc) :
  matches (own sId from) s
  ↔ s !! "_id" = Some (VStr sId) ∧ s !! "userId" = Some (VNum from).
Proof.
  unfold matches, own. rewrite map_Forall_insert by done.
  by rewrite map_Forall_singleton.
Qed.

Lemma filter_insert_out {A} (P : A → Prop) `{∀ x, Decision (P x)}
    (l : list A) (i : nat) (x y : A) :
  l !! i = Some x → ¬ P x → ¬ P y → filter P (<[i := y]> l) = filter P l.
Proof.
  revert i. induction l as [|z l IH]; intros i Hi Hx Hy; [done|].
  destruct i as [|i]; cbn in Hi.
  - injection Hi as ->. change (<[0%nat := y]> (x :: l)) with (y :: l).
    rewrite !filter_cons. by rewrite !decide_False.
  - change (<[S i := y]> (z :: l)) with (z :: <[i := y]> l).
    rewrite !filter_cons. by rewrite (IH i).
Qed.

Lemma filter_others_renumbered localeCompare userId rows :
  filter (λ s : doc, s !! "userId" ≠ userId) (renumbered localeCompare userId rows)
  = filter (λ s : doc, s !! "userId" ≠ userId) rows.
Proof.
  unfold renumbered. rewrite filter_app.
  rewrite (filter_all _ (filter _ rows)).
  2:{ apply Forall_forall. intros s Hs. by apply list_elem_of_filter in Hs as [? _]. }
  rewrite (filter_nothing _ (imap _ _)); [by rewrite app_nil_r|].
  apply Forall_forall. intros s' [i [s [-> Hi]]]%elem_of_lookup_imap Hn.
  apply Hn. rewrite lookup_insert_ne by done.
  assert (s ∈ filter (λ s : doc, s !! "userId" = userId) rows) as Hs.
  { rewrite <- (sort_pure_perm (λ a b, localeCompare (id_of a) (id_of b))).
    eapply list_elem_of_lookup_2; eauto. }
  by apply list_elem_of_filter in Hs as [? _].
Qed.

Lemma elem_of_renumbered localeCompare userId rows (s' : doc) :
  s' ∈ renumbered localeCompare userId rows →
  ∃ s : doc, s ∈ rows
    ∧ s' !! "_id" = s !! "_id" ∧ s' !! "userId" = s !! "userId".
Proof.
  unfold renumbered. intros [Hs|Hs]%elem_of_app.
  - apply list_elem_of_filter in Hs as [_ Hs]. by exists s'.
  - apply elem_of_lookup_imap in Hs as (i & s & -> & Hi).
    assert (s ∈ filter (λ s : doc, s !! "userId" = userId) rows) as Hs.
    { rewrite <- (sort_pure_perm (λ a b, localeCompare (id_of a) (id_of b))).
      eapply list_elem_of_lookup_2; eauto. }
    apply list_elem_of_filter in Hs as [_ Hs].
    exists s. by rewrite !lookup_insert_ne.
Qed.

Lemma run_delete_tail localeCompare chat from sId w rows :
  healthy w →
  holds w "servers.json" rows →
  Forall (λ s : doc, s !! "userId" = Some (VNum from) →
                     ∃ id, s !! "_id" = Some (VStr id)) rows →
  ∃ w',
    run (await (Servers.deleteOne (own sId from));;
         await (reorderServers localeCompare (Some (VNum from)));;
         await (showMyServers chat from (Some "server_deleted"))) w = (Ok tt, w')
    ∧ healthy w'
    ∧ holds w' "servers.json"
        (renumbered localeCompare (Some (VNum from))
           (filter (λ s, ¬ matches (own sId from) s) rows))
    ∧ activeClients w' = activeClients w
    ∧ clients w' = clients w
    ∧ timers w' = timers w.
Proof.
  intros Hh Hf Hids.
  run_bind. rewrite run_await, (run_Servers_deleteOne w rows) by done.
  set (rest := filter (λ s, ¬ matches (own sId from) s) rows).
  set (w1 := if decide (Forall (λ s, ¬ matches (own sId from) s) rows) then w
             else stored "servers.json" rest w).
  assert (Hw1 : healthy w1 ∧ holds w1 "servers.json" rest
                ∧ activeClients w1 = activeClients w ∧ clients w1 = clients w
                ∧ timers w1 = timers w).
  { unfold w1. case_decide as Hall.
    - split_and!; try done. unfold rest. by rewrite filter_all.
    - split_and!; try done. apply holds_stored. }
  destruct Hw1 as (Hh1 & Hf1 & Hac1 & Hcl1 & Htm1).
  assert (Hrun1 : ∃ n, (if decide (Forall (λ s, ¬ matches (own sId from) s) rows)
                        then (Ok 0, w)
                        else (Ok 1, stored "servers.json" rest w)) = (Ok n, w1)).
  { unfold w1. case_decide; by eexists. }
  destruct Hrun1 as [n ->].
  assert (Hids1 : Forall (λ s : doc, s !! "userId" = Some (VNum from) →
                                     ∃ id, s !! "_id" = Some (VStr id)) rest).
  { apply Forall_forall. intros s Hs. apply list_elem_of_filter in Hs as [_ Hs].
    rewrite Forall_forall in Hids. by apply Hids. }
  run_bind. rewrite run_await, (run_reorderServers _ w1 rest) by done.
  set (w2 := stored "servers.json" _ w1).
  destruct (run_showMyServers chat from (Some "server_deleted") w2
              (renumbered localeCompare (Some (VNum from)) rest)) as [calls Hshow];
    [by apply healthy_stored | apply holds_stored |].
  rewrite run_await, Hshow.
  eexists. split; [reflexivity|].
  split_and!; try done.
  apply holds_chatter, holds_stored.
Qed.

Lemma run_delete_do localeCompare chat from sId w rows :
  healthy w →
  holds w "servers.json" rows →
  Forall (λ s : doc, s !! "userId" = Some (VNum from) →
                     ∃ id, s !! "_id" = Some (VStr id)) rows →
  ∃ w' rowsA,
    run (delete_do localeCompare chat from sId) w = (Ok tt, w')
    ∧ healthy w'
    ∧ holds w' "servers.json"
        (renumbered localeCompare (Some (VNum from))
           (filter (λ s, ¬ matches (own sId from) s) rowsA))
    ∧ timers w' = timers w
    ∧ match activeClients w !! sId with
      | None =>
          rowsA = rows ∧ activeClients w' = activeClients w ∧ clients w' = clients w
      | Some b =>
          rowsA = patch (Some (VStr sId)) stop_patch rows
          ∧ match lookup_id (Some (VStr sId)) rows, teardown (env w) (client b) with
            | Some _, None =>
                activeClients w' = delete sId (activeClients w)
                ∧ clients w' = hung_up b (clients w)
            | _, _ => activeClients w' = activeClients w ∧ clients w' = clients w
            end
      end.
Proof.
  intros Hh Hf Hids. unfold delete_do. fold (own sId from).
  run_bind. cbn [answerCbQuery]. rewrite run_ignoring_call.
  set (w0 := set_outbox _ w).
  assert (Hh0 : healthy w0) by done.
  assert (Hf0 : holds w0 "servers.json" rows) by done.
  cbn. change (activeClients w0) with (activeClients w).
  destruct (activeClients w !! sId) as [b|] eqn:Hb.
  - rewrite bool_decide_eq_true_2 by eauto.
    run_bind. rewrite run_await, run_try_catch.
    assert (Hpatched : Forall (λ s : doc, s !! "userId" = Some (VNum from) →
                                          ∃ id, s !! "_id" = Some (VStr id))
                         (patch (Some (VStr sId)) stop_patch rows)).
    { unfold patch. destruct (lookup_id _ rows) as [[i s]|] eqn:Hl; [|done].
      apply lookup_id_Some in Hl as [Hi Hid].
      apply Forall_insert; [done|].
      rewrite !lookup_union_r by done. intros Hu.
      rewrite Forall_forall in Hids. apply (Hids s); [|done].
      by eapply list_elem_of_lookup_2. }
    destruct (lookup_id (Some (VStr sId)) rows) as [[i s]|] eqn:Hl.
    + pose proof (run_stopBot (Some chat) sId w0 rows i s Hh0 Hf0 Hl) as Hstop.
      cbn zeta in Hstop. change (activeClients w0) with (activeClients w) in Hstop.
      rewrite Hb in Hstop. change (env w0) with (env w) in Hstop.
      destruct (teardown (env w) (client b)) as [message|] eqn:Ht.
      * rewrite Hstop. cbn [run].
        destruct (run_delete_tail localeCompare chat from sId
                    (stored "servers.json" (patch (Some (VStr sId)) stop_patch rows) w0)
                    (patch (Some (VStr sId)) stop_patch rows))
          as (w' & Hrun & Hh' & Hf' & Hac & Hcl & Htm);
          [by apply healthy_stored | apply holds_stored | done |].
        rewrite Hrun. exists w', (patch (Some (VStr sId)) stop_patch rows).
        split_and!; try done.
      * destruct Hstop as (lines & calls & Hstop). rewrite Hstop.
        set (w1 := chatter lines calls _).
        destruct (run_delete_tail localeCompare chat from sId w1
                    (patch (Some (VStr sId)) stop_patch rows))
          as (w' & Hrun & Hh' & Hf' & Hac & Hcl & Htm);
          [done | apply holds_chatter; apply holds_stored | done |].
        rewrite Hrun. exists w', (patch (Some (VStr sId)) stop_patch rows).
        split_and!; try done.
    + rewrite (run_stopBot_missing chat _ w0 rows) by done.
      set (w1 := chatter _ _ w0).
      destruct (run_delete_tail localeCompare chat from sId w1 rows)
        as (w' & Hrun & Hh' & Hf' & Hac & Hcl & Htm); [done..|].
      rewrite Hrun. exists w', (patch (Some (VStr sId)) stop_patch rows).
      unfold patch at 1. rewrite Hl.
      split_and!; done.
  - rewrite bool_decide_eq_false_2 by (by intros [? ?]).
    destruct (run_delete_tail localeCompare chat from sId w0 rows)
      as (w' & Hrun & Hh' & Hf' & Hac & Hcl & Htm); [done..|].
    cbn. rewrite Hrun. exists w', rows. split_and!; try done.
Qed.

(** [delete_do] comes to an end normally whenever the store answers, also
    when the client of a running session cannot be closed.  Afterwards no
    record with that id belongs to the caller, no record has been
    invented, the pending timers are the same and, when the id is the
    caller's, the records of everybody else are exactly as before.  A
    session of the id is closed and removed when the client can be torn
    down; when the teardown throws, the failure is swallowed and the
    session stays registered without its record. *)
Theorem delete_do_removes_own_server
    (localeCompare : string → string → Z) (w : world) (chat from : Z)
    (sId : string) (rows : list doc) :
  healthy w →
  holds w "servers.json" rows →
  Forall (λ s : doc, s !! "userId" = Some (VNum from) →
                     ∃ id, s !! "_id" = Some (VStr id)) rows →
  ∃ w' rows',
    run (delete_do localeCompare chat from sId) w = (Ok tt, w')
    ∧ holds w' "servers.json" rows'
    ∧ Forall (λ s' : doc, ¬ (s' !! "_id" = Some (VStr sId)
                             ∧ s' !! "userId" = Some (VNum from))) rows'
    ∧ (∀ s' : doc, s' ∈ rows' →
         ∃ s : doc, s ∈ rows ∧ s' !! "_id" = s !! "_id"
                    ∧ s' !! "userId" = s !! "userId")
    ∧ ((∀ i s, lookup_id (Some (VStr sId)) rows = Some (i, s) →
               s !! "userId" = Some (VNum from)) →
       filter (λ s : doc, s !! "userId" ≠ Some (VNum from)) rows'
       = filter (λ s : doc, s !! "userId" ≠ Some (VNum from)) rows)
    ∧ timers w' = timers w
    ∧ (activeClients w !! sId = None →
       activeClients w' = activeClients w ∧ clients w' = clients w)
    ∧ (∀ b, activeClients w !! sId = Some b →
         is_Some (lookup_id (Some (VStr sId)) rows) →
         match teardown (env w) (client b) with
         | None =>
             activeClients w' = delete sId (activeClients w)
             ∧ clients w' = hung_up b (clients w)
         | Some _ => activeClients w' = activeClients w ∧ clients w' = clients w
         end).
Proof.
  intros Hh Hf Hids.
  destruct (run_delete_do localeCompare chat from sId w rows Hh Hf Hids)
    as (w' & rowsA & Hrun & Hh' & Hf' & Htm & Hcase).
  assert (HrowsA : rowsA = rows ∨ rowsA = patch (Some (VStr sId)) stop_patch rows).
  { destruct (activeClients w !! sId); [right | left]; by destruct Hcase. }
  assert (Hfrom : ∀ sA : doc, sA ∈ rowsA →
            ∃ s : doc, s ∈ rows ∧ sA !! "_id" = s !! "_id"
                       ∧ sA !! "userId" = s !! "userId").
  { intros sA HsA. destruct HrowsA as [-> | ->]; [by exists sA|].
    unfold patch in HsA. destruct (lookup_id _ rows) as [[i s]|] eqn:Hl; [|by exists sA].
    apply lookup_id_Some in Hl as [Hi Hid].
    apply list_elem_of_lookup_1 in HsA as [j Hj].
    apply list_lookup_insert_Some in Hj as [(-> & <- & _)|[_ Hj]].
    - exists s. split; [by eapply list_elem_of_lookup_2|].
      by rewrite !lookup_union_r.
    - exists sA. split; [by eapply list_elem_of_lookup_2 | done]. }
  eexists w', _. split; [exact Hrun|]. split; [exact Hf'|].
  split_and!.
  - apply Forall_forall. intros s' Hs' Hq.
    apply elem_of_renumbered in Hs' as (s & Hs & Hid & Hu).
    apply list_elem_of_filter in Hs as [Hn _]. apply Hn, matches_own.
    by rewrite <- Hid, <- Hu.
  - intros s' Hs'. apply elem_of_renumbered in Hs' as (sA & HsA & Hid & Hu).
    apply list_elem_of_filter in HsA as [_ HsA].
    destruct (Hfrom sA HsA) as (s & Hs & Hid' & Hu').
    exists s. split; [done|]. by rewrite Hid, Hu.
  - intros Hown. rewrite filter_others_renumbered.
    rewrite list_filter_filter_l.
    2:{ intros s Hs [_ Hu]%matches_own. done. }
    destruct HrowsA as [-> | ->]; [done|].
    unfold patch. destruct (lookup_id _ rows) as [[i s]|] eqn:Hl; [|done].
    pose proof (Hown i s eq_refl) as Hu.
    apply lookup_id_Some in Hl as [Hi Hid].
    apply (filter_insert_out _ _ _ s); [done | by intros ? |].
    rewrite lookup_union_r by done. by intros ?.
  - exact Htm.
  - intros Hnone. rewrite Hnone in Hcase. by destruct Hcase as (_ & ? & ?).
  - intros b Hb [[i s] Hl]. rewrite Hb, Hl in Hcase. destruct Hcase as [_ Hcase].
    by destruct (teardown (env w) (client b)).
Qed.

(** The deletion is restricted to the caller's records, the stop is not:
    [delete_do] on a running server of somebody else keeps the record in
    the table but stores it as Stopped with [autoRestart] off, closes the
    client and removes the session. *)
Theorem delete_do_stops_foreign_server
    (localeCompare : string → string → Z) (w : world) (chat from : Z)
    (sId : string) (rows : list doc) (i : nat) (s : doc) (b : botInfo) :
  healthy w →
  holds w "servers.json" rows →
  Forall (λ s : doc, s !! "userId" = Some (VNum from) →
                     ∃ id, s !! "_id" = Some (VStr id)) rows →
  lookup_id (Some (VStr sId)) rows = Some (i, s) →
  s !! "userId" ≠ Some (VNum from) →
  activeClients w !! sId = Some b →
  teardown (env w) (client b) = None →
  ∃ w' rows',
    run (delete_do localeCompare chat from sId) w = (Ok tt, w')
    ∧ holds w' "servers.json" rows'
    ∧ stop_patch ∪ s ∈ rows'
    ∧ (stop_patch ∪ s) !! "_id" = Some (VStr sId)
    ∧ (stop_patch ∪ s) !! "status" = Some Stopped
    ∧ (stop_patch ∪ s) !! "autoRestart" = Some (VBool false)
    ∧ activeClients w' = delete sId (activeClients w)
    ∧ clients w' = hung_up b (clients w).
Proof.
  intros Hh Hf Hids Hl Hu Hb Ht.
  destruct (run_delete_do localeCompare chat from sId w rows Hh Hf Hids)
    as (w' & rowsA & Hrun & Hh' & Hf' & Htm & Hcase).
  rewrite Hb, Hl, Ht in Hcase. destruct Hcase as (-> & Hac & Hcl).
  destruct (lookup_id_Some _ _ _ _ Hl) as [Hi Hid].
  eexists w', _. split; [exact Hrun|]. split; [exact Hf'|].
  split.
  { unfold renumbered. apply elem_of_app. left.
    apply list_elem_of_filter. split; [by rewrite lookup_union_r|].
    apply list_elem_of_filter. split.
    - intros [_ Hown]%matches_own. by rewrite lookup_union_r in Hown.
    - unfold patch. rewrite Hl. eapply list_elem_of_lookup_2.
      apply list_lookup_insert_eq. by eapply lookup_lt_Some. }
  split; [by rewrite lookup_union_r |].
  split; [by apply lookup_union_Some_l |].
  split; [by apply lookup_union_Some_l |].
  split; [exact Hac | exact Hcl].
Qed.

Lemma delete_do_removes_own_server_witness :
  let w := set_env (λ _, broken_pipe) (watching false) in
  healthy w
  ∧ holds w "servers.json" [a1_live false]
  ∧ Forall (λ s : doc, s !! "userId" = Some (VNum 7) →
                       ∃ id, s !! "_id" = Some (VStr id)) [a1_live false]
  ∧ ∃ w',
      run (delete_do ordinal 100 7 "a1") w = (Ok tt, w')
      ∧ holds w' "servers.json" []
      ∧ activeClients w' = activeClients w.
Proof.
  intros w.
  assert (Hh : healthy w) by done.
  assert (Hf : holds w "servers.json" [a1_live false]) by reflexivity.
  assert (Hids : Forall (λ s : doc, s !! "userId" = Some (VNum 7) →
                                    ∃ id, s !! "_id" = Some (VStr id)) [a1_live false]).
  { apply Forall_cons. split; [|by apply Forall_nil]. intros _. by exists "a1". }
  split; [exact Hh |]. split; [exact Hf |]. split; [exact Hids |].
  destruct (delete_do_removes_own_server ordinal w 100 7 "a1" [a1_live false] Hh Hf Hids)
    as (w' & rows' & H1 & H2 & H3 & H4 & _ & _ & _ & H5).
  exists w'. split; [exact H1 |].
  assert (Hempty : rows' = []).
  { destruct rows' as [|s' rest]; [done|]. exfalso.
    destruct (H4 s') as (s & Hs & Hid & Hu); [by left|].
    apply list_elem_of_singleton in Hs as ->.
    apply Forall_cons in H3 as [Hno _]. apply Hno.
    split; [rewrite Hid; reflexivity | rewrite Hu; reflexivity]. }
  rewrite Hempty in H2. split; [exact H2 |].
  assert (Hb : activeClients w !! "a1" = Some (BotInfo 0 "bedrock" (Some (VStr "a1")) 0))
    by reflexivity.
  assert (Hl : is_Some (lookup_id (Some (VStr "a1")) [a1_live false]))
    by (eexists; reflexivity).
  pose proof (H5 _ Hb Hl) as H6.
  change (teardown (env w) (client (BotInfo 0 "bedrock" (Some (VStr "a1")) 0)))
    with (Some "write EPIPE") in H6.
  exact (proj1 H6).
Defined.

Lemma delete_do_stops_foreign_server_witness :
  let w := watching true in
  healthy w
  ∧ holds w "servers.json" [a1_live true]
  ∧ Forall (λ s : doc, s !! "userId" = Some (VNum 8) →
                       ∃ id, s !! "_id" = Some (VStr id)) [a1_live true]
  ∧ lookup_id (Some (VStr "a1")) [a1_live true] = Some (0%nat, a1_live true)
  ∧ a1_live true !! "userId" ≠ Some (VNum 8)
  ∧ activeClients w !! "a1" = Some (BotInfo 0 "bedrock" (Some (VStr "a1")) 0)
  ∧ teardown (env w) 0 = None
  ∧ ∃ w' rows',
      run (delete_do ordinal 200 8 "a1") w = (Ok tt, w')
      ∧ holds w' "servers.json" rows'
      ∧ stop_patch ∪ a1_live true ∈ rows'
      ∧ activeClients w' = delete "a1" (activeClients w).
Proof.
  intros w.
  assert (Hh : healthy w) by done.
  assert (Hf : holds w "servers.json" [a1_live true]) by reflexivity.
  assert (Hids : Forall (λ s : doc, s !! "userId" = Some (VNum 8) →
                                    ∃ id, s !! "_id" = Some (VStr id)) [a1_live true]).
  { apply Forall_cons. split; [|by apply Forall_nil]. intros _. by exists "a1". }
  assert (Hl : lookup_id (Some (VStr "a1")) [a1_live true] = Some (0%nat, a1_live true))
    by reflexivity.
  assert (Hu : a1_live true !! "userId" ≠ Some (VNum 8)).
  { change (a1_live true !! "userId") with (Some (VNum 7)). discriminate. }
  assert (Hb : activeClients w !! "a1" = Some (BotInfo 0 "bedrock" (Some (VStr "a1")) 0))
    by reflexivity.
  assert (Ht : teardown (env w) 0 = None) by reflexivity.
  split; [exact Hh |]. split; [exact Hf |]. split; [exact Hids |].
  split; [exact Hl |]. split; [exact Hu |]. split; [exact Hb |]. split; [exact Ht |].
  destruct (delete_do_stops_foreign_server ordinal w 200 8 "a1" [a1_live true] 0
              (a1_live true) _ Hh Hf Hids Hl Hu Hb Ht)
    as (w' & rows' & H1 & H2 & H3 & _ & _ & _ & H4 & _).
  exists w', rows'. split; [exact H1 |]. split; [exact H2 |].
  split; [exact H3 | exact H4].
Defined.

(** *** The configuration document *)

Arguments Config.updateOne : simpl never.
Arguments Config.findOne : simpl never.

Lemma run_readDb_config w fields :
  healthy w → configured w fields →
  run (readDb "config.json") w = (Ok (JObj fields), w).
Proof.
  intros Hh Hc. rewrite run_readDb by by apply healthy_free.
  unfold configured in Hc. by rewrite Hc.
Qed.

Lemma healthy_stored_config fields w : healthy w → healthy (stored_config fields w).
Proof. done. Qed.

Lemma configured_stored_config fields w : configured (stored_config fields w) fields.
Proof. unfold configured, stored_config. cbn. apply lookup_insert_eq. Qed.

Lemma run_Config_addToSet key value upsert w fields :
  healthy w → configured w fields →
  (fields !! key = None ∨ ∃ l, fields !! key = Some (CList l)) →
  run (Config.updateOne key (addToSet_ value) upsert) w =
    (Ok tt,
     stored_config
       (if decide (value ∈ listed fields key)
        then (if fields !! key is Some _ then fields else <[key := CList []]> fields)
        else <[key := CList (listed fields key ++ [value])%list]> fields) w).
Proof.
  intros Hh Hc Hkey. unfold Config.updateOne.
  rewrite run_bind, run_await, (run_readDb_config w fields) by done.
  cbn. unfold listed.
  destruct Hkey as [Hk | [l Hk]]; rewrite Hk; cbn.
  - rewrite lookup_partial_alter_eq. cbn.
    rewrite bool_decide_eq_false_2 by apply not_elem_of_nil.
    rewrite decide_False by apply not_elem_of_nil.
    cbn. rewrite run_await, run_writeDb
      by (by apply healthy_free || by apply healthy_writable).
    unfold stored_config, stringify, assign. cbn.
    do 7 f_equal. exact (insert_insert_eq fields key (CList [value]) (CList [])).
  - rewrite Hk. cbn. case_bool_decide as Hin.
    + rewrite decide_True by done. cbn.
      rewrite run_await, run_writeDb
        by (by apply healthy_free || by apply healthy_writable).
      done.
    + rewrite decide_False by done. cbn.
      rewrite run_await, run_writeDb
        by (by apply healthy_free || by apply healthy_writable).
      done.
Qed.

Lemma run_Config_pull key value upsert w fields :
  healthy w → configured w fields →
  (fields !! key = None ∨ ∃ l, fields !! key = Some (CList l)) →
  run (Config.updateOne key (pull_ value) upsert) w =
    (Ok tt,
     stored_config
       (if fields !! key is Some _
        then <[key := CList (filter (λ item, item ≠ value) (listed fields key))]> fields
        else fields) w).
Proof.
  intros Hh Hc Hkey. unfold Config.updateOne.
  rewrite run_bind, run_await, (run_readDb_config w fields) by done.
  cbn. unfold listed.
  destruct Hkey as [Hk | [l Hk]]; rewrite Hk; cbn.
  - rewrite run_await, run_writeDb
      by (by apply healthy_free || by apply healthy_writable).
    done.
  - rewrite run_await, run_writeDb
      by (by apply healthy_free || by apply healthy_writable).
    unfold stored_config, stringify, assign. cbn.
    do 7 f_equal.
    change (partial_alter (λ _, Some ?x) key fields) with (<[key := x]> fields).
    do 2 f_equal. apply list_filter_iff. intros item. split; congruence.
Qed.

Lemma run_Config_findOne key w fields :
  healthy w → configured w fields →
  run (Config.findOne key) w = (Ok (key, fields !! key), w).
Proof.
  intros Hh Hc. unfold Config.findOne.
  by rewrite run_bind, run_await, (run_readDb_config w fields).
Qed.

Lemma listed_insert fields key l : listed (<[key := CList l]> fields) key = l.
Proof. unfold listed. by rewrite lookup_insert_eq. Qed.

Lemma filter_ne_app (value : jsval) (l : list jsval) :
  filter (λ item, item ≠ value) (l ++ [value])%list = filter (λ item, item ≠ value) l.
Proof.
  rewrite filter_app. rewrite (filter_cons _ value []).
  rewrite decide_False by (by intros ?). by rewrite filter_nil, app_nil_r.
Qed.

(** The list of required channels, as the two admin scenes keep it.
    [$addToSet] makes the channel a member of the list under the key,
    appending it only when it is not one already (a key that is missing
    starts from the empty list), and leaves the other keys alone; done
    again it changes nothing, though the file is written each time.
    [$pull] afterwards takes every occurrence of the channel out and keeps
    the other members in their order, so that adding and then removing a
    channel that was not listed gives the list back. *)
Theorem Config_addToSet_then_pull
    (w : world) (fields : gmap string cval) (key : string) (channel : jsval)
    (upsert : bool) :
  healthy w →
  configured w fields →
  (fields !! key = None ∨ ∃ l, fields !! key = Some (CList l)) →
  let l := listed fields key in
  let added := (if decide (channel ∈ l) then l else l ++ [channel])%list in
  ∃ w1 fields1,
    run (Config.updateOne key (addToSet_ channel) upsert) w = (Ok tt, w1)
    ∧ configured w1 fields1
    ∧ written w1 = (written w ++ ["config.json"])%list
    ∧ listed fields1 key = added
    ∧ channel ∈ added
    ∧ (∀ key', key' ≠ key → fields1 !! key' = fields !! key')
    ∧ run (Config.findOne key) w1 = (Ok (key, Some (CList added)), w1)
    ∧ (∃ w2 fields2,
         run (Config.updateOne key (addToSet_ channel) upsert) w1 = (Ok tt, w2)
         ∧ configured w2 fields2
         ∧ listed fields2 key = added
         ∧ written w2 = (written w1 ++ ["config.json"])%list)
    ∧ (∃ w3 fields3,
         run (Config.updateOne key (pull_ channel) upsert) w1 = (Ok tt, w3)
         ∧ configured w3 fields3
         ∧ listed fields3 key = filter (λ item, item ≠ channel) l
         ∧ ¬ (channel ∈ listed fields3 key)
         ∧ (channel ∉ l → listed fields3 key = l)).
Proof.
  intros Hh Hc Hkey l added.
  set (fields1 := <[key := CList added]> fields).
  assert (Hrun1 : run (Config.updateOne key (addToSet_ channel) upsert) w
                  = (Ok tt, stored_config fields1 w)).
  { rewrite (run_Config_addToSet key channel upsert w fields) by done.
    do 2 f_equal. fold l. unfold fields1, added.
    destruct (decide (channel ∈ l)) as [Hin|Hin]; [|done].
    destruct Hkey as [Hk | [l' Hk]].
    - exfalso. unfold l, listed in Hin. rewrite Hk in Hin. by apply not_elem_of_nil in Hin.
    - rewrite Hk. unfold l, listed. rewrite Hk. symmetry. by apply insert_id. }
  assert (Hh1 : healthy (stored_config fields1 w)) by done.
  assert (Hc1 : configured (stored_config fields1 w) fields1)
    by apply configured_stored_config.
  assert (Hk1 : fields1 !! key = Some (CList added)) by apply lookup_insert_eq.
  assert (Hl1 : listed fields1 key = added) by apply listed_insert.
  assert (Hin : channel ∈ added).
  { unfold added. destruct (decide (channel ∈ l)); [done|].
    apply elem_of_app. right. by left. }
  exists (stored_config fields1 w), fields1.
  split; [exact Hrun1 |]. split; [exact Hc1 |]. split; [reflexivity |].
  split; [exact Hl1 |]. split; [exact Hin |].
  split; [intros key' Hne; by apply lookup_insert_ne |].
  split; [by rewrite (run_Config_findOne key _ fields1), Hk1 |].
  split.
  - eexists _, fields1.
    rewrite (run_Config_addToSet key channel upsert _ fields1) by eauto.
    rewrite Hl1, Hk1. rewrite decide_True by done.
    split; [reflexivity |]. split; [apply configured_stored_config |].
    split; reflexivity.
  - eexists _, _.
    rewrite (run_Config_pull key channel upsert _ fields1) by eauto.
    rewrite Hl1, Hk1.
    split; [reflexivity |]. split; [apply configured_stored_config |].
    rewrite listed_insert.
    assert (Hfilter : filter (λ item, item ≠ channel) added
                      = filter (λ item, item ≠ channel) l).
    { unfold added. destruct (decide (channel ∈ l)); [done|]. apply filter_ne_app. }
    split; [exact Hfilter |]. rewrite Hfilter.
    split.
    + intros [Hne _]%list_elem_of_filter. done.
    + intros Hout. apply filter_all. apply Forall_forall. by intros item Hitem ->.
Qed.

Lemma Config_addToSet_then_pull_witness :
  let fields : gmap string cval :=
    {[ "botOnline" := CPrim (VBool true);
       "requiredChannels" := CList [VStr "@news"] ]} in
  let w := over [("config.json", Text (Some (JObj fields)))] in
  healthy w
  ∧ configured w fields
  ∧ (fields !! "requiredChannels" = None
     ∨ ∃ l, fields !! "requiredChannels" = Some (CList l))
  ∧ ∃ w1 fields1,
      run (Config.updateOne "requiredChannels" (addToSet_ (VStr "@mods")) true) w
      = (Ok tt, w1)
      ∧ configured w1 fields1
      ∧ listed fields1 "requiredChannels" = [VStr "@news"; VStr "@mods"].
Proof.
  intros fields w.
  assert (Hh : healthy w) by done.
  assert (Hc : configured w fields) by reflexivity.
  assert (Hk : fields !! "requiredChannels" = None
               ∨ ∃ l, fields !! "requiredChannels" = Some (CList l)).
  { right. exists [VStr "@news"]. reflexivity. }
  split; [exact Hh |]. split; [exact Hc |]. split; [exact Hk |].
  destruct (Config_addToSet_then_pull w fields "requiredChannels" (VStr "@mods") true
              Hh Hc Hk) as (w1 & fields1 & H1 & H2 & _ & H3 & _).
  exists w1, fields1. split; [exact H1 |]. split; [exact H2 |].
  rewrite H3. reflexivity.
Defined.

(** *** First start *)

Arguments setupInitialConfig : simpl never.
Arguments Versions.countDocuments : simpl never.

Lemma run_readDb_reads w file data :
  healthy w → reads w file data → run (readDb file) w = (Ok data, w).
Proof.
  intros Hh Hr. rewrite run_readDb by by apply healthy_free.
  destruct Hr as [-> | [-> ->]]; done.
Qed.

Lemma reads_stored file rows w : reads (stored file rows w) file (JArr rows).
Proof. left. apply holds_stored. Qed.

Lemma reads_stored_ne file file' rows data w :
  file ≠ file' → reads w file' data → reads (stored file rows w) file' data.
Proof.
  intros Hne [Hr | [Hr ->]]; [left | right; split; [|done]];
    unfold stored; cbn; by rewrite lookup_insert_ne.
Qed.

Lemma reads_stored_config fields w :
  reads (stored_config fields w) "config.json" (JObj fields).
Proof. left. apply configured_stored_config. Qed.

Lemma reads_stored_config_ne fields file data w :
  file ≠ "config.json" → reads w file data → reads (stored_config fields w) file data.
Proof.
  intros Hne [Hr | [Hr ->]]; [left | right; split; [|done]];
    unfold stored_config; cbn; by rewrite lookup_insert_ne.
Qed.

Section StartupFacts.
Variable mkdir : prog unit.
Variable toISOString : Z → string.
Hypothesis mkdir_done : ∀ w, run mkdir w = (Ok tt, w).

Lemma run_setupInitialConfig w rows fields vrows :
  healthy w →
  reads w "users.json" (JArr rows) →
  reads w "config.json" (JObj fields) →
  reads w "versions.json" (JArr vrows) →
  let w1 :=
    match list_find (λ u : doc, u !! "userId" = Some (VNum ADMIN_ID)) rows with
    | Some (i, admin) =>
        if truthy (admin !! "isAdmin") then w
        else stored "users.json" (<[i := <["isAdmin" := VBool true]> admin]> rows) w
    | None =>
        stored "users.json" (rows ++ [first_admin (toISOString (now w))])%list w
    end in
  let filled :=
    foldl (λ '((config, configUpdated) : object * bool) '((key, v) : string * cval),
             if decide (properties config !! key = None)
             then (assign key (Some v) config, true)
             else (config, configUpdated))
      (Object None fields, false) defaults in
  let w2 := if filled.2 then stored_config (properties filled.1) w1 else w1 in
  let w3 :=
    if decide (vrows = []) then
      set_console
        (λ c, (c ++ ["✅ Database initialized with 30 Minecraft Bedrock versions"])%list)
        (stored "versions.json" versionDocs w2)
    else w2 in
  run (setupInitialConfig mkdir toISOString) w = (Ok tt, w3).
Proof.
  intros Hh Hu Hc Hv w1 filled w2 w3. unfold setupInitialConfig.
  run_bind. rewrite run_await, mkdir_done.
  run_bind. rewrite run_await, (run_readDb_reads w _ (JArr rows)) by done.
  cbn [as_array]. run_bind. cbn [run].
  assert (Hw1 : healthy w1 ∧ reads w1 "config.json" (JObj fields)
                ∧ reads w1 "versions.json" (JArr vrows)).
  { unfold w1. destruct (list_find _ rows) as [[i admin]|].
    - destruct (truthy (admin !! "isAdmin")); [done|].
      split; [done|]. split; by apply reads_stored_ne.
    - split; [done|]. split; by apply reads_stored_ne. }
  destruct Hw1 as (Hh1 & Hc1 & Hv1).
  run_bind.
  match goal with
  | |- context [run ?p w] => assert (Hrun1 : run p w = (Ok tt, w1))
  end.
  { unfold w1. destruct (list_find _ rows) as [[i admin]|].
    - destruct (truthy (admin !! "isAdmin")); [done|].
      by rewrite run_await, run_writeDb
        by (by apply healthy_free || by apply healthy_writable).
    - cbn [run]. by rewrite run_await, run_writeDb
        by (by apply healthy_free || by apply healthy_writable). }
  rewrite Hrun1.
  run_bind. rewrite run_await, (run_readDb_reads w1 _ (JObj fields)) by done.
  cbn [object_of]. fold filled.
  destruct filled as [config configUpdated] eqn:Hfilled. cbn [fst snd] in *.
  assert (Hw2 : healthy w2 ∧ reads w2 "versions.json" (JArr vrows)).
  { unfold w2. destruct configUpdated; [|done].
    split; [done|]. by apply reads_stored_config_ne. }
  destruct Hw2 as (Hh2 & Hv2).
  assert (Hstr : stringify config = JObj (properties config)).
  { assert (elements config = None) as Hel; [|unfold stringify; by rewrite Hel].
    assert (Hel : elements filled.1 = None).
    { unfold filled, defaults. cbn.
      repeat (case_decide; cbn); done. }
    by rewrite Hfilled in Hel. }
  run_bind.
  assert (Hrun2 :
    run (if configUpdated then await (writeDb "config.json" (stringify config))
         else Ret tt) w1 = (Ok tt, w2)).
  { unfold w2. destruct configUpdated; [|done].
    rewrite run_await, run_writeDb
      by (by apply healthy_free || by apply healthy_writable).
    by rewrite Hstr. }
  rewrite Hrun2.
  run_bind. unfold Versions.countDocuments.
  rewrite run_await. run_bind. rewrite run_await. unfold Versions.find.
  run_bind. rewrite run_await, (run_readDb_reads w2 _ (JArr vrows)) by done.
  rewrite decide_True by done. cbn [run length_of].
  unfold w3. destruct vrows as [|v vrows].
  - rewrite !decide_True by done. run_bind.
    rewrite run_await, run_writeDb
      by (by apply healthy_free || by apply healthy_writable).
    done.
  - rewrite decide_False by (intros [= Hlen]; cbn in Hlen; lia).
    by rewrite decide_False.
Qed.
End StartupFacts.

Lemma fill_defaults (fields : gmap string cval) :
  ∃ fields' configUpdated,
    foldl (λ '((config, configUpdated) : object * bool) '((key, v) : string * cval),
             if decide (properties config !! key = None)
             then (assign key (Some v) config, true)
             else (config, configUpdated))
      (Object None fields, false) defaults
    = (Object None fields', configUpdated)
    ∧ (∀ key v, fields !! key = Some v → fields' !! key = Some v)
    ∧ (∀ key v, (key, v) ∈ defaults → fields !! key = None → fields' !! key = Some v)
    ∧ (∀ key, key ∉ defaults.*1 → fields' !! key = fields !! key)
    ∧ (configUpdated = false → fields' = fields)
    ∧ ((∀ key, key ∈ defaults.*1 → is_Some (fields !! key)) → configUpdated = false).
Proof.
  unfold defaults. cbn [foldl properties].
  destruct (fields !! "botOnline") as [v1|] eqn:H1;
    [rewrite decide_False by done | rewrite decide_True by done];
    cbn [assign properties elements];
    rewrite ?lookup_partial_alter_ne by done;
    (destruct (fields !! "adminNotifications") as [v2|] eqn:H2;
     [rewrite decide_False by done | rewrite decide_True by done]);
    cbn [assign properties elements];
    rewrite ?lookup_partial_alter_ne by done;
    (destruct (fields !! "requiredChannels") as [v3|] eqn:H3;
     [rewrite decide_False by done | rewrite decide_True by done]);
    cbn [assign properties elements].
  all: unfold assign; cbn [properties elements].
  all: eexists _, _; split; [reflexivity|].
  all: split_and!.
  all: try (intros key v Hv;
            repeat (rewrite lookup_partial_alter_ne by congruence); exact Hv).
  all: try (intros key v Hin Hnone;
            repeat (apply elem_of_cons in Hin as [[= -> ->]|Hin]; [try congruence|]);
            try (by apply elem_of_nil in Hin);
            repeat first [ apply lookup_partial_alter_eq
                         | rewrite lookup_partial_alter_ne by done ]).
  all: try (intros key Hkey;
            repeat (rewrite lookup_partial_alter_ne
                      by (intros <-; apply Hkey; cbn; set_solver)); done).
  all: try done.
  all: try (intros Hall; exfalso;
            first [ destruct (Hall "botOnline" ltac:(cbn; set_solver)) as [? ?]; congruence
                  | destruct (Hall "adminNotifications" ltac:(cbn; set_solver)) as [? ?];
                    congruence
                  | destruct (Hall "requiredChannels" ltac:(cbn; set_solver)) as [? ?];
                    congruence ]).
Qed.

(** On a store that answers, whose three tables are missing or hold what
    fits them, the set-up of a start comes to an end normally.  After it
    the users table has the administrator, with [isAdmin] on, and every
    other user where it was; the configuration keeps each value it had and
    has the defaults for [botOnline], [adminNotifications] and
    [requiredChannels] where there was none; the catalogue of versions is
    the thirty built-in ones when it was empty, and untouched otherwise.
    Run again on the state it leaves, the set-up changes nothing at all:
    no file is written, nothing is logged. *)
Theorem setupInitialConfig_completes_once
    (mkdir : prog unit) (toISOString : Z → string) (w : world)
    (rows : list doc) (fields : gmap string cval) (vrows : list doc) :
  (∀ w0, run mkdir w0 = (Ok tt, w0)) →
  healthy w →
  reads w "users.json" (JArr rows) →
  reads w "config.json" (JObj fields) →
  reads w "versions.json" (JArr vrows) →
  ∃ w' rows' fields',
    run (setupInitialConfig mkdir toISOString) w = (Ok tt, w')
    ∧ healthy w'
    ∧ reads w' "users.json" (JArr rows')
    ∧ reads w' "config.json" (JObj fields')
    ∧ reads w' "versions.json" (JArr (if decide (vrows = []) then versionDocs else vrows))
    ∧ (∃ i admin,
         list_find (λ u : doc, u !! "userId" = Some (VNum ADMIN_ID)) rows' = Some (i, admin)
         ∧ truthy (admin !! "isAdmin") = true)
    ∧ (∀ j (u : doc), rows !! j = Some u → u !! "userId" ≠ Some (VNum ADMIN_ID) →
         rows' !! j = Some u)
    ∧ (∀ key v, fields !! key = Some v → fields' !! key = Some v)
    ∧ (∀ key v, (key, v) ∈ defaults → fields !! key = None → fields' !! key = Some v)
    ∧ (∀ key, key ∉ defaults.*1 → fields' !! key = fields !! key)
    ∧ length versionDocs = 30%nat
    ∧ run (setupInitialConfig mkdir toISOString) w' = (Ok tt, w').
Proof.
  intros Hmkdir Hh Hu Hc Hv.
  pose proof (run_setupInitialConfig mkdir toISOString Hmkdir w rows fields vrows
                Hh Hu Hc Hv) as Hrun.
  cbv zeta in Hrun.
  destruct (fill_defaults fields)
    as (fields' & updated & Hfill & Hkeep & Hdef & Hother & Hsame & Hfull).
  rewrite Hfill in Hrun. cbn [fst snd properties] in Hrun.
  (* the users table *)
  set (w1 := match list_find (λ u : doc, u !! "userId" = Some (VNum ADMIN_ID)) rows with
             | Some (i, admin) =>
                 if truthy (admin !! "isAdmin") then w
                 else stored "users.json"
                        (<[i := <["isAdmin" := VBool true]> admin]> rows) w
             | None =>
                 stored "users.json"
                   (rows ++ [first_admin (toISOString (now w))])%list w
             end) in *.
  assert (H1 : ∃ rows',
    healthy w1 ∧ reads w1 "users.json" (JArr rows')
    ∧ reads w1 "config.json" (JObj fields)
    ∧ reads w1 "versions.json" (JArr vrows)
    ∧ (∃ i admin,
         list_find (λ u : doc, u !! "userId" = Some (VNum ADMIN_ID)) rows' = Some (i, admin)
         ∧ truthy (admin !! "isAdmin") = true)
    ∧ (∀ j (u : doc), rows !! j = Some u → u !! "userId" ≠ Some (VNum ADMIN_ID) →
         rows' !! j = Some u)).
  { unfold w1.
    destruct (list_find (λ u : doc, u !! "userId" = Some (VNum ADMIN_ID)) rows)
      as [[i admin]|] eqn:Hfind.
    - destruct (truthy (admin !! "isAdmin")) eqn:Hadmin.
      + exists rows. split_and!; try done. by exists i, admin.
      + exists (<[i := <["isAdmin" := VBool true]> admin]> rows).
        split_and!; [done | apply reads_stored | by apply reads_stored_ne
                    | by apply reads_stored_ne | |].
        * exists i, (<["isAdmin" := VBool true]> admin). split.
          -- apply (list_find_insert _ _ _ admin); [done|].
             rewrite lookup_insert_ne by done.
             by apply list_find_Some in Hfind as (_ & ? & _).
          -- by rewrite lookup_insert_eq.
        * intros j u Hj Hne. rewrite list_lookup_insert_ne; [done|].
          intros <-. apply list_find_Some in Hfind as (Hi & Hid & _). congruence.
    - exists (rows ++ [first_admin (toISOString (now w))])%list.
      split_and!; [done | apply reads_stored | by apply reads_stored_ne
                  | by apply reads_stored_ne | |].
      + exists (length rows), (first_admin (toISOString (now w))). split; [|done].
        rewrite list_find_app_r by done. cbn. by rewrite decide_True.
      + intros j u Hj _. by apply lookup_app_l_Some. }
  destruct H1 as (rows' & Hh1 & Hu1 & Hc1 & Hv1 & Hadmin & Hothers).
  (* the configuration *)
  set (w2 := if updated then stored_config fields' w1 else w1) in *.
  assert (H2 : healthy w2 ∧ reads w2 "users.json" (JArr rows')
               ∧ reads w2 "config.json" (JObj fields')
               ∧ reads w2 "versions.json" (JArr vrows)).
  { unfold w2. destruct updated.
    - split_and!; [done | by apply reads_stored_config_ne | apply reads_stored_config
                  | by apply reads_stored_config_ne].
    - rewrite (Hsame eq_refl). done. }
  destruct H2 as (Hh2 & Hu2 & Hc2 & Hv2).
  (* the catalogue *)
  set (vrows' := if decide (vrows = []) then versionDocs else vrows).
  set (w3 := if decide (vrows = []) then _ else w2) in *.
  assert (H3 : healthy w3 ∧ reads w3 "users.json" (JArr rows')
               ∧ reads w3 "config.json" (JObj fields')
               ∧ reads w3 "versions.json" (JArr vrows')).
  { unfold w3, vrows'. destruct (decide (vrows = [])).
    - split_and!; [done | by apply (reads_stored_ne "versions.json")
                  | by apply (reads_stored_ne "versions.json")
                  | apply (reads_stored "versions.json")].
    - done. }
  destruct H3 as (Hh3 & Hu3 & Hc3 & Hv3).
  exists w3, rows', fields'.
  split; [exact Hrun |]. split; [exact Hh3 |]. split; [exact Hu3 |].
  split; [exact Hc3 |]. split; [exact Hv3 |]. split; [exact Hadmin |].
  split; [exact Hothers |]. split; [exact Hkeep |]. split; [exact Hdef |].
  split; [exact Hother |]. split; [reflexivity |].
  (* once more *)
  pose proof (run_setupInitialConfig mkdir toISOString Hmkdir w3 rows' fields' vrows'
                Hh3 Hu3 Hc3 Hv3) as Hrun'.
  cbv zeta in Hrun'.
  destruct Hadmin as (i & admin & Hfind & Htruthy).
  rewrite Hfind, Htruthy in Hrun'.
  destruct (fill_defaults fields')
    as (fields'' & updated' & Hfill' & _ & _ & _ & Hsame' & Hfull').
  rewrite Hfill' in Hrun'. cbn [fst snd properties] in Hrun'.
  assert (Hfalse : updated' = false).
  { apply Hfull'. intros key Hkey.
    apply list_elem_of_fmap in Hkey as ([key' v] & -> & Hin). cbn.
    destruct (fields !! key') as [v0|] eqn:Hk.
    - exists v0. by apply Hkeep.
    - exists v. by apply Hdef. }
  rewrite Hfalse in Hrun'.
  rewrite decide_False in Hrun'; [exact Hrun' |].
  unfold vrows'. destruct (decide (vrows = [])); [|done].
  intros Hnil. apply (f_equal length) in Hnil. discriminate Hnil.
Qed.

Lemma setupInitialConfig_completes_once_witness :
  let mkdir : prog unit := Block (λ _, true) (Ret tt) in
  let toISOString : Z → string := λ _, "1970-01-01T00:00:00.000Z" in
  (∀ w0, run mkdir w0 = (Ok tt, w0))
  ∧ healthy boot
  ∧ reads boot "users.json" (JArr [])
  ∧ reads boot "config.json" (JObj ∅)
  ∧ reads boot "versions.json" (JArr [])
  ∧ ∃ w' rows' fields',
      run (setupInitialConfig mkdir toISOString) boot = (Ok tt, w')
      ∧ reads w' "users.json" (JArr rows')
      ∧ reads w' "config.json" (JObj fields')
      ∧ reads w' "versions.json" (JArr versionDocs)
      ∧ fields' !! "botOnline" = Some (CPrim (VBool true))
      ∧ run (setupInitialConfig mkdir toISOString) w' = (Ok tt, w').
Proof.
  intros mkdir toISOString.
  assert (Hm : ∀ w0, run mkdir w0 = (Ok tt, w0)) by reflexivity.
  assert (Hh : healthy boot) by done.
  assert (Hu : reads boot "users.json" (JArr [])) by (right; split; reflexivity).
  assert (Hc : reads boot "config.json" (JObj ∅)) by (right; split; reflexivity).
  assert (Hv : reads boot "versions.json" (JArr [])) by (right; split; reflexivity).
  split; [exact Hm |]. split; [exact Hh |]. split; [exact Hu |].
  split; [exact Hc |]. split; [exact Hv |].
  destruct (setupInitialConfig_completes_once mkdir toISOString boot [] ∅ [] Hm Hh Hu Hc Hv)
    as (w' & rows' & fields' & H1 & _ & H2 & H3 & H4 & _ & _ & _ & H5 & _ & _ & H6).
  exists w', rows', fields'.
  split; [exact H1 |]. split; [exact H2 |]. split; [exact H3 |]. split; [exact H4 |].
  split; [| exact H6].
  apply H5; [| apply lookup_empty]. apply elem_of_cons. by left.
Defined.

(** *** The periodic check *)

Arguments check : simpl never.

Lemma run_Servers_updateOne_query (query : query) id payload w rows :
  healthy w → holds w "servers.json" rows →
  query !! "_id" = Some id →
  run (Servers.updateOne query (set_ payload)) w =
    (Ok tt,
     match lookup_id id rows with
     | Some _ => stored "servers.json" (patch id payload rows) w
     | None => w
     end).
Proof.
  intros Hh Hf Hq. unfold Servers.updateOne.
  rewrite run_bind, run_await, (run_Servers_find_all w rows) by done.
  cbn. rewrite Hq. cbn.
  unfold patch, lookup_id.
  destruct (list_find _ rows) as [[i s]|]; [|done].
  by rewrite run_await, run_writeDb
    by (by apply healthy_free || by apply healthy_writable).
Qed.

Lemma run_check (alive : nat → bool) serverId clientInfo w rows :
  healthy w → holds w "servers.json" rows →
  let online := alive (client clientInfo) in
  let w0 := if online then w else set_activeClients (delete serverId) w in
  run (check alive serverId clientInfo) w =
    (Ok tt,
     match lookup_id (Some (VStr serverId)) rows with
     | Some _ =>
         stored "servers.json"
           (patch (Some (VStr serverId))
              {[ "status" := if online then Active else Stopped ]} rows) w0
     | None => w0
     end).
Proof.
  intros Hh Hf online w0. unfold check. rewrite run_try_catch. run_bind.
  assert (Hw0 : healthy w0 ∧ holds w0 "servers.json" rows)
    by (unfold w0; by destruct online).
  destruct Hw0 as [Hh0 Hf0].
  assert (Hfirst :
    run (if alive (client clientInfo) then Ret true
         else modify (set_activeClients (delete serverId));; Ret false) w
    = (Ok online, w0)).
  { unfold w0, online. by destruct (alive (client clientInfo)). }
  rewrite Hfirst. run_bind.
  rewrite run_await, (run_Servers_findById _ _ rows) by done.
  destruct (lookup_id (Some (VStr serverId)) rows) as [[i s]|] eqn:Hl; [|done].
  cbn [fmap option_fmap option_map snd].
  rewrite run_await.
  rewrite (run_Servers_updateOne_query _ (Some (VStr serverId)) _ w0 rows)
    by (done || apply lookup_insert_eq).
  by rewrite Hl.
Qed.

Lemma lookup_id_patch_is_Some id id' payload rows :
  payload !! "_id" = None →
  is_Some (lookup_id id' (patch id payload rows)) ↔ is_Some (lookup_id id' rows).
Proof.
  intros Hp. destruct (decide (id' = id)) as [->|Hne].
  - rewrite lookup_id_patch by done. by rewrite fmap_is_Some.
  - by rewrite lookup_id_patch_ne.
Qed.

Lemma swept_cons alive k b entries (m : gmap string botInfo) :
  swept alive ((k, b) :: entries) m
  = swept alive entries (if alive (client b) then m else delete k m).
Proof. done. Qed.

Lemma swept_None alive entries (m : gmap string botInfo) k :
  m !! k = None → swept alive entries m !! k = None.
Proof.
  revert m. induction entries as [|[k' b'] entries IH]; intros m Hm; [done|].
  rewrite swept_cons. apply IH. destruct (alive (client b')); [done|].
  destruct (decide (k' = k)) as [->|Hne].
  - apply lookup_delete_eq.
  - by rewrite lookup_delete_ne.
Qed.

Lemma swept_dead alive entries (m : gmap string botInfo) k b :
  (k, b) ∈ entries → alive (client b) = false → swept alive entries m !! k = None.
Proof.
  revert m. induction entries as [|[k' b'] entries IH]; intros m Hin Hd.
  - by apply elem_of_nil in Hin.
  - rewrite swept_cons. apply elem_of_cons in Hin as [[= -> ->]|Hin].
    + rewrite Hd. apply swept_None, lookup_delete_eq.
    + by apply IH.
Qed.

Lemma swept_live alive entries (m : gmap string botInfo) k :
  (∀ b, (k, b) ∈ entries → alive (client b) = true) →
  swept alive entries m !! k = m !! k.
Proof.
  revert m. induction entries as [|[k' b'] entries IH]; intros m Hlive; [done|].
  rewrite swept_cons. rewrite IH by (intros b Hb; apply Hlive; by right).
  destruct (alive (client b')) eqn:Ha; [done|].
  apply lookup_delete_ne. intros ->.
  rewrite (Hlive b') in Ha by by left. done.
Qed.

Lemma sweep_loop (alive : nat → bool) entries w rows :
  healthy w → holds w "servers.json" rows →
  ∃ w' rows',
    run (foldr (λ '(serverId, clientInfo) rest, check alive serverId clientInfo;; rest)
           (Ret tt) entries) w = (Ok tt, w')
    ∧ healthy w' ∧ holds w' "servers.json" rows'
    ∧ clients w' = clients w ∧ timers w' = timers w ∧ outbox w' = outbox w
    ∧ console w' = console w
    ∧ activeClients w' = swept alive entries (activeClients w)
    ∧ (∀ id, is_Some (lookup_id id rows') ↔ is_Some (lookup_id id rows))
    ∧ (∀ id, (∀ k, k ∈ entries.*1 → id ≠ Some (VStr k)) →
         lookup_id id rows' = lookup_id id rows)
    ∧ (∀ id key, key ≠ "status" →
         (snd <$> lookup_id id rows') ≫= (λ s : doc, s !! key)
         = (snd <$> lookup_id id rows) ≫= (λ s : doc, s !! key))
    ∧ (NoDup entries.*1 → ∀ k b, (k, b) ∈ entries →
         is_Some (lookup_id (Some (VStr k)) rows) →
         (snd <$> lookup_id (Some (VStr k)) rows') ≫= (λ s : doc, s !! "status")
         = Some (if alive (client b) then Active else Stopped)).
Proof.
  revert w rows. induction entries as [|[k b] entries IH]; intros w rows Hh Hf.
  - exists w, rows. split_and!; try done.
    intros _ k b Hin. by apply elem_of_nil in Hin.
  - cbn [foldr]. run_bind. rewrite (run_check alive k b w rows) by done.
    cbv zeta.
    set (online := alive (client b)).
    set (w0 := if online then w else set_activeClients (delete k) w).
    set (payload := ({[ "status" := if online then Active else Stopped ]} : doc)).
    set (rows1 := patch (Some (VStr k)) payload rows).
    set (w1 := match lookup_id (Some (VStr k)) rows with
               | Some _ => stored "servers.json" rows1 w0
               | None => w0
               end).
    assert (Hp : payload !! "_id" = None) by (unfold payload; by destruct online).
    assert (Hw1 : healthy w1 ∧ holds w1 "servers.json" rows1
                  ∧ clients w1 = clients w ∧ timers w1 = timers w
                  ∧ outbox w1 = outbox w ∧ console w1 = console w
                  ∧ activeClients w1
                    = if online then activeClients w else delete k (activeClients w)).
    { unfold w1, rows1, patch, w0.
      destruct (lookup_id (Some (VStr k)) rows) as [[i s]|];
        destruct online; split_and!; try done; apply holds_stored. }
    destruct Hw1 as (Hh1 & Hf1 & Hcl1 & Htm1 & Hout1 & Hcon1 & Hac1).
    destruct (IH w1 rows1 Hh1 Hf1)
      as (w' & rows' & Hrun & Hh' & Hf' & Hcl & Htm & Hout & Hcon & Hac
          & Hsome & Hframe & Hkeys & Hstatus).
    exists w', rows'. split; [exact Hrun|].
    split_and!; try done; try congruence.
    + rewrite Hac, Hac1, swept_cons. fold online. by destruct online.
    + intros id. rewrite Hsome. by apply lookup_id_patch_is_Some.
    + intros id Hid. rewrite Hframe.
      * apply lookup_id_patch_ne; [|done]. apply Hid. cbn. by left.
      * intros k' Hk'. apply Hid. cbn. by right.
    + intros id key Hkey. rewrite Hkeys by done. unfold rows1.
      destruct (decide (id = Some (VStr k))) as [->|Hne].
      * rewrite lookup_id_patch by done.
        destruct (lookup_id (Some (VStr k)) rows) as [[i s]|]; [|done]. cbn.
        apply lookup_union_r. unfold payload. by apply lookup_singleton_ne.
      * by rewrite lookup_id_patch_ne.
    + intros Hnodup k' b' Hin Hrec. cbn in Hnodup.
      apply NoDup_cons in Hnodup as [Hfresh Hnodup].
      apply elem_of_cons in Hin as [[= -> ->]|Hin].
      * rewrite Hframe.
        2:{ intros k' Hk' [= ->]. done. }
        unfold rows1. rewrite lookup_id_patch by done.
        destruct Hrec as [[i s] Hl]. rewrite Hl. cbn.
        apply lookup_union_Some_l. unfold payload. apply lookup_singleton_eq.
      * apply Hstatus; [done | done |]. by apply lookup_id_patch_is_Some.
Qed.

(** The periodic check, on a store that answers, drops exactly the
    sessions whose client is no longer alive and keeps the others; no
    client is torn down, no listener removed, no timer armed and no
    message sent.  Each server that has a record and is met once is stored
    as Active if its client is alive and as Stopped if not, whatever its
    status and its [autoRestart] were; no other field of a record and no
    other record changes. *)
Theorem checkServersStatus_drops_dead_sessions
    (alive : nat → bool) (w : world) (entries : list (string * botInfo))
    (rows : list doc) :
  healthy w →
  holds w "servers.json" rows →
  ∃ w',
    run (checkServersStatus alive entries) w = (Ok tt, w')
    ∧ activeClients w' = swept alive entries (activeClients w)
    ∧ (∀ k b, (k, b) ∈ entries → alive (client b) = false →
         activeClients w' !! k = None)
    ∧ (∀ k, (∀ b, (k, b) ∈ entries → alive (client b) = true) →
         activeClients w' !! k = activeClients w !! k)
    ∧ clients w' = clients w
    ∧ timers w' = timers w
    ∧ outbox w' = outbox w
    ∧ (NoDup entries.*1 → ∀ k b, (k, b) ∈ entries →
         is_Some (record w (Some (VStr k))) →
         status w' (Some (VStr k))
         = Some (if alive (client b) then Active else Stopped))
    ∧ (∀ id key, key ≠ "status" →
         (r ← record w' id; r !! key) = (r ← record w id; r !! key))
    ∧ (∀ id, (∀ k, k ∈ entries.*1 → id ≠ Some (VStr k)) →
         record w' id = record w id).
Proof.
  intros Hh Hf. unfold checkServersStatus.
  run_bind. cbn [run].
  set (wa := if decide (0 < size (activeClients w))%nat
             then set_console
                    (λ c, (c ++ ["🚀 بدء فحص " +:+ pretty (size (activeClients w))
                                 +:+ " سيرفر شغّال..."])%list) w
             else w).
  assert (Hstart :
    run (if decide (0 < size (activeClients w))%nat
         then log ("🚀 بدء فحص " +:+ pretty (size (activeClients w))
                   +:+ " سيرفر شغّال...")
         else Ret tt) w = (Ok tt, wa)).
  { unfold wa. by destruct (decide (0 < size (activeClients w))%nat). }
  rewrite Hstart.
  assert (Hwa : healthy wa ∧ holds wa "servers.json" rows
                ∧ activeClients wa = activeClients w ∧ clients wa = clients w
                ∧ timers wa = timers w ∧ outbox wa = outbox w).
  { unfold wa. by destruct (decide (0 < size (activeClients w))%nat). }
  destruct Hwa as (Hha & Hfa & Haca & Hcla & Htma & Houta).
  destruct (sweep_loop alive entries wa rows Hha Hfa)
    as (w1 & rows1 & Hrun & Hh1 & Hf1 & Hcl & Htm & Hout & Hcon & Hac
        & Hsome & Hframe & Hkeys & Hstatus).
  run_bind. rewrite Hrun. cbn [run].
  set (w' := if decide (0 < size (activeClients w1))%nat
             then set_console (λ c, (c ++ ["✅ فحص السيرفرات المشغلة اكتمل."])%list) w1
             else w1).
  assert (Hend :
    run (if decide (0 < size (activeClients w1))%nat
         then log "✅ فحص السيرفرات المشغلة اكتمل."
         else Ret tt) w1 = (Ok tt, w')).
  { unfold w'. by destruct (decide (0 < size (activeClients w1))%nat). }
  rewrite Hend.
  assert (Hw' : holds w' "servers.json" rows1
                ∧ activeClients w' = activeClients w1 ∧ clients w' = clients w1
                ∧ timers w' = timers w1 ∧ outbox w' = outbox w1).
  { unfold w'. by destruct (decide (0 < size (activeClients w1))%nat). }
  destruct Hw' as (Hf' & Hac' & Hcl' & Htm' & Hout').
  assert (Hswept : activeClients w' = swept alive entries (activeClients w))
    by (by rewrite Hac', Hac, Haca).
  exists w'. split; [reflexivity |]. split; [exact Hswept |].
  split; [intros k b Hin Hd; rewrite Hswept; by eapply swept_dead |].
  split; [intros k Hlive; rewrite Hswept; by apply swept_live |].
  split; [congruence |]. split; [congruence |]. split; [congruence |].
  split.
  { intros Hnodup k b Hin Hrec. unfold status.
    rewrite (record_holds w' rows1) by done.
    rewrite (record_holds w rows) in Hrec by done.
    apply (Hstatus Hnodup k b Hin). by apply fmap_is_Some in Hrec. }
  split.
  { intros id key Hkey.
    rewrite (record_holds w' rows1), (record_holds w rows) by done.
    by apply Hkeys. }
  intros id Hid. rewrite (record_holds w' rows1), (record_holds w rows) by done.
  by rewrite Hframe.
Qed.

Lemma checkServersStatus_drops_dead_sessions_witness :
  let w := watching true in
  let b := BotInfo 0 "bedrock" (Some (VStr "a1")) 0 in
  healthy w
  ∧ holds w "servers.json" [a1_live true]
  ∧ ∃ w',
      run (checkServersStatus (λ _, false) [("a1", b)]) w = (Ok tt, w')
      ∧ activeClients w' !! "a1" = None
      ∧ clients w' = clients w
      ∧ timers w' = timers w.
Proof.
  intros w b.
  assert (Hh : healthy w) by done.
  assert (Hf : holds w "servers.json" [a1_live true]) by reflexivity.
  split; [exact Hh |]. split; [exact Hf |].
  destruct (checkServersStatus_drops_dead_sessions (λ _, false) w [("a1", b)]
              [a1_live true] Hh Hf) as (w' & H1 & _ & H2 & _ & H3 & H4 & _).
  exists w'. split; [exact H1 |].
  split; [apply (H2 "a1" b); [by left | reflexivity] |].
  split; [exact H3 | exact H4].
Defined.

(** *** Records that are not there *)

Arguments Servers.countDocuments : simpl never.

(** A start, a stop or a menu request for an id that has no record writes
    nothing and touches no session: it answers [server_not_found] and
    returns, also when that answer is refused, and a stop without a chat
    to answer to does nothing at all. *)
Theorem unknown_server_is_only_reported
    (w : world) (ctx : context) (chat : Z) (id : option jsval) (rows : list doc) :
  healthy w →
  holds w "servers.json" rows →
  lookup_id id rows = None →
  run (startBot ctx id) w = (Ok tt, edited ctx (Msg "server_not_found") w)
  ∧ run (stopBot (Some chat) id) w
    = (Ok tt, chatter [] [EditMessageText chat (Msg "server_not_found")] w)
  ∧ run (stopBot None id) w = (Ok tt, w)
  ∧ run (manageServerAction (Some chat) id) w
    = (Ok tt, chatter [] [EditMessageText chat (Msg "server_not_found")] w).
Proof.
  intros Hh Hf Hl. split_and!.
  - unfold startBot.
    rewrite run_bind, run_await, (run_Servers_findById _ _ rows), Hl by done.
    apply run_ignoring_edit_opt.
  - by apply (run_stopBot_missing chat id w rows).
  - unfold stopBot.
    rewrite run_bind, run_await, (run_Servers_findById _ _ rows), Hl by done.
    reflexivity.
  - unfold manageServerAction.
    rewrite run_bind, run_await, (run_Servers_findById _ _ rows), Hl by done.
    cbn [fmap option_fmap option_map editMessageText].
    rewrite run_ignoring_call. by rewrite outbox_chatter.
Qed.

Lemma unknown_server_is_only_reported_witness :
  let w := one_server true in
  healthy w
  ∧ holds w "servers.json" [a1 true]
  ∧ lookup_id (Some (VStr "zz")) [a1 true] = None
  ∧ run (startBot (Some 100) (Some (VStr "zz"))) w
    = (Ok tt, edited (Some 100) (Msg "server_not_found") w).
Proof.
  intros w.
  assert (Hh : healthy w) by done.
  assert (Hf : holds w "servers.json" [a1 true]) by reflexivity.
  assert (Hl : lookup_id (Some (VStr "zz")) [a1 true] = None) by reflexivity.
  split; [exact Hh |]. split; [exact Hf |]. split; [exact Hl |].
  exact (proj1 (unknown_server_is_only_reported w (Some 100) 100 (Some (VStr "zz"))
                  [a1 true] Hh Hf Hl)).
Defined.

Lemma run_Servers_find_query query w rows :
  healthy w → holds w "servers.json" rows → query ≠ ∅ →
  run (Servers.find query) w = (Ok (JArr (filter (matches query) rows)), w).
Proof.
  intros Hh Hf Hq. unfold Servers.find.
  rewrite run_bind, run_await, run_readDb by by apply healthy_free.
  rewrite Hf. by rewrite decide_False.
Qed.

Lemma run_Servers_countDocuments query w rows :
  healthy w → holds w "servers.json" rows →
  run (Servers.countDocuments query) w
  = (Ok (Some (CPrim (VNum (Z.of_nat (length (filter (matches query) rows)))))), w).
Proof.
  intros Hh Hf. unfold Servers.countDocuments.
  rewrite run_bind, run_await, (run_Servers_find_all w rows) by done.
  case_decide as Hq; [|done].
  cbn. rewrite Hq, filter_all; [done|].
  apply Forall_forall. intros s _. apply map_Forall_empty.
Qed.

Lemma run_Servers_findOne query w rows :
  healthy w → holds w "servers.json" rows →
  run (Servers.findOne query) w = (Ok (snd <$> list_find (matches query) rows), w).
Proof.
  intros Hh Hf. unfold Servers.findOne.
  by rewrite run_bind, run_await, (run_Servers_find_all w rows).
Qed.

(** [Servers.countDocuments(query)] is the number of servers the query
    answers to (all of them for the empty query).  After
    [Servers.deleteOne(query)] that number is zero, [findOne] and [find]
    with the same query come back empty, and the servers left are as
    many as there were, less those the query answered to. *)
Theorem deleteOne_then_count
    (w : world) (rows : list doc) (query : query) :
  healthy w →
  holds w "servers.json" rows →
  query ≠ ∅ →
  let matching := length (filter (matches query) rows) in
  run (Servers.countDocuments query) w
  = (Ok (Some (CPrim (VNum (Z.of_nat matching)))), w)
  ∧ run (Servers.countDocuments ∅) w
    = (Ok (Some (CPrim (VNum (Z.of_nat (length rows))))), w)
  ∧ ∃ n w',
      run (Servers.deleteOne query) w = (Ok n, w')
      ∧ run (Servers.countDocuments query) w' = (Ok (Some (CPrim (VNum 0))), w')
      ∧ run (Servers.findOne query) w' = (Ok None, w')
      ∧ run (Servers.find query) w' = (Ok (JArr []), w')
      ∧ run (Servers.countDocuments ∅) w'
        = (Ok (Some (CPrim (VNum (Z.of_nat (length rows) - Z.of_nat matching)))), w').
Proof.
  intros Hh Hf Hq matching.
  split; [by apply run_Servers_countDocuments |].
  split.
  { rewrite (run_Servers_countDocuments ∅ w rows) by done.
    rewrite filter_all; [done|].
    apply Forall_forall. intros s _. apply map_Forall_empty. }
  set (rest := filter (λ s, ¬ matches query s) rows).
  assert (Hnone : Forall (λ s, ¬ matches query s) rest).
  { apply Forall_forall. intros s Hs. by apply list_elem_of_filter in Hs as [? _]. }
  assert (Hempty : filter (matches query) rest = []) by by apply filter_nothing.
  assert (Hlen : (length rest + matching = length rows)%nat)
    by apply filter_split_length.
  assert (Hafter : ∃ n w',
    run (Servers.deleteOne query) w = (Ok n, w')
    ∧ healthy w' ∧ holds w' "servers.json" rest).
  { rewrite (run_Servers_deleteOne w rows) by done.
    case_decide as Hall.
    - exists 0, w. split_and!; try done. unfold rest. by rewrite filter_all.
    - exists 1, (stored "servers.json" rest w).
      split_and!; [done | by apply healthy_stored | apply holds_stored]. }
  destruct Hafter as (n & w' & Hrun & Hh' & Hf').
  exists n, w'. split; [exact Hrun |].
  split; [by rewrite (run_Servers_countDocuments query w' rest), Hempty |].
  split.
  { rewrite (run_Servers_findOne query w' rest) by done.
    assert (list_find (matches query) rest = None) as ->; [|done].
    by apply list_find_None. }
  split; [by rewrite (run_Servers_find_query query w' rest), Hempty |].
  rewrite (run_Servers_countDocuments ∅ w' rest) by done.
  rewrite filter_all.
  - do 5 f_equal. lia.
  - apply Forall_forall. intros s _. apply map_Forall_empty.
Qed.

Lemma deleteOne_then_count_witness :
  let w := over [("servers.json", Text (Some (JArr three_servers)))] in
  let query : query := {[ "userId" := Some (VNum 7) ]} in
  healthy w
  ∧ holds w "servers.json" three_servers
  ∧ query ≠ ∅
  ∧ ∃ n w',
      run (Servers.deleteOne query) w = (Ok n, w')
      ∧ run (Servers.countDocuments query) w' = (Ok (Some (CPrim (VNum 0))), w')
      ∧ run (Servers.findOne query) w' = (Ok None, w').
Proof.
  intros w query.
  assert (Hh : healthy w) by done.
  assert (Hf : holds w "servers.json" three_servers) by reflexivity.
  assert (Hq : query ≠ ∅).
  { intros Hempty.
    pose proof (lookup_singleton_eq (M:=gmap string) "userId" (Some (VNum 7))) as Hs.
    unfold query in Hempty. rewrite Hempty in Hs. by rewrite lookup_empty in Hs. }
  split; [exact Hh |]. split; [exact Hf |]. split; [exact Hq |].
  destruct (deleteOne_then_count w three_servers query Hh Hf Hq)
    as (_ & _ & n & w' & H1 & H2 & H3 & _).
  exists n, w'. split; [exact H1 |]. split; [exact H2 | exact H3].
Defined.
